(** * ROARVR: marker/tracker pose fusion and the Vive tracker relay

    A shallow embedding of [camera_d_t.py] (class [RS_D_T]) and of
    [vive/vive_tracker_server.py] (class [ViveTrackerServer]).

    Conventions of the embedding.
    - A Python [float] (and a numpy float64 cell) is idealised as a real
      number: rounding, infinities and NaN cells are not modelled.
    - numpy arrays of a fixed small shape are records of reals
      ([vec3], [vec4], [mat3], [mat4]).
    - The methods of [RS_D_T] mutate [self], print, read sensors and may
      raise: they are written in a small monad [M] that threads the object,
      collects the visible effects as a list of events, and ends in a value,
      a raised exception, or a read that blocks for want of a frame.
    - What belongs to OpenCV (marker detection, pose estimation, the
      Rodrigues conversion) is an interface, the class [Cv2].  numpy's
      [linalg.inv] and Python's [math.asin], [math.atan2] are given their
      mathematical meaning over the reals. *)

From Stdlib Require Import Reals Lra List ZArith Bool String Ascii.
From stdpp Require Import base option gmap strings.
Import ListNotations.

Local Open Scope R_scope.

(** ** Exceptions *)

(** The exceptions that the modelled code can raise.  [SystemExit] is the
    only one that is not a subclass of [Exception]. *)
Inductive exn : Type :=
| ValueError          (* math domain error; ambiguous truth value; broadcast *)
| RuntimeError        (* a sensor read that fails *)
| LinAlgError         (* numpy.linalg.inv on a singular matrix *)
| TypeError           (* an operand that is None *)
| CvError             (* an OpenCV call on an array of the wrong shape *)
| UnicodeDecodeError  (* bytes.decode on malformed input *)
| SystemExit (code : Z).

Definition is_Exception (e : exn) : bool :=
  match e with
  | SystemExit _ => false
  | _ => true
  end.

(** ** Python's floats and [math] module over the reals *)

Module PyMath.

(** [a > b] on floats. *)
Definition gt (a b : R) : bool := if Rlt_dec b a then true else false.

(** [max(a, b)]: the first argument unless the second is greater. *)
Definition max (a b : R) : R := if Rlt_dec a b then b else a.

(** [math.asin]: raises [ValueError] outside of [-1, 1]. *)
Definition asin (v : R) : exn + R :=
  if Rlt_dec v (-1) then inl ValueError
  else if Rlt_dec 1 v then inl ValueError
  else inr (Ratan.asin v).

(** [math.atan2(y, x)], the angle of the point [(x, y)] in (-pi, pi]. *)
Definition atan2 (y x : R) : R :=
  if Rlt_dec 0 x then atan (y / x)
  else if Rlt_dec x 0 then
    (if Rlt_dec y 0 then atan (y / x) - PI else atan (y / x) + PI)
  else if Rlt_dec 0 y then PI / 2
  else if Rlt_dec y 0 then - (PI / 2)
  else 0.

End PyMath.

(** ** numpy arrays of the shapes the program uses *)

Module Np.

Record vec3 : Type := V3 { c0 : R; c1 : R; c2 : R }.
Record vec4 : Type := V4 { h0 : R; h1 : R; h2 : R; h3 : R }.

(** A 3x3 array, row by row. *)
Record mat3 : Type := M3 { r0 : vec3; r1 : vec3; r2 : vec3 }.

(** A 4x4 array, row by row. *)
Record mat4 : Type := M4 { w0 : vec4; w1 : vec4; w2 : vec4; w3 : vec4 }.

Definition dot4 (a b : vec4) : R :=
  h0 a * h0 b + h1 a * h1 b + h2 a * h2 b + h3 a * h3 b.

Definition col (j : nat) (m : mat4) : vec4 :=
  let pick v := match j with
                | O => h0 v | 1%nat => h1 v | 2%nat => h2 v | _ => h3 v
                end in
  V4 (pick (w0 m)) (pick (w1 m)) (pick (w2 m)) (pick (w3 m)).

(** [A @ v] for a 4x4 array and a vector of length 4. *)
Definition matvec (a : mat4) (v : vec4) : vec4 :=
  V4 (dot4 (w0 a) v) (dot4 (w1 a) v) (dot4 (w2 a) v) (dot4 (w3 a) v).

(** [A @ B] for two 4x4 arrays. *)
Definition matmul (a b : mat4) : mat4 :=
  let row r := V4 (dot4 r (col 0 b)) (dot4 r (col 1 b))
                  (dot4 r (col 2 b)) (dot4 r (col 3 b)) in
  M4 (row (w0 a)) (row (w1 a)) (row (w2 a)) (row (w3 a)).

(** [v[:3]] *)
Definition take3 (v : vec4) : vec3 := V3 (h0 v) (h1 v) (h2 v).

(** [np.identity(4)] and [np.zeros((4, 4))] *)
Definition identity4 : mat4 :=
  M4 (V4 1 0 0 0) (V4 0 1 0 0) (V4 0 0 1 0) (V4 0 0 0 1).

Definition zeros4 : mat4 :=
  M4 (V4 0 0 0 0) (V4 0 0 0 0) (V4 0 0 0 0) (V4 0 0 0 0).

Definition identity3 : mat3 := M3 (V3 1 0 0) (V3 0 1 0) (V3 0 0 1).

(** [m[:3, :3] = r]: overwrite the upper-left 3x3 block. *)
Definition set_block33 (m : mat4) (r : mat3) : mat4 :=
  let put row v := V4 (c0 v) (c1 v) (c2 v) (h3 row) in
  M4 (put (w0 m) (r0 r)) (put (w1 m) (r1 r)) (put (w2 m) (r2 r)) (w3 m).

(** [m[:3, 3] = t]: overwrite rows 0..2 of the last column. *)
Definition set_col3 (m : mat4) (t : vec3) : mat4 :=
  let put row v := V4 (h0 row) (h1 row) (h2 row) v in
  M4 (put (w0 m) (c0 t)) (put (w1 m) (c1 t)) (put (w2 m) (c2 t)) (w3 m).

(** [m[3, :] = v]: overwrite the last row. *)
Definition set_row3 (m : mat4) (v : vec4) : mat4 :=
  M4 (w0 m) (w1 m) (w2 m) v.

Definition scale4 (c : R) (m : mat4) : mat4 :=
  let sv v := V4 (c * h0 v) (c * h1 v) (c * h2 v) (c * h3 v) in
  M4 (sv (w0 m)) (sv (w1 m)) (sv (w2 m)) (sv (w3 m)).

(** The determinant of a 4x4 array, from the 2x2 minors of its two upper
    rows ([s]) and of its two lower rows ([k]). *)
Definition det4 (a : mat4) : R :=
  let '(M4 (V4 a00 a01 a02 a03) (V4 a10 a11 a12 a13)
           (V4 a20 a21 a22 a23) (V4 a30 a31 a32 a33)) := a in
  let s0 := a00 * a11 - a10 * a01 in let s1 := a00 * a12 - a10 * a02 in
  let s2 := a00 * a13 - a10 * a03 in let s3 := a01 * a12 - a11 * a02 in
  let s4 := a01 * a13 - a11 * a03 in let s5 := a02 * a13 - a12 * a03 in
  let k0 := a20 * a31 - a30 * a21 in let k1 := a20 * a32 - a30 * a22 in
  let k2 := a20 * a33 - a30 * a23 in let k3 := a21 * a32 - a31 * a22 in
  let k4 := a21 * a33 - a31 * a23 in let k5 := a22 * a33 - a32 * a23 in
  s0 * k5 - s1 * k4 + s2 * k3 + s3 * k2 - s4 * k1 + s5 * k0.

(** Its adjugate (the transposed matrix of cofactors). *)
Definition adjugate4 (a : mat4) : mat4 :=
  let '(M4 (V4 a00 a01 a02 a03) (V4 a10 a11 a12 a13)
           (V4 a20 a21 a22 a23) (V4 a30 a31 a32 a33)) := a in
  let s0 := a00 * a11 - a10 * a01 in let s1 := a00 * a12 - a10 * a02 in
  let s2 := a00 * a13 - a10 * a03 in let s3 := a01 * a12 - a11 * a02 in
  let s4 := a01 * a13 - a11 * a03 in let s5 := a02 * a13 - a12 * a03 in
  let k0 := a20 * a31 - a30 * a21 in let k1 := a20 * a32 - a30 * a22 in
  let k2 := a20 * a33 - a30 * a23 in let k3 := a21 * a32 - a31 * a22 in
  let k4 := a21 * a33 - a31 * a23 in let k5 := a22 * a33 - a32 * a23 in
  M4 (V4 (a11 * k5 - a12 * k4 + a13 * k3)
         (- a01 * k5 + a02 * k4 - a03 * k3)
         (a31 * s5 - a32 * s4 + a33 * s3)
         (- a21 * s5 + a22 * s4 - a23 * s3))
     (V4 (- a10 * k5 + a12 * k2 - a13 * k1)
         (a00 * k5 - a02 * k2 + a03 * k1)
         (- a30 * s5 + a32 * s2 - a33 * s1)
         (a20 * s5 - a22 * s2 + a23 * s1))
     (V4 (a10 * k4 - a11 * k2 + a13 * k0)
         (- a00 * k4 + a01 * k2 - a03 * k0)
         (a30 * s4 - a31 * s2 + a33 * s0)
         (- a20 * s4 + a21 * s2 - a23 * s0))
     (V4 (- a10 * k3 + a11 * k1 - a12 * k0)
         (a00 * k3 - a01 * k1 + a02 * k0)
         (- a30 * s3 + a31 * s1 - a32 * s0)
         (a20 * s3 - a21 * s1 + a22 * s0)).

(** [np.linalg.inv]: the inverse matrix, [LinAlgError] on a singular
    argument. *)
Definition linalg_inv (a : mat4) : exn + mat4 :=
  if Req_dec_T (det4 a) 0 then inl LinAlgError
  else inr (scale4 (/ det4 a) (adjugate4 a)).

End Np.

(** ** Effects: state, visible events, exceptions, blocking reads *)

Module Eff.

(** How a call ends: it returns, it raises, or it waits for a frame that
    the finite input prefix under consideration does not contain. *)
Inductive outcome (A : Type) : Type :=
| Returns (a : A)
| Raises (e : exn)
| Blocks.
Arguments Returns {A} a.
Arguments Raises {A} e.
Arguments Blocks {A}.

(** A computation over an object of type [S] that emits events of type [E]:
    the events in the order of their occurrence, the object at the end,
    and the outcome. *)
Definition M (E S A : Type) : Type := S -> list E * S * outcome A.

Definition ret {E S A} (a : A) : M E S A := fun s => ([], s, Returns a).

Definition bind {E S A B} (m : M E S A) (f : A -> M E S B) : M E S B :=
  fun s =>
    let '(t1, s1, o) := m s in
    match o with
    | Returns a => let '(t2, s2, o2) := f a s1 in (t1 ++ t2, s2, o2)
    | Raises e => (t1, s1, Raises e)
    | Blocks => (t1, s1, Blocks)
    end.

Definition raise {E S A} (e : exn) : M E S A := fun s => ([], s, Raises e).
Definition block {E S A} : M E S A := fun s => ([], s, Blocks).
Definition emit {E S} (ev : E) : M E S unit := fun s => ([ev], s, Returns tt).
Definition get {E S} : M E S S := fun s => ([], s, Returns s).
Definition modify {E S} (f : S -> S) : M E S unit := fun s => ([], f s, Returns tt).

(** A library call that returns or raises. *)
Definition lift {E S A} (r : exn + A) : M E S A :=
  match r with
  | inl e => raise e
  | inr a => ret a
  end.

(** [try: m  except Exception as e: h e].  [SystemExit] passes through. *)
Definition try_except {E S A} (m : M E S A) (h : exn -> M E S A) : M E S A :=
  fun s =>
    let '(t1, s1, o) := m s in
    match o with
    | Raises e =>
        if is_Exception e
        then let '(t2, s2, o2) := h e s1 in (t1 ++ t2, s2, o2)
        else (t1, s1, Raises e)
    | _ => (t1, s1, o)
    end.

Definition when {E S} (b : bool) (m : M E S unit) : M E S unit :=
  if b then m else ret tt.

Definition events {E S A} (r : list E * S * outcome A) : list E := fst (fst r).
Definition object {E S A} (r : list E * S * outcome A) : S := snd (fst r).
Definition result {E S A} (r : list E * S * outcome A) : outcome A := snd r.

End Eff.

Import Eff.

Declare Scope eff_scope.
Delimit Scope eff_scope with eff.
Notation "x <- m ;; k" := (bind m (fun x => k))
  (at level 100, m at next level, right associativity) : eff_scope.
Notation "m ;; k" := (bind m (fun _ => k))
  (at level 100, right associativity) : eff_scope.

(** ** OpenCV, as far as [camera_d_t.py] calls it *)

(** [cv2] and [cv2.aruco].  [detectMarkers] yields the corner sets and the
    array of marker ids, which is [None] when no marker is found and an
    N x 1 array otherwise; [estimatePoseSingleMarkers] yields one rotation
    vector and one translation vector per corner set (arrays of shape
    N x 1 x 3); [Rodrigues] turns a rotation vector into a 3x3 rotation
    matrix. *)
Class Cv2 : Type := {
  image : Type;
  corners : Type;
  detectMarkers : image -> list corners * option (list Z);
  estimatePoseSingleMarkers : list corners -> list Np.vec3 * list Np.vec3;
  Rodrigues : Np.vec3 -> Np.mat3
}.

(** ** [camera_d_t.py] *)

Module Camera.

Import Np.

(** The two RealSense pipelines of the object. *)
Inductive pipe : Type :=
| pipe_t   (* the tracking camera: pose stream *)
| pipe_d.  (* the colour camera *)

(** The texts that the object prints, logs, or draws on the frame. *)
Inductive text : Type :=
| CalibrationProcessStarts
| CalibrationFails
| RollYall (roll yaw : R)         (* "roll: {}, yall: {} | expected: both < 1" *)
| RollYallRounded (roll yaw : R)  (* the same, both rounded to 3 decimals *)
| AnglesAreCorrect
| MarkerNotDetected
| MarkerDetected
| CalibrationFailsMarkerNotDetected
| CalibrationSuccess
| NotCalibratedYet
| ShuttingDown
| Rounded (v : vec3)              (* str(np.round(v, decimals=3)) *)
| Error (e : exn).

Inductive event : Type :=
| WaitForFrames (p : pipe)
| PipeStop (p : pipe)
| Sleep
| AruCoDetectMarkers
| DrawAxis
| DrawDetectedMarkers
| Print (t : text)
| LoggerDebug (t : text)
| LoggerError (t : text)
| PutText (t : text)
| ImShow
| WaitKey
| DestroyAllWindows.

(** [CAM_CONFIG], the entries that the modelled methods read. *)
Definition CAM_CONFIG_use_default_cam2cam : bool := true.
Definition CAM_CONFIG_detect_mode : bool := false.
Definition CAM_CONFIG_calibrate_threshold : R := 1.

(** The attributes of an [RS_D_T] object that its methods read or write. *)
Record RS_D_T : Type := {
  show_gui : bool;
  rgb_mtx : mat3;
  rgb_dist : list R;
  location : vec3;
  running : bool;
  calibrated : bool;
  use_default_cam2cam : bool;
  detect_mode : bool;
  calibrate_thres : R;
  t2d : option mat4;
  d2m : option mat4;
  t2m : option mat4
}.

(** The object that [__init__] leaves when both pipelines start; [mtx] and
    [dist] are the intrinsics that the colour stream reports. *)
Definition init (GUI : bool) (mtx : mat3) (dist : list R) : RS_D_T :=
  {| show_gui := GUI;
     rgb_mtx := mtx;
     rgb_dist := dist;
     location := V3 0 0 0;
     running := true;
     calibrated := false;
     use_default_cam2cam := CAM_CONFIG_use_default_cam2cam;
     detect_mode := CAM_CONFIG_detect_mode;
     calibrate_thres := CAM_CONFIG_calibrate_threshold;
     t2d := None; d2m := None; t2m := None |}.

Definition set_location (v : vec3) (s : RS_D_T) : RS_D_T :=
  {| show_gui := show_gui s; rgb_mtx := rgb_mtx s; rgb_dist := rgb_dist s;
     location := v; running := running s;
     calibrated := calibrated s; use_default_cam2cam := use_default_cam2cam s;
     detect_mode := detect_mode s; calibrate_thres := calibrate_thres s;
     t2d := t2d s; d2m := d2m s; t2m := t2m s |}.

Definition set_detect_mode (b : bool) (s : RS_D_T) : RS_D_T :=
  {| show_gui := show_gui s; rgb_mtx := rgb_mtx s; rgb_dist := rgb_dist s;
     location := location s; running := running s;
     calibrated := calibrated s; use_default_cam2cam := use_default_cam2cam s;
     detect_mode := b; calibrate_thres := calibrate_thres s;
     t2d := t2d s; d2m := d2m s; t2m := t2m s |}.

Definition set_d2m (m : mat4) (s : RS_D_T) : RS_D_T :=
  {| show_gui := show_gui s; rgb_mtx := rgb_mtx s; rgb_dist := rgb_dist s;
     location := location s; running := running s;
     calibrated := calibrated s; use_default_cam2cam := use_default_cam2cam s;
     detect_mode := detect_mode s; calibrate_thres := calibrate_thres s;
     t2d := t2d s; d2m := Some m; t2m := t2m s |}.

Definition set_t2d (m : mat4) (s : RS_D_T) : RS_D_T :=
  {| show_gui := show_gui s; rgb_mtx := rgb_mtx s; rgb_dist := rgb_dist s;
     location := location s; running := running s;
     calibrated := calibrated s; use_default_cam2cam := use_default_cam2cam s;
     detect_mode := detect_mode s; calibrate_thres := calibrate_thres s;
     t2d := Some m; d2m := d2m s; t2m := t2m s |}.

Definition set_t2m (m : mat4) (s : RS_D_T) : RS_D_T :=
  {| show_gui := show_gui s; rgb_mtx := rgb_mtx s; rgb_dist := rgb_dist s;
     location := location s; running := running s;
     calibrated := calibrated s; use_default_cam2cam := use_default_cam2cam s;
     detect_mode := detect_mode s; calibrate_thres := calibrate_thres s;
     t2d := t2d s; d2m := d2m s; t2m := Some m |}.

Definition set_calibrated (b : bool) (s : RS_D_T) : RS_D_T :=
  {| show_gui := show_gui s; rgb_mtx := rgb_mtx s; rgb_dist := rgb_dist s;
     location := location s; running := running s;
     calibrated := b; use_default_cam2cam := use_default_cam2cam s;
     detect_mode := detect_mode s; calibrate_thres := calibrate_thres s;
     t2d := t2d s; d2m := d2m s; t2m := t2m s |}.

(** What [pose_frame.get_pose_data()] carries: a translation and a rotation
    quaternion (x, y, z, w). *)
Record pose : Type := { translation : vec3; rotation : vec4 }.

(** What the outside world supplies to one pass of a loop body: the next
    frame of each pipeline ([None] when [wait_for_frames] raises), and the
    key that [cv2.waitKey] reports (-1 when no key is down). *)
Record tick `{Cv2} : Type := {
  next_pose : option pose;
  next_color : option image;
  key : Z
}.

Section Methods.
Context `{Cv2}.
Local Open Scope eff_scope.

(** The monad of the methods of [RS_D_T]. *)
Definition Run (A : Type) : Type := M event RS_D_T A.

(** [pipe.wait_for_frames()] followed by the accessor of the frame. *)
Definition wait_for_frames {A} (p : pipe) (frame : option A) : Run A :=
  emit (WaitForFrames p) ;;
  match frame with
  | Some f => ret f
  | None => raise RuntimeError
  end.

(** [color_frame_data]: the frame as an array. *)
Definition color_frame_data (color_frame : image) : image := color_frame.

(** [pose_frame_data]: the homogeneous translation [x, y, z, 1] and the
    quaternion [x, y, z, w]. *)
Definition pose_frame_data (p : pose) : vec4 * vec4 :=
  let t := translation p in
  (V4 (c0 t) (c1 t) (c2 t) 1, rotation p).

(** [rvec_to_rpy]: the array [roll, pitch, yaw], in degrees. *)
Definition rvec_to_rpy (rvec : vec4) : exn + vec3 :=
  let '(V4 x y z w) := rvec in
  match PyMath.asin (2 * (x * z - w * y)) with
  | inl e => inl e
  | inr a =>
      let pitch := - a * 180 / PI in
      let roll := PyMath.atan2 (2 * (w * x + y * z))
                    (w * w - x * x - y * y + z * z) * 180 / PI in
      let yaw := PyMath.atan2 (2 * (w * z + x * y))
                   (w * w + x * x - y * y - z * z) * 180 / PI in
      inr (V3 roll pitch yaw)
  end.

(** [max(rpy[0], rpy[2]) > self.calibrate_thres] *)
Definition attitude_flag (rpy : vec3) (thres : R) : bool :=
  PyMath.gt (PyMath.max (c0 rpy) (c2 rpy)) thres.

(** [cam2marker].  [rvec] and [tvec] are the arrays that
    [estimatePoseSingleMarkers] returned: [cv2.Rodrigues] takes an array of
    three numbers, and the assignment to a column of length 3 broadcasts
    from shape 1 x 1 x 3 only. *)
Definition cam2marker (rvec tvec : list vec3) : exn + mat4 :=
  match rvec with
  | [r] =>
      let rmat := Rodrigues r in
      let trans_mat := identity4 in
      let trans_mat := set_block33 trans_mat rmat in
      match tvec with
      | [t] =>
          let trans_mat := set_col3 trans_mat t in
          linalg_inv trans_mat
      | _ => inl ValueError
      end
  | _ => inl CvError
  end.

Definition base_c2c : mat4 :=
  M4 (V4 1 0 0 0) (V4 0 (-1) 0 0) (V4 0 0 (-1) 0) (V4 0 0 0 1).

(** [cam2cam] *)
Definition cam2cam (use_default : bool) (t_rvec t_tvec : vec4) : exn + mat4 :=
  if use_default then inr base_c2c
  else
    let trans_mat := zeros4 in
    let trans_mat := set_block33 trans_mat (Rodrigues (take3 t_rvec)) in
    let trans_mat := set_row3 trans_mat t_tvec in
    match linalg_inv trans_mat with
    | inl e => inl e
    | inr trans_mat => inr (matmul trans_mat base_c2c)
    end.

(** The truth value of [ids] in [if ids:].  [None] is false; an array of
    one element has the truth value of that element, so the id 0 is false;
    numpy refuses to give one to an array of two or more elements and
    raises [ValueError].  (The detector returns [None], never an empty
    array, when it finds nothing; an empty array would be false.) *)
Definition truth_value (ids : option (list Z)) : exn + bool :=
  match ids with
  | None => inr false
  | Some [] => inr false
  | Some [i] => inr (negb (i =? 0)%Z)
  | Some (_ :: _ :: _) => inl ValueError
  end.

(** [get_trans_mat]: [Some (d2m, tvec, rvec)], or [None] for the triple
    [None, None, None]. *)
Definition get_trans_mat (img : image) : Run (option (mat4 * list vec3 * list vec3)) :=
  emit AruCoDetectMarkers ;;
  let '(cs, ids) := detectMarkers img in
  seen <- lift (truth_value ids) ;;
  if (seen : bool) then
    let '(rvec, tvec) := estimatePoseSingleMarkers cs in
    m <- lift (cam2marker rvec tvec) ;;
    s <- get ;;
    when (show_gui s) (emit DrawAxis ;; emit DrawDetectedMarkers) ;;
    ret (Some (m, tvec, rvec))
  else ret None.

(** The four assignments of a successful calibration and its message. *)
Definition load_matrices (m : mat4) (t_rvec t_tvec : vec4) : Run unit :=
  modify (set_d2m m) ;;
  s <- get ;;
  c <- lift (cam2cam (use_default_cam2cam s) t_rvec t_tvec) ;;
  modify (set_t2d c) ;;
  modify (set_t2m (matmul m c)) ;;
  modify (set_calibrated true) ;;
  emit (Print CalibrationSuccess).

(** One pass through the body of the [while] loop of [calibrate]. *)
Definition calibrate_tick (show_img : bool) (i : tick) : Run unit :=
  frame_t <- wait_for_frames pipe_t (next_pose i) ;;
  frame_d <- wait_for_frames pipe_d (next_color i) ;;
  let img := color_frame_data frame_d in
  let '(t_tvec, t_rvec) := pose_frame_data frame_t in
  rpy <- lift (rvec_to_rpy t_rvec) ;;
  s <- get ;;
  if show_img then
    let t_flag := attitude_flag rpy (calibrate_thres s) in
    let t_msg := if t_flag then RollYallRounded (c0 rpy) (c2 rpy)
                 else AnglesAreCorrect in
    r <- get_trans_mat img ;;
    let d_flag := match r with None => true | Some _ => false end in
    let d_msg := if d_flag then MarkerNotDetected else MarkerDetected in
    emit (PutText t_msg) ;;
    emit (PutText d_msg) ;;
    emit ImShow ;;
    emit WaitKey ;;
    match r with
    | Some (m, _, _) =>
        if negb (t_flag || d_flag) then load_matrices m t_rvec t_tvec
        else ret tt
    | None => ret tt
    end
  else
    emit Sleep ;;
    if attitude_flag rpy (calibrate_thres s) then
      emit (Print CalibrationFails) ;;
      emit (Print (RollYall (c0 rpy) (c2 rpy)))
    else
      r <- get_trans_mat img ;;
      match r with
      | None => emit (Print CalibrationFailsMarkerNotDetected)
      | Some (m, _, _) => load_matrices m t_rvec t_tvec
      end.

(** [while not self.calibrated: ...] over the frames that arrive; when
    they run out before the object is calibrated the next read blocks. *)
Fixpoint calibrate_loop (show_img : bool) (frames : list tick) : Run unit :=
  fun s =>
    if calibrated s then ret tt s
    else
      match frames with
      | [] => block s
      | i :: rest => (calibrate_tick show_img i ;; calibrate_loop show_img rest) s
      end.

(** [calibrate] *)
Definition calibrate (show_img : bool) (frames : list tick) : Run unit :=
  emit (LoggerDebug CalibrationProcessStarts) ;;
  calibrate_loop show_img frames.

(** What [poll] returns: [np.nan], or the location as an array of three
    numbers. *)
Inductive polled : Type :=
| NaN
| Location (v : vec3).

(** The part of [poll] that shows the frame and reads the keyboard. *)
Definition poll_gui (img : image) (i : tick) : Run unit :=
  s <- get ;;
  when (detect_mode s)
    (r <- get_trans_mat img ;;
     match r with
     | Some (c2m, _, _) =>
         emit (PutText (Rounded (take3 (matvec c2m (V4 0 0 0 1)))))
     | None => ret tt
     end) ;;
  s <- get ;;
  emit (PutText (Rounded (location s))) ;;
  emit ImShow ;;
  emit WaitKey ;;
  let key_ord := Z.land (key i) 255 in
  if ((key_ord =? 113) || (key i =? 27))%Z then   (* ord('q'), Esc *)
    emit DestroyAllWindows ;;
    raise (SystemExit 0)
  else if (key_ord =? 100)%Z then                 (* ord('d') *)
    modify (fun s => set_detect_mode (negb (detect_mode s)) s)
  else ret tt.

(** [self.t2m @ t_tvec]: a [TypeError] when [t2m] is still [None]. *)
Definition t2m_matvec (m : option mat4) (v : vec4) : exn + vec4 :=
  match m with
  | Some a => inr (matvec a v)
  | None => inl TypeError
  end.

(** [poll] *)
Definition poll (i : tick) : Run polled :=
  s <- get ;;
  if negb (calibrated s) then
    emit (LoggerError NotCalibratedYet) ;;
    ret NaN
  else
    try_except
      (frame_d <- wait_for_frames pipe_d (next_color i) ;;
       frame_t <- wait_for_frames pipe_t (next_pose i) ;;
       let img := color_frame_data frame_d in
       let '(t_tvec, t_rvec) := pose_frame_data frame_t in
       s <- get ;;
       v <- lift (t2m_matvec (t2m s) t_tvec) ;;
       modify (set_location (take3 v)) ;;
       s <- get ;;
       when (show_gui s) (poll_gui img i) ;;
       s <- get ;;
       ret (Location (location s)))
      (fun e => emit (LoggerError (Error e)) ;; ret NaN).

(** [get_intrinsics], [stop], [start_detect], [stop_detect] *)
Definition get_intrinsics : Run (mat3 * list R) :=
  s <- get ;; ret (rgb_mtx s, rgb_dist s).

Definition stop : Run unit :=
  emit (PipeStop pipe_d) ;;
  emit (PipeStop pipe_t) ;;
  emit (LoggerDebug ShuttingDown).

Definition start_detect : Run unit := modify (set_detect_mode true).
Definition stop_detect : Run unit := modify (set_detect_mode false).

(** A call of a method of the object from outside, with what the outside
    world supplies while it runs. *)
Inductive call : Type :=
| CallCalibrate (show_img : bool) (frames : list tick)
| CallPoll (i : tick)
| CallGetIntrinsics
| CallStop
| CallStartDetect
| CallStopDetect
| CallGetTransMat (img : image).

(** The object after a call, however the call ends. *)
Definition after (c : call) (s : RS_D_T) : RS_D_T :=
  match c with
  | CallCalibrate show_img frames => object (calibrate show_img frames s)
  | CallPoll i => object (poll i s)
  | CallGetIntrinsics => object (get_intrinsics s)
  | CallStop => object (stop s)
  | CallStartDetect => object (start_detect s)
  | CallStopDetect => object (stop_detect s)
  | CallGetTransMat img => object (get_trans_mat img s)
  end.

(** The object after a sequence of calls. *)
Definition after_all (cs : list call) (s : RS_D_T) : RS_D_T :=
  fold_left (fun s c => after c s) cs s.

End Methods.

(** The three fixed transforms of the object. *)
Definition transforms (s : RS_D_T) : option mat4 * option mat4 * option mat4 :=
  (d2m s, t2d s, t2m s).

(** When the object is calibrated its three transforms are set. *)
Definition complete (s : RS_D_T) : Prop :=
  calibrated s = true -> d2m s <> None /\ t2d s <> None /\ t2m s <> None.

(** Whether an event is the complaint about roll and yaw, printed in the
    command line mode or drawn on the frame in the window mode. *)
Definition is_attitude_complaint (e : event) : Prop :=
  match e with
  | Print (RollYall _ _) => True
  | PutText (RollYallRounded _ _) => True
  | _ => False
  end.

Definition is_wait (e : event) : Prop :=
  match e with
  | WaitForFrames _ => True
  | _ => False
  end.

End Camera.

(** ** [vive/vive_tracker_server.py] *)

(** A JSON document: an object of named scalar members, in order. *)
Inductive jvalue : Type :=
| JBool (b : bool)
| JNumber (r : R)
| JString (s : string).

Definition json : Type := list (string * jvalue).

(** What the server takes from outside its own file: the codec of
    [bytes.decode] and [str.encode], [json.dumps(_, sort_keys=False,
    indent=2)], and the type of client addresses. *)
Class Wire : Type := {
  address : Type;
  decode : string -> exn + string;
  encode : string -> string;
  json_dumps_indent2 : json -> string
}.

Module Vive.

(** A device of [triad_openvr.devices]: what [get_pose_euler] and
    [get_velocity] return for it, as the tuples that
    [create_tracker_message] unpacks. *)
Record tracker : Type := {
  get_pose_euler : R * R * R * R * R * R;
  get_velocity : R * R * R
}.

(** [ViveTrackerMessage], with the fields that [create_tracker_message]
    passes to its constructor. *)
Record ViveTrackerMessage : Type := {
  valid : bool;
  x : R; y : R; z : R;
  yaw : R; pitch : R; roll : R;
  vel_x : R; vel_y : R; vel_z : R;
  device_name : string
}.

(** Modelled from the spec: [ViveTrackerMessage.json] of the module
    [models], which is not among the sources.  The JSON document
    {valid, x, y, z, yaw, pitch, roll, vel_x, vel_y, vel_z, device_name}. *)
Definition ViveTrackerMessage_json (m : ViveTrackerMessage) : json :=
  [("valid", JBool (valid m));
   ("x", JNumber (x m)); ("y", JNumber (y m)); ("z", JNumber (z m));
   ("yaw", JNumber (yaw m)); ("pitch", JNumber (pitch m));
   ("roll", JNumber (roll m));
   ("vel_x", JNumber (vel_x m)); ("vel_y", JNumber (vel_y m));
   ("vel_z", JNumber (vel_z m));
   ("device_name", JString (device_name m))]%string.

(** The bytes that [bytes.strip] removes at both ends. *)
Definition is_whitespace (c : ascii) : bool :=
  let n := nat_of_ascii c in
  (n =? 32)%nat || ((9 <=? n)%nat && (n <=? 13)%nat).

Fixpoint lstrip (s : string) : string :=
  match s with
  | EmptyString => EmptyString
  | String c r => if is_whitespace c then lstrip r else s
  end.

Definition reverse (s : string) : string :=
  string_of_list_ascii (rev (list_ascii_of_string s)).

(** [bytes.strip()] *)
Definition strip (s : string) : string := reverse (lstrip (reverse (lstrip s))).

Section Handler.
Context `{Wire}.
Local Open Scope eff_scope.

Inductive event : Type :=
| PrintTracker (t : option tracker)
| PrintMessage (m : option ViveTrackerMessage)
| SendTo (payload : string) (to : address).

(** The monad of the handler; its state is [triad_openvr.devices]. *)
Definition Run (A : Type) : Type := M event (gmap string tracker) A.

(** [get_tracker]: [triad_openvr.devices.get(tracker_name, None)] *)
Definition get_tracker (tracker_name : string) : Run (option tracker) :=
  devices <- get ;; ret (devices !! tracker_name).

(** [create_tracker_message] *)
Definition create_tracker_message (t : tracker) (tracker_name : string)
  : ViveTrackerMessage :=
  let euler := get_pose_euler t in
  let '(vx, vy, vz) := get_velocity t in
  let '(px, py, pz, e_yaw, e_pitch, e_roll) := euler in
  {| valid := true; x := px; y := py; z := pz;
     yaw := e_yaw; pitch := e_pitch; roll := e_roll;
     vel_x := vx; vel_y := vy; vel_z := vz;
     device_name := tracker_name |}.

(** [poll] *)
Definition poll (tracker_name : string) : Run (option ViveTrackerMessage) :=
  t <- get_tracker tracker_name ;;
  emit (PrintTracker t) ;;
  match t with
  | Some t => ret (Some (create_tracker_message t tracker_name))
  | None => ret None
  end.

(** [construct_json_message] *)
Definition construct_json_message (data : ViveTrackerMessage) : string :=
  let json_data := json_dumps_indent2 (ViveTrackerMessage_json data) in
  (json_data ++ ";")%string.

(** [handle], for the request [(data, socket)] of a datagram server. *)
Definition handle (data : string) (client_address : address) : Run unit :=
  tracker_name <- lift (decode (strip data)) ;;
  message <- poll tracker_name ;;
  emit (PrintMessage message) ;;
  match message with
  | Some m =>
      let message := construct_json_message m in
      emit (SendTo (encode message) client_address)
  | None => ret tt
  end.

(** The datagrams that a run sends. *)
Definition sent (evs : list event) : list (string * address) :=
  flat_map (fun e => match e with
                     | SendTo p a => [(p, a)]
                     | _ => []
                     end) evs.

End Handler.




(** Every byte of [s] is one that [bytes.strip] removes. *)
Fixpoint blank (s : string) : bool :=
  match s with
  | EmptyString => true
  | String c r => is_whitespace c && blank r
  end.

(** The first byte of [s], if there is one, is not whitespace. *)
Definition starts_clean (s : string) : Prop :=
  match s with
  | EmptyString => True
  | String c _ => is_whitespace c = false
  end.

End Vive.

(** ** Synthetic collaborators

    A scene in which the detector reports exactly the markers that are put
    into the image, with the Rodrigues formula over the reals, and a wire
    that carries ASCII text unchanged.  They instantiate the interfaces
    above wherever a concrete run is evaluated. *)

Module Synthetic.

Import Np.

(** A marker in view: its id and the pose of it that the estimator finds. *)
Record marker : Type := { marker_id : Z; marker_rvec : vec3; marker_tvec : vec3 }.

(** The rotation by the angle |r| about the axis r/|r|. *)
Definition rodrigues (r : vec3) : mat3 :=
  let theta := sqrt (c0 r * c0 r + c1 r * c1 r + c2 r * c2 r) in
  if Req_dec_T theta 0 then identity3
  else
    let kx := c0 r / theta in
    let ky := c1 r / theta in
    let kz := c2 r / theta in
    let c := cos theta in
    let s := sin theta in
    M3 (V3 (c + (1 - c) * kx * kx) ((1 - c) * kx * ky - s * kz) ((1 - c) * kx * kz + s * ky))
       (V3 ((1 - c) * ky * kx + s * kz) (c + (1 - c) * ky * ky) ((1 - c) * ky * kz - s * kx))
       (V3 ((1 - c) * kz * kx - s * ky) ((1 - c) * kz * ky + s * kx) (c + (1 - c) * kz * kz)).

Definition scene : Cv2 :=
  {| image := list marker;
     corners := marker;
     detectMarkers img :=
       (img, match img with
             | [] => None
             | _ => Some (map marker_id img)
             end);
     estimatePoseSingleMarkers cs := (map marker_rvec cs, map marker_tvec cs);
     Rodrigues := rodrigues |}.

(** Poses of the tracker: level; upside down (half a turn about x, roll
    180 degrees); rolled back by a quarter turn (roll -90 degrees). *)
Definition level_pose : Camera.pose :=
  {| Camera.translation := V3 0 0 0; Camera.rotation := V4 0 0 0 1 |}.

Definition upside_down_pose : Camera.pose :=
  {| Camera.translation := V3 0 0 0; Camera.rotation := V4 1 0 0 0 |}.

Definition rolled_back_pose : Camera.pose :=
  {| Camera.translation := V3 0 0 0;
     Camera.rotation := V4 (- (sqrt 2 / 2)) 0 0 (sqrt 2 / 2) |}.

(** Markers one unit in front of the camera, facing it. *)
Definition marker_7 : marker :=
  {| marker_id := 7; marker_rvec := V3 0 0 0; marker_tvec := V3 0 0 1 |}.

Definition marker_9 : marker :=
  {| marker_id := 9; marker_rvec := V3 0 0 0; marker_tvec := V3 1 0 1 |}.

Definition marker_0 : marker :=
  {| marker_id := 0; marker_rvec := V3 0 0 0; marker_tvec := V3 0 0 1 |}.

(** One pass of a loop: the pose, the markers in the image, the key. *)
Definition frames (p : Camera.pose) (img : list marker) (k : Z) : @Camera.tick scene :=
  @Camera.Build_tick scene (Some p) (Some img) k.

(** A freshly built object, with or without a window. *)
Definition fresh (GUI : bool) : Camera.RS_D_T := Camera.init GUI identity3 [].

(** The transform from the camera to [marker_7]. *)
Definition camera_to_marker_7 : mat4 :=
  M4 (V4 1 0 0 0) (V4 0 1 0 0) (V4 0 0 1 (-1)) (V4 0 0 0 1).

(** The object after a calibration on [marker_7] with the default rig. *)
Definition calibrated_on_marker_7 (GUI : bool) : Camera.RS_D_T :=
  Camera.set_calibrated true
    (Camera.set_t2m (matmul camera_to_marker_7 Camera.base_c2c)
       (Camera.set_t2d Camera.base_c2c
          (Camera.set_d2m camera_to_marker_7 (fresh GUI)))).

(** The names of the members of a document, in order. *)
Definition member_names (j : json) : string :=
  String.concat "," (map fst j).

Definition ascii_wire : Wire :=
  {| address := nat;
     decode s := inr s;
     encode s := s;
     json_dumps_indent2 := member_names |}.

(** A registry that holds one tracker. *)
Definition tracker_1 : Vive.tracker :=
  {| Vive.get_pose_euler := (1, 2, 3, 10, 20, 30);
     Vive.get_velocity := (0, 0, 0) |}.

Definition registry : gmap string Vive.tracker := {["tracker_1"%string := tracker_1]}.

End Synthetic.

(** ** Rotations and rigid transforms *)

Module Rigid.

Import Np.

Definition transpose3 (m : mat3) : mat3 :=
  M3 (V3 (c0 (r0 m)) (c0 (r1 m)) (c0 (r2 m)))
     (V3 (c1 (r0 m)) (c1 (r1 m)) (c1 (r2 m)))
     (V3 (c2 (r0 m)) (c2 (r1 m)) (c2 (r2 m))).

Definition dot3 (a b : vec3) : R := c0 a * c0 b + c1 a * c1 b + c2 a * c2 b.

Definition matvec3 (m : mat3) (v : vec3) : vec3 :=
  V3 (dot3 (r0 m) v) (dot3 (r1 m) v) (dot3 (r2 m) v).

Definition matmul3 (a b : mat3) : mat3 :=
  let bt := transpose3 b in
  let row r := V3 (dot3 r (r0 bt)) (dot3 r (r1 bt)) (dot3 r (r2 bt)) in
  M3 (row (r0 a)) (row (r1 a)) (row (r2 a)).

Definition opp3 (v : vec3) : vec3 := V3 (- c0 v) (- c1 v) (- c2 v).

Definition det3 (m : mat3) : R :=
  let '(M3 (V3 a b c) (V3 d e f) (V3 g h i)) := m in
  a * (e * i - f * h) - b * (d * i - f * g) + c * (d * h - e * g).

(** The matrix of the map v |-> r v + t in homogeneous coordinates: what
    [cam2marker] builds before it inverts. *)
Definition homogeneous (r : mat3) (t : vec3) : mat4 :=
  set_col3 (set_block33 identity4 r) t.

(** A point of space in homogeneous coordinates. *)
Definition point (v : vec3) : vec4 := V4 (c0 v) (c1 v) (c2 v) 1.

(** [r] is orthogonal: its transpose is its inverse. *)
Definition orthogonal (r : mat3) : Prop := matmul3 r (transpose3 r) = identity3.

End Rigid.

(** ** What the methods of [RS_D_T] leave alone *)

Module Frame.

Import Np Camera.

(** The attributes that are set at construction and describe the rig. *)
Definition config (s : RS_D_T) : bool * mat3 * list R * bool * bool * R :=
  (show_gui s, rgb_mtx s, rgb_dist s, running s, use_default_cam2cam s,
   calibrate_thres s).

(** The default rig: the rig-transform flag is set, and a calibrated
    object holds t2d = diag(1, -1, -1, 1) and t2m = d2m @ t2d. *)
Definition default_rig (s : RS_D_T) : Prop :=
  use_default_cam2cam s = true /\
  (calibrated s = true ->
   exists m, d2m s = Some m /\ t2d s = Some base_c2c /\
             t2m s = Some (matmul m base_c2c)).

End Frame.

(** ** The script at the end of [camera_d_t.py] *)

Module Script.

Import Np Camera.

(** The events of the script: those of the methods it calls, and its own
    [print(loc)]. *)
Inductive event : Type :=
| Method (e : Camera.event)
| PrintLoc (loc : polled).

(** Neither a pipeline stop nor the error of a [poll] that comes too
    early. *)
Definition quiet (e : Camera.event) : Prop :=
  match e with
  | PipeStop _ => False
  | LoggerError NotCalibratedYet => False
  | _ => True
  end.

(** The same for the events of the script. *)
Definition undisturbed (e : event) : Prop :=
  match e with
  | Method e => quiet e
  | PrintLoc _ => True
  end.

(** What [camera.stop()] shows. *)
Definition stopping : list event :=
  [Method (PipeStop pipe_d); Method (PipeStop pipe_t);
   Method (LoggerDebug ShuttingDown)].

(** The locations that the script prints. *)
Definition printed (evs : list event) : list polled :=
  flat_map (fun e => match e with
                     | PrintLoc loc => [loc]
                     | Method _ => []
                     end) evs.

(** [np.isnan(loc).all()] *)
Definition isnan_all (loc : polled) : bool :=
  match loc with
  | NaN => true
  | Location _ => false
  end.

Section Main.
Context `{Cv2}.
Local Open Scope eff_scope.

Definition Run (A : Type) : Type := M event RS_D_T A.

(** A call of a method of [camera]. *)
Definition call {A} (m : Camera.Run A) : Run A :=
  fun s => let '(t, s1, o) := m s in (map Method t, s1, o).

(** [while True: ...] over the frames that arrive, with the value of
    [counter] at the start. *)
Fixpoint poll_loop (frames : list tick) (counter : Z) : Run unit :=
  match frames with
  | [] => block
  | i :: rest =>
      loc <- call (poll i) ;;
      if isnan_all loc then
        call stop                           (* break *)
      else
        when (counter mod 20 =? 0)%Z (emit (PrintLoc loc)) ;;
        poll_loop rest (counter + 1)%Z
  end.

(** The script: [RS_D_T()], [calibrate(show_img=True)], the loop.  [mtx]
    and [dist] are the intrinsics that the colour stream reports;
    [calibration] and [polling] are the frames that arrive during the one
    and during the other. *)
Definition main (mtx : mat3) (dist : list R) (calibration polling : list tick)
  : list event * RS_D_T * outcome unit :=
  (call (calibrate true calibration) ;; poll_loop polling 0%Z) (init true mtx dist).

End Main.

End Script.

(** * Properties *)

(** ** Python arithmetic *)

Lemma gt_true a b : PyMath.gt a b = true <-> b < a.
Proof.
  unfold PyMath.gt. destruct (Rlt_dec b a); split; intros; auto;
    try discriminate; contradiction.
Qed.

Lemma gt_false a b : PyMath.gt a b = false <-> a <= b.
Proof.
  unfold PyMath.gt. destruct (Rlt_dec b a); split; intros; auto;
    try discriminate; lra.
Qed.

Lemma max_Rmax a b : PyMath.max a b = Rmax a b.
Proof.
  unfold PyMath.max, Rmax. destruct (Rlt_dec a b), (Rle_dec a b); auto; lra.
Qed.

Lemma max_gt a b t : t < PyMath.max a b <-> t < a \/ t < b.
Proof.
  unfold PyMath.max. destruct (Rlt_dec a b); split; intros; try lra.
Qed.

Lemma asin_in_range v : -1 <= v <= 1 -> PyMath.asin v = inr (Ratan.asin v).
Proof.
  intros [Hl Hu]. unfold PyMath.asin.
  destruct (Rlt_dec v (-1)); [lra|].
  destruct (Rlt_dec 1 v); [lra|]. reflexivity.
Qed.

Lemma asin_out_of_range v : v < -1 \/ 1 < v -> PyMath.asin v = inl ValueError.
Proof.
  intros Hv. unfold PyMath.asin.
  destruct (Rlt_dec v (-1)); [reflexivity|].
  destruct (Rlt_dec 1 v); [reflexivity|]. lra.
Qed.

Lemma atan2_pos_x y x : 0 < x -> PyMath.atan2 y x = atan (y / x).
Proof.
  intros Hx. unfold PyMath.atan2. destruct (Rlt_dec 0 x); [reflexivity|lra].
Qed.

Lemma atan2_0_1 : PyMath.atan2 0 1 = 0.
Proof.
  rewrite atan2_pos_x by lra.
  replace (0 / 1) with 0 by lra. apply atan_0.
Qed.

(** ** Linear algebra *)

Ltac mat4_ext :=
  unfold Np.matmul, Np.matvec, Np.scale4, Np.adjugate4, Np.det4, Np.dot4,
    Np.col, Np.identity4, Np.set_block33, Np.set_col3, Np.set_row3, Np.take3;
  simpl; f_equal; f_equal.

Lemma adjugate4_right a :
  Np.matmul a (Np.adjugate4 a) = Np.scale4 (Np.det4 a) Np.identity4.
Proof. destruct a as [[] [] [] []]. mat4_ext; ring. Qed.

Lemma adjugate4_left a :
  Np.matmul (Np.adjugate4 a) a = Np.scale4 (Np.det4 a) Np.identity4.
Proof. destruct a as [[] [] [] []]. mat4_ext; ring. Qed.

Lemma matmul_scale4_r c a b :
  Np.matmul a (Np.scale4 c b) = Np.scale4 c (Np.matmul a b).
Proof. destruct a as [[] [] [] []], b as [[] [] [] []]. mat4_ext; ring. Qed.

Lemma matmul_scale4_l c a b :
  Np.matmul (Np.scale4 c a) b = Np.scale4 c (Np.matmul a b).
Proof. destruct a as [[] [] [] []], b as [[] [] [] []]. mat4_ext; ring. Qed.

Lemma scale4_scale4 c d a : Np.scale4 c (Np.scale4 d a) = Np.scale4 (c * d) a.
Proof. destruct a as [[] [] [] []]. mat4_ext; ring. Qed.

Lemma scale4_1 a : Np.scale4 1 a = a.
Proof. destruct a as [[] [] [] []]. mat4_ext; ring. Qed.

(** What [linalg_inv] returns is a two-sided inverse. *)
Lemma linalg_inv_sound a b :
  Np.linalg_inv a = inr b ->
  Np.matmul a b = Np.identity4 /\ Np.matmul b a = Np.identity4.
Proof.
  unfold Np.linalg_inv.
  destruct (Req_dec_T (Np.det4 a) 0) as [|Hd]; [discriminate|].
  intros Hb. injection Hb as <-.
  rewrite matmul_scale4_r, matmul_scale4_l, adjugate4_right, adjugate4_left.
  rewrite scale4_scale4.
  replace (/ Np.det4 a * Np.det4 a) with 1 by (field; exact Hd).
  split; apply scale4_1.
Qed.

(** It raises exactly on the matrices of determinant zero. *)
Lemma linalg_inv_raises a :
  Np.linalg_inv a = inl LinAlgError <-> Np.det4 a = 0.
Proof.
  unfold Np.linalg_inv. destruct (Req_dec_T (Np.det4 a) 0); split; intros; auto;
    try discriminate; contradiction.
Qed.

Lemma linalg_inv_regular a :
  Np.det4 a <> 0 ->
  Np.linalg_inv a = inr (Np.scale4 (/ Np.det4 a) (Np.adjugate4 a)).
Proof.
  intros Hd. unfold Np.linalg_inv.
  destruct (Req_dec_T (Np.det4 a) 0); [contradiction|reflexivity].
Qed.

(** ** AngleConverter: [rvec_to_rpy] *)

Section AngleConverter.
Import Np Camera.

(** A unit quaternion keeps the argument of [asin] within its domain. *)
Lemma unit_quaternion_in_range x y z w :
  x * x + y * y + z * z + w * w = 1 -> -1 <= 2 * (x * z - w * y) <= 1.
Proof.
  intros Hu.
  pose proof (Rle_0_sqr (x - z)). pose proof (Rle_0_sqr (x + z)).
  pose proof (Rle_0_sqr (w - y)). pose proof (Rle_0_sqr (w + y)).
  unfold Rsqr in *. split; lra.
Qed.

(** Outside of that domain the conversion raises and returns nothing. *)
Lemma rvec_to_rpy_out_of_range x y z w :
  2 * (x * z - w * y) < -1 \/ 1 < 2 * (x * z - w * y) ->
  rvec_to_rpy (V4 x y z w) = inl ValueError.
Proof.
  intros Hr. unfold rvec_to_rpy. rewrite asin_out_of_range by exact Hr.
  reflexivity.
Qed.

(** C5, as the code has it: for every quaternion (x, y, z, w) for which
    2(xz - wy) lies in [-1, 1], as it does for every unit quaternion,
    the conversion returns the array [roll, pitch, yaw] with
    pitch = -asin(2(xz - wy)) * 180/pi,
    roll = atan2(2(wx + yz), w^2 - x^2 - y^2 + z^2) * 180/pi and
    yaw = atan2(2(wz + xy), w^2 + x^2 - y^2 - z^2) * 180/pi. *)
Theorem rvec_to_rpy_in_range (x y z w : R) :
  -1 <= 2 * (x * z - w * y) <= 1 ->
  rvec_to_rpy (V4 x y z w) =
  inr (V3 (PyMath.atan2 (2 * (w * x + y * z)) (w * w - x * x - y * y + z * z) * 180 / PI)
          (- Ratan.asin (2 * (x * z - w * y)) * 180 / PI)
          (PyMath.atan2 (2 * (w * z + x * y)) (w * w + x * x - y * y - z * z) * 180 / PI)).
Proof.
  intros Hr. unfold rvec_to_rpy. rewrite asin_in_range by exact Hr.
  reflexivity.
Qed.

(** The identity quaternion (0, 0, 0, 1) is in range and yields
    roll = pitch = yaw = 0. *)
Lemma rvec_to_rpy_identity :
  -1 <= 2 * (0 * 0 - 1 * 0) <= 1 /\
  rvec_to_rpy (V4 0 0 0 1) = inr (V3 0 0 0).
Proof.
  assert (Hr : -1 <= 2 * (0 * 0 - 1 * 0) <= 1) by lra.
  split; [exact Hr|].
  rewrite (rvec_to_rpy_in_range 0 0 0 1 Hr).
  replace (2 * (0 * 0 - 1 * 0)) with 0 by lra.
  replace (2 * (1 * 0 + 0 * 0)) with 0 by lra.
  replace (1 * 1 - 0 * 0 - 0 * 0 + 0 * 0) with 1 by lra.
  replace (1 * 1 + 0 * 0 - 0 * 0 - 0 * 0) with 1 by lra.
  rewrite asin_0, atan2_0_1.
  f_equal. f_equal; unfold Rdiv; ring.
Defined.

(** C5, as the claim states it, fails off the unit sphere: for the
    quaternion (1, 0, 1, 0) the argument of [asin] is 2 and the conversion
    raises [ValueError] instead of returning three angles. *)
Lemma rvec_to_rpy_domain_error :
  rvec_to_rpy (V4 1 0 1 0) = inl ValueError.
Proof. apply rvec_to_rpy_out_of_range. right. lra. Qed.

End AngleConverter.

(** ** The marker gate: [get_trans_mat] *)

Ltac run_monad :=
  unfold bind, emit, lift, ret, raise, block, get, modify, when,
    Camera.color_frame_data; simpl.

Section MarkerGate.
Import Np Camera.
Context `{Cv2}.

(** Looking for a marker leaves the object as it is. *)
Lemma get_trans_mat_object img s : object (get_trans_mat img s) = s.
Proof.
  unfold get_trans_mat, object. run_monad.
  destruct (detectMarkers img) as [cs ids]. simpl.
  destruct (truth_value ids) as [e|[|]]; simpl; try reflexivity.
  destruct (estimatePoseSingleMarkers cs) as [rvec tvec].
  destruct (cam2marker rvec tvec) as [e|m]; simpl; try reflexivity.
  destruct (show_gui s); reflexivity.
Qed.

(** It never waits for a frame. *)
Lemma get_trans_mat_blocks img s : result (get_trans_mat img s) <> Blocks.
Proof.
  unfold get_trans_mat, result. run_monad.
  destruct (detectMarkers img) as [cs ids]. simpl.
  destruct (truth_value ids) as [e|[|]]; simpl; try discriminate.
  destruct (estimatePoseSingleMarkers cs) as [rvec tvec].
  destruct (cam2marker rvec tvec) as [e|m]; simpl; try discriminate.
  destruct (show_gui s); discriminate.
Qed.

(** Its first effect is the call of the detector, and it reads no sensor. *)
Lemma get_trans_mat_events img s :
  exists rest,
    events (get_trans_mat img s) = AruCoDetectMarkers :: rest /\
    Forall (fun e => forall p, e <> WaitForFrames p) rest.
Proof.
  unfold get_trans_mat, events. run_monad.
  destruct (detectMarkers img) as [cs ids]. simpl.
  destruct (truth_value ids) as [e|[|]]; simpl;
    try (eexists; split; [reflexivity|constructor]).
  destruct (estimatePoseSingleMarkers cs) as [rvec tvec].
  destruct (cam2marker rvec tvec) as [e|m]; simpl;
    try (eexists; split; [reflexivity|constructor]).
  destruct (show_gui s); simpl; eexists; (split; [reflexivity|]);
    repeat constructor; discriminate.
Qed.

(** No marker in sight: the triple of [None]. *)
Lemma get_trans_mat_no_marker img cs s :
  detectMarkers img = (cs, None) ->
  get_trans_mat img s = ([AruCoDetectMarkers], s, Returns None).
Proof.
  intros Hd. unfold get_trans_mat. run_monad. rewrite Hd. reflexivity.
Qed.

(** Two or more markers in sight: [if ids:] raises. *)
Lemma get_trans_mat_ambiguous img cs i1 i2 ids s :
  detectMarkers img = (cs, Some (i1 :: i2 :: ids)) ->
  get_trans_mat img s = ([AruCoDetectMarkers], s, Raises ValueError).
Proof.
  intros Hd. unfold get_trans_mat. run_monad. rewrite Hd. reflexivity.
Qed.

(** One marker in sight, of id 0: [if ids:] takes the other branch. *)
Lemma get_trans_mat_id_zero img cs s :
  detectMarkers img = (cs, Some [0%Z]) ->
  get_trans_mat img s = ([AruCoDetectMarkers], s, Returns None).
Proof.
  intros Hd. unfold get_trans_mat. run_monad. rewrite Hd. reflexivity.
Qed.

(** One marker in sight, of another id, with an invertible pose. *)
Lemma get_trans_mat_one_marker img cs i r t m s :
  detectMarkers img = (cs, Some [i]) -> i <> 0%Z ->
  estimatePoseSingleMarkers cs = ([r], [t]) ->
  linalg_inv (set_col3 (set_block33 identity4 (Rodrigues r)) t) = inr m ->
  get_trans_mat img s =
  (AruCoDetectMarkers :: (if show_gui s then [DrawAxis; DrawDetectedMarkers] else []),
   s, Returns (Some (m, [t], [r]))).
Proof.
  intros Hd Hi He Hm. unfold get_trans_mat. run_monad. rewrite Hd. simpl.
  destruct (Z.eqb_spec i 0) as [|_]; [contradiction|]. simpl.
  rewrite He. unfold cam2marker. rewrite Hm. simpl.
  destruct (show_gui s); reflexivity.
Qed.

(** When it returns a transform, that transform is the inverse of the
    homogeneous matrix of the one marker that the detector reported. *)
Lemma get_trans_mat_returns img s m tvec rvec :
  result (get_trans_mat img s) = Returns (Some (m, tvec, rvec)) ->
  exists r t,
    rvec = [r] /\ tvec = [t] /\
    linalg_inv (set_col3 (set_block33 identity4 (Rodrigues r)) t) = inr m.
Proof.
  unfold get_trans_mat, result. run_monad.
  destruct (detectMarkers img) as [cs ids]. simpl.
  destruct (truth_value ids) as [e|[|]]; simpl; try discriminate.
  destruct (estimatePoseSingleMarkers cs) as [rv tv].
  destruct (cam2marker rv tv) as [e|m'] eqn:Hc; simpl; try discriminate.
  intros Hr.
  assert (Hm : Some (m', tv, rv) = Some (m, tvec, rvec)).
  { destruct (show_gui s); simpl in Hr; congruence. }
  injection Hm as -> -> ->.
  unfold cam2marker in Hc.
  destruct rvec as [|r [|]]; try discriminate.
  destruct tvec as [|t [|]]; try discriminate.
  exists r, t. auto.
Qed.

End MarkerGate.

(** ** The angles of the synthetic poses *)

Section Poses.
Import Np Camera Synthetic.

Lemma atan2_0_pos x : 0 < x -> PyMath.atan2 0 x = 0.
Proof.
  intros Hx. rewrite atan2_pos_x by exact Hx.
  replace (0 / x) with 0 by (field; lra). apply atan_0.
Qed.

Lemma atan2_0_neg x : x < 0 -> PyMath.atan2 0 x = PI.
Proof.
  intros Hx. unfold PyMath.atan2.
  destruct (Rlt_dec 0 x); [lra|]. destruct (Rlt_dec x 0); [|lra].
  destruct (Rlt_dec 0 0); [lra|].
  replace (0 / x) with 0 by (field; lra). rewrite atan_0. lra.
Qed.

Lemma atan2_neg_0 y : y < 0 -> PyMath.atan2 y 0 = - (PI / 2).
Proof.
  intros Hy. unfold PyMath.atan2.
  destruct (Rlt_dec 0 0); [lra|].
  destruct (Rlt_dec 0 y); [lra|]. destruct (Rlt_dec y 0); [reflexivity|lra].
Qed.

Lemma asin_0_value : PyMath.asin 0 = inr 0.
Proof. rewrite asin_in_range by lra. now rewrite asin_0. Qed.

Lemma half_sqrt2_sqr : sqrt 2 / 2 * (sqrt 2 / 2) = 1 / 2.
Proof.
  assert (Hs : sqrt 2 * sqrt 2 = 2) by (apply sqrt_sqrt; lra).
  lra.
Qed.

Lemma degrees_0 : 0 * 180 / PI = 0.
Proof. unfold Rdiv. ring. Qed.

Lemma rpy_level : rvec_to_rpy (rotation level_pose) = inr (V3 0 0 0).
Proof.
  simpl. unfold rvec_to_rpy.
  replace (2 * (0 * 0 - 1 * 0)) with 0 by lra. rewrite asin_0_value.
  replace (2 * (1 * 0 + 0 * 0)) with 0 by lra.
  rewrite !atan2_0_pos by lra.
  replace (- 0 * 180 / PI) with 0 by (unfold Rdiv; ring).
  now rewrite degrees_0.
Qed.

Lemma rpy_upside_down : rvec_to_rpy (rotation upside_down_pose) = inr (V3 180 0 0).
Proof.
  simpl. unfold rvec_to_rpy.
  replace (2 * (1 * 0 - 0 * 0)) with 0 by lra. rewrite asin_0_value.
  replace (2 * (0 * 1 + 0 * 0)) with 0 by lra.
  replace (2 * (0 * 0 + 1 * 0)) with 0 by lra.
  rewrite atan2_0_neg by lra. rewrite atan2_0_pos by lra.
  replace (- 0 * 180 / PI) with 0 by (unfold Rdiv; ring).
  rewrite degrees_0.
  replace (PI * 180 / PI) with 180 by (field; apply PI_neq0).
  reflexivity.
Qed.

Lemma rpy_rolled_back : rvec_to_rpy (rotation rolled_back_pose) = inr (V3 (-90) 0 0).
Proof.
  simpl. unfold rvec_to_rpy. pose proof half_sqrt2_sqr as Hh.
  set (h := sqrt 2 / 2) in *.
  replace (2 * (- h * 0 - h * 0)) with 0 by lra. rewrite asin_0_value.
  replace (2 * (h * - h + 0 * 0)) with (-1) by lra.
  replace (h * h - - h * - h - 0 * 0 + 0 * 0) with 0 by lra.
  replace (2 * (h * 0 + - h * 0)) with 0 by lra.
  rewrite atan2_neg_0 by lra. rewrite atan2_0_pos by lra.
  replace (- 0 * 180 / PI) with 0 by (unfold Rdiv; ring).
  rewrite degrees_0.
  replace (- (PI / 2) * 180 / PI) with (-90) by (field; apply PI_neq0).
  reflexivity.
Qed.
End Poses.

(** ** The attitude gate and one pass of the calibration loop *)

Section CalibrationTick.
Import Np Camera.
Context `{Cv2}.

Lemma attitude_flag_true rpy thres :
  attitude_flag rpy thres = true <-> thres < Rmax (c0 rpy) (c2 rpy).
Proof. unfold attitude_flag. rewrite gt_true, max_Rmax. reflexivity. Qed.

Lemma attitude_flag_false rpy thres :
  attitude_flag rpy thres = false <-> c0 rpy <= thres /\ c2 rpy <= thres.
Proof.
  unfold attitude_flag. rewrite gt_false, max_Rmax. split.
  - intros Hm. split.
    + eapply Rle_trans; [apply Rmax_l|exact Hm].
    + eapply Rle_trans; [apply Rmax_r|exact Hm].
  - intros [Hr Hy]. apply Rmax_lub; assumption.
Qed.

(** The four assignments, with the default rig transform. *)
Lemma load_matrices_default m t_rvec t_tvec s :
  use_default_cam2cam s = true ->
  load_matrices m t_rvec t_tvec s =
  ([Print CalibrationSuccess],
   set_calibrated true
     (set_t2m (matmul m base_c2c) (set_t2d base_c2c (set_d2m m s))),
   Returns tt).
Proof.
  intros Hu. unfold load_matrices. run_monad. rewrite Hu. reflexivity.
Qed.

(** Command line mode, attitude gate closed: the whole pass. *)
Lemma tick_cli_rejected s i p img rpy :
  next_pose i = Some p -> next_color i = Some img ->
  rvec_to_rpy (rotation p) = inr rpy ->
  attitude_flag rpy (calibrate_thres s) = true ->
  calibrate_tick false i s =
  ([WaitForFrames pipe_t; WaitForFrames pipe_d; Sleep;
    Print CalibrationFails; Print (RollYall (c0 rpy) (c2 rpy))],
   s, Returns tt).
Proof.
  intros Hp Hc Hr Hf. unfold calibrate_tick, wait_for_frames.
  rewrite Hp, Hc. run_monad. rewrite Hr. simpl. rewrite Hf. reflexivity.
Qed.

(** Command line mode, attitude gate open: the marker gate decides. *)
Lemma tick_cli_passed s i p img rpy :
  next_pose i = Some p -> next_color i = Some img ->
  rvec_to_rpy (rotation p) = inr rpy ->
  attitude_flag rpy (calibrate_thres s) = false ->
  calibrate_tick false i s =
  let '(t, s1, o) := get_trans_mat img s in
  let pre := [WaitForFrames pipe_t; WaitForFrames pipe_d; Sleep] ++ t in
  match o with
  | Returns None =>
      (pre ++ [Print CalibrationFailsMarkerNotDetected], s1, Returns tt)
  | Returns (Some (m, _, _)) =>
      let '(t2, s2, o2) :=
        load_matrices m (snd (pose_frame_data p)) (fst (pose_frame_data p)) s1 in
      (pre ++ t2, s2, o2)
  | Raises e => (pre, s1, Raises e)
  | Blocks => (pre, s1, Blocks)
  end.
Proof.
  intros Hp Hc Hr Hf. unfold calibrate_tick, wait_for_frames.
  rewrite Hp, Hc. run_monad. rewrite Hr. simpl. rewrite Hf.
  destruct (get_trans_mat img s) as [[t s1] [[[[m tv] rv]|]|e|]]; simpl;
    try reflexivity.
  destruct (load_matrices _ _ _ s1) as [[t2 s2] o2]. reflexivity.
Qed.

(** Window mode: the detector runs whatever the attitude flag says. *)
Lemma tick_gui s i p img rpy :
  next_pose i = Some p -> next_color i = Some img ->
  rvec_to_rpy (rotation p) = inr rpy ->
  calibrate_tick true i s =
  let t_flag := attitude_flag rpy (calibrate_thres s) in
  let t_msg := if t_flag then RollYallRounded (c0 rpy) (c2 rpy)
               else AnglesAreCorrect in
  let '(t, s1, o) := get_trans_mat img s in
  let pre := [WaitForFrames pipe_t; WaitForFrames pipe_d] ++ t in
  match o with
  | Returns None =>
      (pre ++ [PutText t_msg; PutText MarkerNotDetected; ImShow; WaitKey],
       s1, Returns tt)
  | Returns (Some (m, _, _)) =>
      let shown := pre ++ [PutText t_msg; PutText MarkerDetected; ImShow; WaitKey] in
      if t_flag then (shown, s1, Returns tt)
      else
        let '(t2, s2, o2) :=
          load_matrices m (snd (pose_frame_data p)) (fst (pose_frame_data p)) s1 in
        (shown ++ t2, s2, o2)
  | Raises e => (pre, s1, Raises e)
  | Blocks => (pre, s1, Blocks)
  end.
Proof.
  intros Hp Hc Hr. unfold calibrate_tick, wait_for_frames.
  rewrite Hp, Hc. run_monad. rewrite Hr. simpl.
  destruct (get_trans_mat img s) as [[t s1] [[[[m tv] rv]|]|e|]]; simpl;
    try reflexivity.
  destruct (attitude_flag rpy (calibrate_thres s)); simpl; [reflexivity|].
  destruct (load_matrices _ _ _ s1) as [[t2 s2] o2].
  rewrite <- ?app_assoc. reflexivity.
Qed.

End CalibrationTick.

(** ** The synthetic scene, evaluated *)

Section SyntheticScene.
Import Np Camera Synthetic.

Lemma rodrigues_zero : rodrigues (V3 0 0 0) = identity3.
Proof.
  unfold rodrigues. simpl.
  replace (0 * 0 + 0 * 0 + 0 * 0) with 0 by lra. rewrite sqrt_0.
  destruct (Req_dec_T 0 0); [reflexivity|contradiction].
Qed.

Lemma cam2marker_marker_7 :
  @cam2marker scene [V3 0 0 0] [V3 0 0 1] = inr camera_to_marker_7.
Proof.
  unfold cam2marker. simpl. rewrite rodrigues_zero.
  rewrite linalg_inv_regular.
  - f_equal. unfold camera_to_marker_7. mat4_ext; field.
  - unfold det4. simpl. lra.
Qed.

Lemma get_trans_mat_marker_7 s :
  @get_trans_mat scene [marker_7] s =
  (AruCoDetectMarkers :: (if show_gui s then [DrawAxis; DrawDetectedMarkers] else []),
   s, Returns (Some (camera_to_marker_7, [V3 0 0 1], [V3 0 0 0]))).
Proof.
  apply (@get_trans_mat_one_marker scene [marker_7] [marker_7] 7%Z (V3 0 0 0) (V3 0 0 1)).
  - reflexivity.
  - discriminate.
  - reflexivity.
  - exact cam2marker_marker_7.
Qed.

End SyntheticScene.

(** ** The attitude gate *)

Section AttitudeGate.
Import Np Camera.
Context `{Cv2}.

Lemma get_trans_mat_shape img s :
  events (get_trans_mat img s) = [AruCoDetectMarkers] \/
  events (get_trans_mat img s) = [AruCoDetectMarkers; DrawAxis; DrawDetectedMarkers].
Proof.
  unfold get_trans_mat, events. run_monad.
  destruct (detectMarkers img) as [cs ids]. simpl.
  destruct (truth_value ids) as [e|[|]]; simpl; auto.
  destruct (estimatePoseSingleMarkers cs) as [rvec tvec].
  destruct (cam2marker rvec tvec) as [e|m]; simpl; auto.
  destruct (show_gui s); simpl; auto.
Qed.

Lemma load_matrices_shape m rv tv s :
  events (load_matrices m rv tv s) = [] \/
  events (load_matrices m rv tv s) = [Print CalibrationSuccess].
Proof.
  unfold load_matrices, events. run_monad.
  destruct (cam2cam _ rv tv); simpl; auto.
Qed.

(** With the attitude gate open a pass never complains about the angles. *)
Lemma tick_passed_quiet show_img s i p img rpy :
  next_pose i = Some p -> next_color i = Some img ->
  rvec_to_rpy (rotation p) = inr rpy ->
  attitude_flag rpy (calibrate_thres s) = false ->
  Forall (fun e => ~ is_attitude_complaint e) (events (calibrate_tick show_img i s)).
Proof.
  intros Hp Hc Hr Hf.
  pose proof (get_trans_mat_shape img s) as Hg.
  destruct show_img;
    [ rewrite (tick_gui s i p img rpy Hp Hc Hr), Hf; cbv zeta
    | rewrite (tick_cli_passed s i p img rpy Hp Hc Hr Hf) ];
    destruct (get_trans_mat img s) as [[t s1] o];
    unfold events in Hg; simpl in Hg;
    destruct o as [[[[m tv] rv]|]|e|];
    try solve [unfold events; simpl;
               destruct Hg as [-> | ->]; simpl; repeat constructor; auto].
  all: pose proof (load_matrices_shape m (snd (pose_frame_data p))
                     (fst (pose_frame_data p)) s1) as Hl;
    destruct (load_matrices _ _ _ s1) as [[t2 s2] o2];
    unfold events in *; simpl in *;
    destruct Hg as [-> | ->], Hl as [-> | ->]; simpl; repeat constructor; auto.
Qed.

(** With the attitude gate open a pass calls the detector. *)
Lemma tick_passed_detects show_img s i p img rpy :
  next_pose i = Some p -> next_color i = Some img ->
  rvec_to_rpy (rotation p) = inr rpy ->
  attitude_flag rpy (calibrate_thres s) = false ->
  In AruCoDetectMarkers (events (calibrate_tick show_img i s)).
Proof.
  intros Hp Hc Hr Hf.
  destruct (get_trans_mat_events img s) as [rest [Hg _]].
  destruct show_img.
  - rewrite (tick_gui s i p img rpy Hp Hc Hr). rewrite Hf. cbv zeta.
    destruct (get_trans_mat img s) as [[t s1] o]. unfold events in Hg. simpl in Hg.
    subst t.
    destruct o as [[[[m tv] rv]|]|e|]; try (unfold events; simpl; tauto).
    destruct (load_matrices _ _ _ s1) as [[t2 s2] o2].
    unfold events; simpl; tauto.
  - rewrite (tick_cli_passed s i p img rpy Hp Hc Hr Hf).
    destruct (get_trans_mat img s) as [[t s1] o]. unfold events in Hg. simpl in Hg.
    subst t.
    destruct o as [[[[m tv] rv]|]|e|]; try (unfold events; simpl; tauto).
    destruct (load_matrices _ _ _ s1) as [[t2 s2] o2].
    unfold events; simpl; tauto.
Qed.

(** With the attitude gate closed a pass leaves the object as it is. *)
Lemma tick_rejected_object show_img s i p img rpy :
  next_pose i = Some p -> next_color i = Some img ->
  rvec_to_rpy (rotation p) = inr rpy ->
  attitude_flag rpy (calibrate_thres s) = true ->
  object (calibrate_tick show_img i s) = s.
Proof.
  intros Hp Hc Hr Hf. destruct show_img.
  - rewrite (tick_gui s i p img rpy Hp Hc Hr). rewrite Hf. cbv zeta.
    pose proof (get_trans_mat_object img s) as Ho.
    destruct (get_trans_mat img s) as [[t s1] o]. unfold object in *. simpl in Ho.
    subst s1. destruct o as [[[[m tv] rv]|]|e|]; reflexivity.
  - rewrite (tick_cli_rejected s i p img rpy Hp Hc Hr Hf). reflexivity.
Qed.

(** C2: in a pass of the calibration loop that has read both sensors and
    converted the quaternion, the attitude gate is closed exactly when
    max(roll, yaw) exceeds [calibrate_thres].  A closed gate leaves the
    object uncalibrated as it was, and the command line mode prints the
    complaint about the two angles; an open gate never produces that
    complaint.  The threshold of [CAM_CONFIG] is 1, and for the threshold 1
    the angles roll = 0.5, yaw = 0.5 pass while roll = 1.5, yaw = 0 fail. *)
Theorem attitude_gate_exact (show_img : bool) s i p img rpy :
  next_pose i = Some p -> next_color i = Some img ->
  rvec_to_rpy (rotation p) = inr rpy ->
  let closed := attitude_flag rpy (calibrate_thres s) in
  let pass := calibrate_tick show_img i s in
  (closed = true <-> calibrate_thres s < Rmax (c0 rpy) (c2 rpy)) /\
  (closed = true ->
   object pass = s /\
   (show_img = false ->
    In (Print (RollYall (c0 rpy) (c2 rpy))) (events pass) /\
    result pass = Returns tt)) /\
  (closed = false ->
   Forall (fun e => ~ is_attitude_complaint e) (events pass)) /\
  (forall GUI mtx dist, calibrate_thres (init GUI mtx dist) = 1) /\
  attitude_flag (V3 (1 / 2) (c1 rpy) (1 / 2)) 1 = false /\
  attitude_flag (V3 (3 / 2) (c1 rpy) 0) 1 = true.
Proof.
  intros Hp Hc Hr closed pass. subst closed pass.
  split; [apply attitude_flag_true|].
  split.
  { intros Hf. split.
    - apply (tick_rejected_object show_img s i p img rpy); assumption.
    - intros ->. rewrite (tick_cli_rejected s i p img rpy Hp Hc Hr Hf).
      unfold events, result. simpl. tauto. }
  split.
  { intros Hf. apply (tick_passed_quiet show_img s i p img rpy); assumption. }
  split; [reflexivity|].
  split.
  - apply attitude_flag_false. simpl. lra.
  - apply attitude_flag_true. simpl. unfold Rmax.
    destruct (Rle_dec (3 / 2) 0); lra.
Qed.

(** In the window mode a pass calls the detector whatever the angles. *)
Lemma tick_gui_detects s i p img rpy :
  next_pose i = Some p -> next_color i = Some img ->
  rvec_to_rpy (rotation p) = inr rpy ->
  In AruCoDetectMarkers (events (calibrate_tick true i s)).
Proof.
  intros Hp Hc Hr.
  destruct (get_trans_mat_events img s) as [rest [Hg _]].
  rewrite (tick_gui s i p img rpy Hp Hc Hr). cbv zeta.
  destruct (get_trans_mat img s) as [[t s1] o]. unfold events in Hg. simpl in Hg.
  subst t.
  destruct o as [[[[m tv] rv]|]|e|]; try (unfold events; simpl; tauto).
  destruct (attitude_flag rpy (calibrate_thres s)); [unfold events; simpl; tauto|].
  destruct (load_matrices _ _ _ s1) as [[t2 s2] o2].
  unfold events; simpl; tauto.
Qed.

(** The loop takes the next pass as long as the object is uncalibrated. *)
Lemma calibrate_loop_step show_img i rest s :
  calibrated s = false ->
  calibrate_loop show_img (i :: rest) s =
  bind (calibrate_tick show_img i) (fun _ => calibrate_loop show_img rest) s.
Proof. intros Hs. simpl. rewrite Hs. reflexivity. Qed.

(** On a calibrated object the loop ends at once. *)
Lemma calibrate_loop_done show_img fs s :
  calibrated s = true -> calibrate_loop show_img fs s = ([], s, Returns tt).
Proof. intros Hs. destruct fs; simpl; rewrite Hs; reflexivity. Qed.

(** C6, as the code has it: in the command line mode ([show_img] false) a
    pass whose attitude gate is closed prints the two angles, does not call
    the marker detector, leaves the object as it is, and the loop goes on
    with the next frames.  In the window mode ([show_img] true) the
    detector is called on the image of every pass, also when the attitude
    gate is closed; the object is still left as it is. *)
Theorem attitude_rejection_cli_skips_detection s i p img rpy :
  next_pose i = Some p -> next_color i = Some img ->
  rvec_to_rpy (rotation p) = inr rpy ->
  attitude_flag rpy (calibrate_thres s) = true ->
  let complaint :=
    [WaitForFrames pipe_t; WaitForFrames pipe_d; Sleep;
     Print CalibrationFails; Print (RollYall (c0 rpy) (c2 rpy))] in
  calibrate_tick false i s = (complaint, s, Returns tt) /\
  ~ In AruCoDetectMarkers (events (calibrate_tick false i s)) /\
  (calibrated s = false ->
   forall rest,
     calibrate_loop false (i :: rest) s =
     let '(t, s', o) := calibrate_loop false rest s in (complaint ++ t, s', o)) /\
  In AruCoDetectMarkers (events (calibrate_tick true i s)) /\
  object (calibrate_tick true i s) = s.
Proof.
  intros Hp Hc Hr Hf complaint. subst complaint.
  pose proof (tick_cli_rejected s i p img rpy Hp Hc Hr Hf) as Ht.
  split; [exact Ht|].
  split.
  { rewrite Ht. unfold events. simpl.
    intros [Hd|[Hd|[Hd|[Hd|[Hd|[]]]]]]; discriminate. }
  split.
  { intros Hs rest. rewrite calibrate_loop_step by exact Hs.
    unfold bind. rewrite Ht.
    destruct (calibrate_loop false rest s) as [[t s'] o]. reflexivity. }
  split.
  - apply (tick_gui_detects s i p img rpy); assumption.
  - apply (tick_rejected_object true s i p img rpy); assumption.
Qed.

(** C9: the gate compares the signed angles.  Whenever roll and yaw are
    both at most the threshold, however negative, the gate is open, the
    pass calls the marker detector and makes no complaint about the
    angles.  A closed gate means that roll or yaw exceeds the threshold,
    hence is positive for a threshold that is not negative.  For the
    threshold 1, roll = -30 with yaw = 0 passes. *)
Theorem attitude_gate_signed (show_img : bool) s i p img rpy :
  next_pose i = Some p -> next_color i = Some img ->
  rvec_to_rpy (rotation p) = inr rpy ->
  (c0 rpy <= calibrate_thres s -> c2 rpy <= calibrate_thres s ->
   attitude_flag rpy (calibrate_thres s) = false /\
   In AruCoDetectMarkers (events (calibrate_tick show_img i s)) /\
   Forall (fun e => ~ is_attitude_complaint e) (events (calibrate_tick show_img i s))) /\
  (attitude_flag rpy (calibrate_thres s) = true ->
   (calibrate_thres s < c0 rpy \/ calibrate_thres s < c2 rpy) /\
   (0 <= calibrate_thres s -> 0 < c0 rpy \/ 0 < c2 rpy)) /\
  attitude_flag (V3 (-30) (c1 rpy) 0) 1 = false.
Proof.
  intros Hp Hc Hr. split; [|split].
  - intros Hroll Hyaw.
    assert (Hf : attitude_flag rpy (calibrate_thres s) = false)
      by (apply attitude_flag_false; split; assumption).
    split; [exact Hf|]. split.
    + apply (tick_passed_detects show_img s i p img rpy); assumption.
    + apply (tick_passed_quiet show_img s i p img rpy); assumption.
  - intros Hf. apply attitude_flag_true in Hf. unfold Rmax in Hf.
    destruct (Rle_dec (c0 rpy) (c2 rpy)); split; intros; lra.
  - apply attitude_flag_false. simpl. lra.
Qed.

End AttitudeGate.

(** ** A successful calibration *)

Section Calibration.
Import Np Camera.
Context `{Cv2}.

(** Both gates open: the pass ends in [load_matrices]. *)
Lemma tick_both_gates_open show_img s i p img rpy m tvec rvec :
  next_pose i = Some p -> next_color i = Some img ->
  rvec_to_rpy (rotation p) = inr rpy ->
  attitude_flag rpy (calibrate_thres s) = false ->
  result (get_trans_mat img s) = Returns (Some (m, tvec, rvec)) ->
  object (calibrate_tick show_img i s) =
    object (load_matrices m (snd (pose_frame_data p)) (fst (pose_frame_data p)) s) /\
  result (calibrate_tick show_img i s) =
    result (load_matrices m (snd (pose_frame_data p)) (fst (pose_frame_data p)) s).
Proof.
  intros Hp Hc Hr Hf Hg.
  pose proof (get_trans_mat_object img s) as Ho.
  destruct show_img.
  - rewrite (tick_gui s i p img rpy Hp Hc Hr). rewrite Hf. cbv zeta.
    destruct (get_trans_mat img s) as [[t s1] o].
    unfold object, result in Ho, Hg. simpl in Ho, Hg. subst s1 o.
    destruct (load_matrices _ _ _ s) as [[t2 s2] o2]. split; reflexivity.
  - rewrite (tick_cli_passed s i p img rpy Hp Hc Hr Hf).
    destruct (get_trans_mat img s) as [[t s1] o].
    unfold object, result in Ho, Hg. simpl in Ho, Hg. subst s1 o.
    destruct (load_matrices _ _ _ s) as [[t2 s2] o2]. split; reflexivity.
Qed.

(** C1: in a pass in which both gates are open (the attitude flag is
    false and [get_trans_mat] returns a transform) and
    [use_default_cam2cam] is true, the object ends up calibrated with
    d2m the returned transform, t2d the constant diag(1, -1, -1, 1) and
    t2m = d2m @ diag(1, -1, -1, 1); and d2m is the inverse of the 4x4
    matrix made of the Rodrigues rotation and the translation of the one
    detected marker. *)
Theorem calibration_default_rig (show_img : bool) s i p img rpy m tvec rvec :
  next_pose i = Some p -> next_color i = Some img ->
  rvec_to_rpy (rotation p) = inr rpy ->
  attitude_flag rpy (calibrate_thres s) = false ->
  result (get_trans_mat img s) = Returns (Some (m, tvec, rvec)) ->
  use_default_cam2cam s = true ->
  let s' := object (calibrate_tick show_img i s) in
  let flip := M4 (V4 1 0 0 0) (V4 0 (-1) 0 0) (V4 0 0 (-1) 0) (V4 0 0 0 1) in
  result (calibrate_tick show_img i s) = Returns tt /\
  calibrated s' = true /\
  d2m s' = Some m /\ t2d s' = Some flip /\ t2m s' = Some (matmul m flip) /\
  exists r t,
    rvec = [r] /\ tvec = [t] /\
    let marker_to_camera := set_col3 (set_block33 identity4 (Rodrigues r)) t in
    matmul marker_to_camera m = identity4 /\
    matmul m marker_to_camera = identity4.
Proof.
  intros Hp Hc Hr Hf Hg Hu s' flip. subst s' flip.
  destruct (tick_both_gates_open show_img s i p img rpy m tvec rvec Hp Hc Hr Hf Hg)
    as [-> ->].
  rewrite load_matrices_default by exact Hu.
  unfold object, result. simpl.
  repeat (split; [reflexivity|]).
  destruct (get_trans_mat_returns img s m tvec rvec Hg) as (r & t & -> & -> & Hi).
  exists r, t. repeat (split; [reflexivity|]).
  apply linalg_inv_sound. exact Hi.
Qed.

End Calibration.

(** ** Steady state: [poll] *)

Section PoseEstimator.
Import Np Camera.
Context `{Cv2}.

(** What [get_trans_mat] raises is caught by [except Exception]. *)
Lemma get_trans_mat_raises img s e :
  result (get_trans_mat img s) = Raises e -> is_Exception e = true.
Proof.
  unfold get_trans_mat, result. run_monad.
  destruct (detectMarkers img) as [cs ids]. simpl.
  destruct ids as [[|i1 [|i2 ids]]|]; simpl; try discriminate.
  - destruct (negb (i1 =? 0)%Z); simpl; try discriminate.
    destruct (estimatePoseSingleMarkers cs) as [rvec tvec].
    unfold cam2marker.
    destruct rvec as [|r [|]]; simpl; try (intros [= <-]; reflexivity).
    destruct tvec as [|t [|]]; simpl; try (intros [= <-]; reflexivity).
    unfold linalg_inv. destruct (Req_dec_T _ 0); simpl.
    + intros [= <-]; reflexivity.
    + destruct (show_gui s); discriminate.
  - intros [= <-]; reflexivity.
Qed.

(** Its outcome depends on the image alone. *)
Lemma get_trans_mat_result img s s' :
  result (get_trans_mat img s) = result (get_trans_mat img s').
Proof.
  unfold get_trans_mat, result. run_monad.
  destruct (detectMarkers img) as [cs ids]. simpl.
  destruct (truth_value ids) as [e|[|]]; simpl; try reflexivity.
  destruct (estimatePoseSingleMarkers cs) as [rvec tvec].
  destruct (cam2marker rvec tvec) as [e|m]; simpl; try reflexivity.
  destruct (show_gui s), (show_gui s'); reflexivity.
Qed.

Lemma poll_uncalibrated i s :
  calibrated s = false ->
  poll i s = ([LoggerError NotCalibratedYet], s, Returns NaN).
Proof. intros Hs. unfold poll. run_monad. rewrite Hs. reflexivity. Qed.

Lemma poll_no_color i s :
  calibrated s = true -> next_color i = None ->
  poll i s =
  ([WaitForFrames pipe_d; LoggerError (Error RuntimeError)], s, Returns NaN).
Proof.
  intros Hs Hc. unfold poll, try_except, wait_for_frames. run_monad.
  rewrite Hs, Hc. reflexivity.
Qed.

Lemma poll_no_pose i s img :
  calibrated s = true -> next_color i = Some img -> next_pose i = None ->
  poll i s =
  ([WaitForFrames pipe_d; WaitForFrames pipe_t; LoggerError (Error RuntimeError)],
   s, Returns NaN).
Proof.
  intros Hs Hc Hp. unfold poll, try_except, wait_for_frames. run_monad.
  rewrite Hs, Hc, Hp. reflexivity.
Qed.

Lemma poll_no_transform i s img p :
  calibrated s = true -> next_color i = Some img -> next_pose i = Some p ->
  t2m s = None ->
  poll i s =
  ([WaitForFrames pipe_d; WaitForFrames pipe_t; LoggerError (Error TypeError)],
   s, Returns NaN).
Proof.
  intros Hs Hc Hp Ht. unfold poll, try_except, wait_for_frames. run_monad.
  rewrite Hs, Hc, Hp. simpl. rewrite Ht. reflexivity.
Qed.

Lemma poll_headless i s img p a :
  calibrated s = true -> next_color i = Some img -> next_pose i = Some p ->
  t2m s = Some a -> show_gui s = false ->
  let v := take3 (matvec a (fst (pose_frame_data p))) in
  poll i s =
  ([WaitForFrames pipe_d; WaitForFrames pipe_t], set_location v s,
   Returns (Location v)).
Proof.
  intros Hs Hc Hp Ht Hg. unfold poll, try_except, wait_for_frames. run_monad.
  rewrite Hs, Hc, Hp. simpl. rewrite Ht. simpl. rewrite Hg. reflexivity.
Qed.

(** With a window, [poll] goes through [poll_gui] on the moved object. *)
Lemma poll_window i s img p a :
  calibrated s = true -> next_color i = Some img -> next_pose i = Some p ->
  t2m s = Some a -> show_gui s = true ->
  let v := take3 (matvec a (fst (pose_frame_data p))) in
  poll i s =
  let '(t, s1, o) := poll_gui img i (set_location v s) in
  let pre := [WaitForFrames pipe_d; WaitForFrames pipe_t] ++ t in
  match o with
  | Returns _ => (pre, s1, Returns (Location (location s1)))
  | Raises e =>
      if is_Exception e then (pre ++ [LoggerError (Error e)], s1, Returns NaN)
      else (pre, s1, Raises e)
  | Blocks => (pre, s1, Blocks)
  end.
Proof.
  intros Hs Hc Hp Ht Hg v. subst v.
  unfold poll, try_except, wait_for_frames. run_monad.
  rewrite Hs, Hc, Hp. simpl. rewrite Ht. simpl. rewrite Hg. simpl.
  destruct (poll_gui img i _) as [[t s1] [[]|e|]]; simpl; try reflexivity.
  - rewrite app_nil_r. reflexivity.
  - destruct (is_Exception e); simpl; try reflexivity.
Qed.

(** The window part: the optional second look for the marker, the
    overlay, and the key. *)
Lemma poll_gui_run img i s :
  poll_gui img i s =
  let '(t, o) :=
    if detect_mode s
    then (events (get_trans_mat img s), result (get_trans_mat img s))
    else ([], Returns None) in
  match o with
  | Raises e => (t, s, Raises e)
  | Blocks => (t, s, Blocks)
  | Returns r =>
      let overlay :=
        match r with
        | Some (c2m, _, _) => [PutText (Rounded (take3 (matvec c2m (V4 0 0 0 1))))]
        | None => []
        end in
      let shown := t ++ overlay ++ [PutText (Rounded (location s)); ImShow; WaitKey] in
      if ((Z.land (key i) 255 =? 113) || (key i =? 27))%Z
      then (shown ++ [DestroyAllWindows], s, Raises (SystemExit 0))
      else if (Z.land (key i) 255 =? 100)%Z
           then (shown, set_detect_mode (negb (detect_mode s)) s, Returns tt)
           else (shown, s, Returns tt)
  end.
Proof.
  unfold poll_gui. run_monad.
  destruct (detect_mode s) eqn:Hd; simpl.
  - pose proof (get_trans_mat_object img s) as Ho.
    destruct (get_trans_mat img s) as [[t s1] o].
    unfold object, events, result in *. simpl in *. subst s1.
    destruct o as [[[[c2m tv] rv]|]|e|]; simpl; try reflexivity.
    + destruct ((Z.land (key i) 255 =? 113) || (key i =? 27))%Z; simpl.
      * rewrite <- !app_assoc. reflexivity.
      * destruct (Z.land (key i) 255 =? 100)%Z; simpl;
          rewrite ?Hd, <- ?app_assoc; simpl; rewrite ?app_nil_r; reflexivity.
    + destruct ((Z.land (key i) 255 =? 113) || (key i =? 27))%Z; simpl.
      * rewrite <- !app_assoc. reflexivity.
      * destruct (Z.land (key i) 255 =? 100)%Z; simpl;
          rewrite ?Hd, <- ?app_assoc; simpl; rewrite ?app_nil_r; reflexivity.
  - destruct ((Z.land (key i) 255 =? 113) || (key i =? 27))%Z; simpl.
    + reflexivity.
    + destruct (Z.land (key i) 255 =? 100)%Z; simpl; rewrite ?Hd; reflexivity.
Qed.

(** The outcome of [poll] with a window, from that of [poll_gui]. *)
Lemma poll_window_result i s img p a :
  calibrated s = true -> next_color i = Some img -> next_pose i = Some p ->
  t2m s = Some a -> show_gui s = true ->
  let v := take3 (matvec a (fst (pose_frame_data p))) in
  result (poll i s) =
  match (if detect_mode s then result (get_trans_mat img s) else Returns None) with
  | Raises _ | Blocks => Returns NaN
  | Returns _ =>
      if ((Z.land (key i) 255 =? 113) || (key i =? 27))%Z
      then Raises (SystemExit 0)
      else Returns (Location v)
  end.
Proof.
  intros Hs Hc Hp Ht Hg v.
  rewrite (poll_window i s img p a Hs Hc Hp Ht Hg). cbv zeta. fold v.
  rewrite poll_gui_run.
  replace (detect_mode (set_location v s)) with (detect_mode s) by reflexivity.
  rewrite (get_trans_mat_result img (set_location v s) s).
  destruct (detect_mode s).
  - pose proof (get_trans_mat_raises img s) as Hr.
    pose proof (get_trans_mat_blocks img s) as Hb.
    destruct (result (get_trans_mat img s)) as [r|e|]; [| |contradiction].
    + destruct ((Z.land (key i) 255 =? 113) || (key i =? 27))%Z; [reflexivity|].
      destruct (Z.land (key i) 255 =? 100)%Z; reflexivity.
    + rewrite (Hr e eq_refl). reflexivity.
  - destruct ((Z.land (key i) 255 =? 113) || (key i =? 27))%Z; [reflexivity|].
    destruct (Z.land (key i) 255 =? 100)%Z; reflexivity.
Qed.

(** C3, as the code has it.  On an uncalibrated object [poll] logs an
    error and returns [np.nan].  On a calibrated object it returns
    [np.nan] when a read fails, when [t2m] is missing, or when the second
    look for the marker (window shown, detect mode on) raises.  Otherwise
    it returns (t2m @ [x, y, z, 1])[:3] for the tracker translation
    (x, y, z), unless the window is shown and the key read is q or Esc:
    then the call ends in [SystemExit] and returns nothing. *)
Theorem poll_outcome i s :
  (calibrated s = false ->
   poll i s = ([LoggerError NotCalibratedYet], s, Returns NaN)) /\
  (calibrated s = true ->
   match next_color i, next_pose i, t2m s with
   | Some img, Some p, Some a =>
       let t := translation p in
       let v := take3 (matvec a (V4 (c0 t) (c1 t) (c2 t) 1)) in
       let second_look_raises :=
         detect_mode s = true /\ exists e, result (get_trans_mat img s) = Raises e in
       let quit := ((Z.land (key i) 255 =? 113) || (key i =? 27))%Z in
       if show_gui s then
         (second_look_raises -> result (poll i s) = Returns NaN) /\
         (~ second_look_raises -> quit = true ->
          result (poll i s) = Raises (SystemExit 0)) /\
         (~ second_look_raises -> quit = false ->
          result (poll i s) = Returns (Location v))
       else
         poll i s =
         ([WaitForFrames pipe_d; WaitForFrames pipe_t], set_location v s,
          Returns (Location v))
   | _, _, _ => result (poll i s) = Returns NaN
   end).
Proof.
  split; [apply poll_uncalibrated|]. intros Hs.
  destruct (next_color i) as [img|] eqn:Hc;
    [|rewrite poll_no_color by assumption; reflexivity].
  destruct (next_pose i) as [p|] eqn:Hp;
    [|rewrite (poll_no_pose i s img) by assumption; reflexivity].
  destruct (t2m s) as [a|] eqn:Ht;
    [|rewrite (poll_no_transform i s img p) by assumption; reflexivity].
  cbv zeta.
  destruct (show_gui s) eqn:Hg;
    [|apply (poll_headless i s img p a); assumption].
  rewrite (poll_window_result i s img p a Hs Hc Hp Ht Hg). cbv zeta.
  change (fst (pose_frame_data p))
    with (V4 (c0 (translation p)) (c1 (translation p)) (c2 (translation p)) 1).
  pose proof (get_trans_mat_blocks img s) as Hb.
  destruct (detect_mode s).
  - destruct (result (get_trans_mat img s)) as [r|e|]; [| |contradiction].
    + split; [intros [_ [e He]]; discriminate|].
      split; intros _ ->; reflexivity.
    + split; [reflexivity|].
      split; intros Hn; exfalso; apply Hn; split; eauto.
  - split; [intros [Hd _]; discriminate|].
    split; intros _ ->; reflexivity.
Qed.

End PoseEstimator.

(** ** The order of the two sensor reads *)

Section ReadOrder.
Import Np Camera.
Context `{Cv2}.

Ltac no_waits :=
  repeat first [apply List.Forall_cons | apply List.Forall_nil | apply Forall_app_2];
  simpl; try tauto.

Lemma no_wait_in_load_matrices m rv tv s :
  Forall (fun e => ~ is_wait e) (events (load_matrices m rv tv s)).
Proof.
  destruct (load_matrices_shape m rv tv s) as [-> | ->]; no_waits.
Qed.

Lemma no_wait_in_get_trans_mat img s :
  Forall (fun e => ~ is_wait e) (events (get_trans_mat img s)).
Proof.
  destruct (get_trans_mat_shape img s) as [-> | ->]; no_waits.
Qed.

(** A pass of the calibration loop reads the tracker, then the camera, and
    reads nothing after that. *)
Lemma tick_events show_img i s p :
  next_pose i = Some p ->
  exists rest,
    events (calibrate_tick show_img i s) =
      WaitForFrames pipe_t :: WaitForFrames pipe_d :: rest /\
    Forall (fun e => ~ is_wait e) rest.
Proof.
  intros Hp.
  destruct (next_color i) as [img|] eqn:Hc.
  2:{ exists []. split; [|constructor].
      unfold calibrate_tick, wait_for_frames, events. run_monad.
      rewrite Hp, Hc. reflexivity. }
  destruct (rvec_to_rpy (rotation p)) as [e|rpy] eqn:Hr.
  { exists []. split; [|constructor].
    unfold calibrate_tick, wait_for_frames, events. run_monad.
    rewrite Hp, Hc. simpl. rewrite Hr. reflexivity. }
  pose proof (no_wait_in_get_trans_mat img s) as Hg.
  destruct show_img.
  - rewrite (tick_gui s i p img rpy Hp Hc Hr). cbv zeta.
    destruct (get_trans_mat img s) as [[t s1] o]. unfold events in *. simpl in Hg.
    destruct o as [[[[m tv] rv]|]|e|]; simpl;
      try (eexists; split; [reflexivity|no_waits; assumption]).
    destruct (attitude_flag rpy (calibrate_thres s)); simpl;
      try (eexists; split; [reflexivity|no_waits; assumption]).
    pose proof (no_wait_in_load_matrices m (snd (pose_frame_data p))
                  (fst (pose_frame_data p)) s1) as Hl.
    destruct (load_matrices _ _ _ s1) as [[t2 s2] o2]. unfold events in Hl.
    simpl in *. eexists; split; [reflexivity|no_waits; assumption].
  - destruct (attitude_flag rpy (calibrate_thres s)) eqn:Hf.
    + rewrite (tick_cli_rejected s i p img rpy Hp Hc Hr Hf). simpl.
      eexists; split; [reflexivity|no_waits].
    + rewrite (tick_cli_passed s i p img rpy Hp Hc Hr Hf).
      destruct (get_trans_mat img s) as [[t s1] o]. unfold events in *. simpl in Hg.
      destruct o as [[[[m tv] rv]|]|e|]; simpl;
        try (eexists; split; [reflexivity|no_waits; assumption]).
      pose proof (no_wait_in_load_matrices m (snd (pose_frame_data p))
                    (fst (pose_frame_data p)) s1) as Hl.
      destruct (load_matrices _ _ _ s1) as [[t2 s2] o2]. unfold events in Hl.
      simpl in *. eexists; split; [reflexivity|no_waits; assumption].
Qed.

(** A [poll] on a calibrated object reads the camera, then the tracker,
    and reads nothing after that. *)
Lemma poll_events i s img :
  calibrated s = true -> next_color i = Some img ->
  exists rest,
    events (poll i s) =
      WaitForFrames pipe_d :: WaitForFrames pipe_t :: rest /\
    Forall (fun e => ~ is_wait e) rest.
Proof.
  intros Hs Hc.
  destruct (next_pose i) as [p|] eqn:Hp.
  2:{ rewrite (poll_no_pose i s img Hs Hc Hp).
      eexists; split; [reflexivity|no_waits]. }
  destruct (t2m s) as [a|] eqn:Ht.
  2:{ rewrite (poll_no_transform i s img p Hs Hc Hp Ht).
      eexists; split; [reflexivity|no_waits]. }
  destruct (show_gui s) eqn:Hg.
  2:{ rewrite (poll_headless i s img p a Hs Hc Hp Ht Hg).
      eexists; split; [reflexivity|no_waits]. }
  rewrite (poll_window i s img p a Hs Hc Hp Ht Hg). cbv zeta.
  rewrite poll_gui_run.
  set (s1 := set_location _ s).
  pose proof (no_wait_in_get_trans_mat img s1) as Hd.
  pose proof (get_trans_mat_raises img s1) as Hr.
  destruct (detect_mode s1).
  - destruct (result (get_trans_mat img s1)) as [[[[c2m tv] rv]|]|e|]; simpl.
    + destruct ((Z.land (key i) 255 =? 113) || (key i =? 27))%Z; simpl;
        [|destruct (Z.land (key i) 255 =? 100)%Z];
        simpl; eexists; (split; [reflexivity|no_waits; assumption]).
    + destruct ((Z.land (key i) 255 =? 113) || (key i =? 27))%Z; simpl;
        [|destruct (Z.land (key i) 255 =? 100)%Z];
        simpl; eexists; (split; [reflexivity|no_waits; assumption]).
    + rewrite (Hr e eq_refl). simpl.
      eexists; (split; [reflexivity|no_waits; assumption]).
    + simpl. eexists; (split; [reflexivity|assumption]).
  - simpl.
    destruct ((Z.land (key i) 255 =? 113) || (key i =? 27))%Z; simpl;
      [|destruct (Z.land (key i) 255 =? 100)%Z];
      simpl; eexists; (split; [reflexivity|no_waits]).
Qed.

(** C7, as the code has it: a pass of the calibration loop waits for the
    tracker pose first and for the camera image second; a [poll] on a
    calibrated object waits for the camera image first and for the tracker
    pose second.  In both, every other effect comes after the two reads. *)
Theorem sensor_read_order (show_img : bool) i s s_cal p img :
  next_pose i = Some p -> next_color i = Some img ->
  calibrated s_cal = true ->
  (exists rest,
     events (calibrate_tick show_img i s) =
       WaitForFrames pipe_t :: WaitForFrames pipe_d :: rest /\
     Forall (fun e => ~ is_wait e) rest) /\
  (exists rest,
     events (poll i s_cal) =
       WaitForFrames pipe_d :: WaitForFrames pipe_t :: rest /\
     Forall (fun e => ~ is_wait e) rest).
Proof.
  intros Hp Hc Hs. split.
  - apply (tick_events show_img i s p Hp).
  - apply (poll_events i s_cal img Hs Hc).
Qed.

End ReadOrder.

(** ** The calibration state: one way, and complete when reached *)

Section CalibrationState.
Import Np Camera.
Context `{Cv2}.

Lemma load_matrices_object m rv tv s :
  object (load_matrices m rv tv s) = set_d2m m s \/
  exists c,
    object (load_matrices m rv tv s) =
    set_calibrated true (set_t2m (matmul m c) (set_t2d c (set_d2m m s))).
Proof.
  unfold load_matrices, object. run_monad.
  destruct (cam2cam _ rv tv) as [e|c]; simpl; eauto.
Qed.

(** A pass either leaves the object as it is or ends in [load_matrices]. *)
Lemma tick_object show_img i s :
  object (calibrate_tick show_img i s) = s \/
  exists m rv tv,
    object (calibrate_tick show_img i s) = object (load_matrices m rv tv s).
Proof.
  destruct (next_pose i) as [p|] eqn:Hp.
  2:{ left. unfold calibrate_tick, wait_for_frames, object. run_monad.
      rewrite Hp. reflexivity. }
  destruct (next_color i) as [img|] eqn:Hc.
  2:{ left. unfold calibrate_tick, wait_for_frames, object. run_monad.
      rewrite Hp, Hc. reflexivity. }
  destruct (rvec_to_rpy (rotation p)) as [e|rpy] eqn:Hr.
  { left. unfold calibrate_tick, wait_for_frames, object. run_monad.
    rewrite Hp, Hc. simpl. rewrite Hr. reflexivity. }
  destruct (attitude_flag rpy (calibrate_thres s)) eqn:Hf.
  { left. apply (tick_rejected_object show_img s i p img rpy); assumption. }
  pose proof (get_trans_mat_object img s) as Ho.
  destruct (result (get_trans_mat img s)) as [[[[m tv] rv]|]|e|] eqn:Hg.
  - right. exists m, (snd (pose_frame_data p)), (fst (pose_frame_data p)).
    apply (tick_both_gates_open show_img s i p img rpy m tv rv); assumption.
  - left. destruct show_img.
    + rewrite (tick_gui s i p img rpy Hp Hc Hr). cbv zeta.
      destruct (get_trans_mat img s) as [[t s1] o].
      unfold object, result in *. simpl in *. subst. reflexivity.
    + rewrite (tick_cli_passed s i p img rpy Hp Hc Hr Hf).
      destruct (get_trans_mat img s) as [[t s1] o].
      unfold object, result in *. simpl in *. subst. reflexivity.
  - left. destruct show_img.
    + rewrite (tick_gui s i p img rpy Hp Hc Hr). cbv zeta.
      destruct (get_trans_mat img s) as [[t s1] o].
      unfold object, result in *. simpl in *. subst. reflexivity.
    + rewrite (tick_cli_passed s i p img rpy Hp Hc Hr Hf).
      destruct (get_trans_mat img s) as [[t s1] o].
      unfold object, result in *. simpl in *. subst. reflexivity.
  - exfalso. exact (get_trans_mat_blocks img s Hg).
Qed.

Lemma tick_complete show_img i s :
  calibrated s = false -> complete (object (calibrate_tick show_img i s)).
Proof.
  intros Hs.
  destruct (tick_object show_img i s) as [-> | (m & rv & tv & ->)].
  - intros Hc. congruence.
  - destruct (load_matrices_object m rv tv s) as [-> | [c ->]].
    + intros Hc. simpl in Hc. congruence.
    + intros _. simpl. repeat split; discriminate.
Qed.

Lemma calibrate_loop_complete show_img fs :
  forall s, complete s -> complete (object (calibrate_loop show_img fs s)).
Proof.
  induction fs as [|i rest IH]; intros s Hs.
  - simpl. destruct (calibrated s); exact Hs.
  - destruct (calibrated s) eqn:Hc.
    + rewrite calibrate_loop_done by exact Hc. exact Hs.
    + rewrite calibrate_loop_step by exact Hc. unfold bind.
      pose proof (tick_complete show_img i s Hc) as Ht.
      destruct (calibrate_tick show_img i s) as [[t1 s1] [[]|e|]];
        unfold object in Ht; simpl in Ht; try exact Ht.
      specialize (IH s1 Ht).
      destruct (calibrate_loop show_img rest s1) as [[t2 s2] o2]. exact IH.
Qed.

(** [poll] writes [location] and [detect_mode] only. *)
Lemma poll_keeps i s :
  calibrated (object (poll i s)) = calibrated s /\
  transforms (object (poll i s)) = transforms s.
Proof.
  destruct (calibrated s) eqn:Hs;
    [|rewrite poll_uncalibrated by exact Hs; auto].
  destruct (next_color i) as [img|] eqn:Hc;
    [|rewrite poll_no_color by assumption; auto].
  destruct (next_pose i) as [p|] eqn:Hp;
    [|rewrite (poll_no_pose i s img) by assumption; auto].
  destruct (t2m s) as [a|] eqn:Ht;
    [|rewrite (poll_no_transform i s img p) by assumption; auto].
  destruct (show_gui s) eqn:Hg;
    [|rewrite (poll_headless i s img p a) by assumption;
      unfold object, transforms; simpl; auto].
  rewrite (poll_window i s img p a Hs Hc Hp Ht Hg). cbv zeta.
  rewrite poll_gui_run.
  set (s1 := set_location _ s).
  assert (Hk : calibrated s1 = true /\ transforms s1 = transforms s)
    by (split; [exact Hs|reflexivity]).
  destruct (detect_mode s1);
    [destruct (result (get_trans_mat img s1)) as [r|e|]|]; simpl;
    try destruct (is_Exception e);
    try destruct ((Z.land (key i) 255 =? 113) || (key i =? 27))%Z;
    try destruct (Z.land (key i) 255 =? 100)%Z;
    unfold object; simpl; exact Hk.
Qed.

Lemma calibrate_calibrated show_img fs s :
  calibrated s = true ->
  calibrate show_img fs s = ([LoggerDebug CalibrationProcessStarts], s, Returns tt).
Proof.
  intros Hs. unfold calibrate. run_monad.
  rewrite calibrate_loop_done by exact Hs. reflexivity.
Qed.

(** No call takes a calibrated object back or touches its transforms. *)
Lemma after_keeps c s :
  calibrated s = true ->
  calibrated (after c s) = true /\ transforms (after c s) = transforms s.
Proof.
  intros Hs. destruct c as [show_img fs|i| | | | |img]; simpl.
  - rewrite calibrate_calibrated by exact Hs. auto.
  - destruct (poll_keeps i s) as [Hc Ht]. rewrite Hc, Ht. auto.
  - auto.
  - auto.
  - auto.
  - auto.
  - rewrite get_trans_mat_object. auto.
Qed.

Lemma after_all_keeps cs :
  forall s, calibrated s = true ->
  calibrated (after_all cs s) = true /\ transforms (after_all cs s) = transforms s.
Proof.
  induction cs as [|c cs IH]; intros s Hs; [auto|].
  simpl. destruct (after_keeps c s Hs) as [Hc Ht].
  destruct (IH (after c s) Hc) as [Hc' Ht']. rewrite Ht'. auto.
Qed.

Lemma after_complete c s : complete s -> complete (after c s).
Proof.
  intros Hs. destruct c as [show_img fs|i| | | | |img]; simpl.
  - unfold calibrate, bind, emit. simpl.
    pose proof (calibrate_loop_complete show_img fs s Hs) as Hl.
    destruct (calibrate_loop show_img fs s) as [[t s1] o]. exact Hl.
  - destruct (poll_keeps i s) as [Hc Ht]. unfold complete, transforms in *.
    rewrite Hc. injection Ht as -> -> ->. exact Hs.
  - exact Hs.
  - exact Hs.
  - exact Hs.
  - exact Hs.
  - rewrite get_trans_mat_object. exact Hs.
Qed.

Lemma after_all_complete cs : forall s, complete s -> complete (after_all cs s).
Proof.
  induction cs as [|c cs IH]; intros s Hs; [exact Hs|].
  simpl. apply IH, after_complete, Hs.
Qed.

(** C4: once the object is calibrated, as a result of whatever calls
    since its construction, its three transforms d2m, t2d and t2m are set;
    no later sequence of calls (of [calibrate], [poll], [get_intrinsics],
    [stop], [start_detect], [stop_detect], [get_trans_mat]) makes it
    uncalibrated or changes a transform; and a further [calibrate] only
    logs its start, reads no frame and leaves the object as it is. *)
Theorem calibration_one_way GUI mtx dist (history : list call) :
  let s := after_all history (init GUI mtx dist) in
  calibrated s = true ->
  (d2m s <> None /\ t2d s <> None /\ t2m s <> None) /\
  (forall future,
     calibrated (after_all future s) = true /\
     transforms (after_all future s) = transforms s) /\
  (forall show_img fs,
     calibrate show_img fs s =
     ([LoggerDebug CalibrationProcessStarts], s, Returns tt)) /\
  (forall i,
     calibrated (object (poll i s)) = true /\
     transforms (object (poll i s)) = transforms s).
Proof.
  intros s Hs. split; [|split; [|split]].
  - apply (after_all_complete history (init GUI mtx dist)); [|exact Hs].
    intros Hc. discriminate.
  - intros future. apply after_all_keeps. exact Hs.
  - intros show_img fs. apply calibrate_calibrated. exact Hs.
  - intros i. destruct (poll_keeps i s) as [Hc Ht]. rewrite Hc, Ht. auto.
Qed.

End CalibrationState.

(** ** More than one marker in sight *)

Section SeveralMarkers.
Import Np Camera.
Context `{Cv2}.

(** C8 fails on the code: when the detector reports two or more markers,
    [if ids:] raises [ValueError]; [get_trans_mat] returns no transform,
    and a pass of the calibration loop that reaches the marker gate, and
    with it [calibrate], ends in that exception. *)
Theorem several_markers_raise (show_img : bool) img cs i1 i2 ids i p rpy rest s :
  detectMarkers img = (cs, Some (i1 :: i2 :: ids)) ->
  next_pose i = Some p -> next_color i = Some img ->
  rvec_to_rpy (rotation p) = inr rpy ->
  attitude_flag rpy (calibrate_thres s) = false ->
  calibrated s = false ->
  get_trans_mat img s = ([AruCoDetectMarkers], s, Raises ValueError) /\
  result (calibrate_tick show_img i s) = Raises ValueError /\
  result (calibrate show_img (i :: rest) s) = Raises ValueError.
Proof.
  intros Hd Hp Hc Hr Hf Hs.
  pose proof (get_trans_mat_ambiguous img cs i1 i2 ids s Hd) as Hg.
  assert (Ht : result (calibrate_tick show_img i s) = Raises ValueError).
  { destruct show_img.
    - rewrite (tick_gui s i p img rpy Hp Hc Hr). cbv zeta. rewrite Hg. reflexivity.
    - rewrite (tick_cli_passed s i p img rpy Hp Hc Hr Hf). rewrite Hg. reflexivity. }
  split; [exact Hg|]. split; [exact Ht|].
  unfold calibrate. unfold bind at 1. unfold emit.
  rewrite calibrate_loop_step by exact Hs. unfold bind.
  destruct (calibrate_tick show_img i s) as [[t1 s1] o1].
  unfold result in Ht. simpl in Ht. subst o1. reflexivity.
Qed.

End SeveralMarkers.

(** ** The tracker server *)

Section TrackerServer.
Import Vive.
Context `{Wire}.

Lemma handle_undecodable data client devices e :
  decode (strip data) = inl e ->
  handle data client devices = ([], devices, Raises e).
Proof. intros Hd. unfold handle. run_monad. rewrite Hd. reflexivity. Qed.

Lemma handle_unknown data client (devices : gmap string tracker) name :
  decode (strip data) = inr name -> devices !! name = None ->
  handle data client devices =
  ([PrintTracker None; PrintMessage None], devices, Returns tt).
Proof.
  intros Hd Hn. unfold handle, poll, get_tracker. run_monad.
  rewrite Hd. simpl. rewrite Hn. reflexivity.
Qed.

Lemma handle_known data client (devices : gmap string tracker) name t :
  decode (strip data) = inr name -> devices !! name = Some t ->
  let m := create_tracker_message t name in
  handle data client devices =
  ([PrintTracker (Some t); PrintMessage (Some m);
    SendTo (encode (construct_json_message m)) client],
   devices, Returns tt).
Proof.
  intros Hd Hn. unfold handle, poll, get_tracker. run_monad.
  rewrite Hd. simpl. rewrite Hn. reflexivity.
Qed.

(** C10: for every datagram, if the decoded name is a key of the device
    registry the handler sends exactly one datagram, to the client: the
    encoded text of the JSON document with the members valid, x, y, z, yaw,
    pitch, roll, vel_x, vel_y, vel_z and device_name (the pose and the
    velocity of that device, under the name asked for), followed by a
    semicolon.  If the name is not a key of the registry, or the bytes do
    not decode, it sends nothing. *)
Theorem handle_response data client (devices : gmap string tracker) :
  let datagrams := sent (events (handle data client devices)) in
  match decode (strip data) with
  | inl _ => datagrams = []
  | inr name =>
      match devices !! name with
      | None => datagrams = []
      | Some t =>
          let '(px, py, pz, e_yaw, e_pitch, e_roll) := get_pose_euler t in
          let '(vx, vy, vz) := get_velocity t in
          let document :=
            [("valid", JBool true);
             ("x", JNumber px); ("y", JNumber py); ("z", JNumber pz);
             ("yaw", JNumber e_yaw); ("pitch", JNumber e_pitch);
             ("roll", JNumber e_roll);
             ("vel_x", JNumber vx); ("vel_y", JNumber vy); ("vel_z", JNumber vz);
             ("device_name", JString name)]%string in
          datagrams = [(encode (json_dumps_indent2 document ++ ";")%string, client)]
      end
  end.
Proof.
  cbv zeta.
  destruct (decode (strip data)) as [e|name] eqn:Hd.
  - rewrite (handle_undecodable data client devices e Hd). reflexivity.
  - destruct (devices !! name) as [t|] eqn:Hn.
    + rewrite (handle_known data client devices name t Hd Hn).
      unfold construct_json_message, ViveTrackerMessage_json, create_tracker_message.
      destruct (get_pose_euler t) as [[[[[px py] pz] e_yaw] e_pitch] e_roll].
      destruct (get_velocity t) as [[vx vy] vz]. reflexivity.
    + rewrite (handle_unknown data client devices name Hd Hn). reflexivity.
Qed.

End TrackerServer.

(** ** Runs on the synthetic scene *)

Section SyntheticRuns.
Import Np Camera Synthetic.

Lemma flag_level GUI :
  attitude_flag (V3 0 0 0) (calibrate_thres (fresh GUI)) = false.
Proof. apply attitude_flag_false. simpl. unfold CAM_CONFIG_calibrate_threshold. lra. Qed.

Lemma flag_upside_down GUI :
  attitude_flag (V3 180 0 0) (calibrate_thres (fresh GUI)) = true.
Proof.
  apply attitude_flag_true. simpl. unfold CAM_CONFIG_calibrate_threshold, Rmax.
  destruct (Rle_dec 180 0); lra.
Qed.

Lemma flag_rolled_back GUI :
  attitude_flag (V3 (-90) 0 0) (calibrate_thres (fresh GUI)) = false.
Proof. apply attitude_flag_false. simpl. unfold CAM_CONFIG_calibrate_threshold. lra. Qed.

(** A level rig in front of [marker_7], command line mode: one pass
    calibrates the object. *)
Lemma calibrate_tick_on_marker_7 :
  @calibrate_tick scene false (frames level_pose [marker_7] (-1)) (fresh false) =
  ([WaitForFrames pipe_t; WaitForFrames pipe_d; Sleep; AruCoDetectMarkers;
    Print CalibrationSuccess],
   calibrated_on_marker_7 false, Returns tt).
Proof.
  rewrite (@tick_cli_passed scene (fresh false)
             (frames level_pose [marker_7] (-1)) level_pose [marker_7] (V3 0 0 0)
             eq_refl eq_refl rpy_level (flag_level false)).
  rewrite get_trans_mat_marker_7.
  rewrite load_matrices_default by reflexivity. reflexivity.
Qed.

Lemma calibrate_on_marker_7 :
  @calibrate scene false [frames level_pose [marker_7] (-1)] (fresh false) =
  ([LoggerDebug CalibrationProcessStarts;
    WaitForFrames pipe_t; WaitForFrames pipe_d; Sleep; AruCoDetectMarkers;
    Print CalibrationSuccess],
   calibrated_on_marker_7 false, Returns tt).
Proof.
  unfold calibrate. unfold bind at 1. unfold emit.
  rewrite calibrate_loop_step by reflexivity. unfold bind.
  rewrite calibrate_tick_on_marker_7.
  rewrite calibrate_loop_done by reflexivity. reflexivity.
Qed.

(** The world position of the tracker origin after that calibration. *)
Lemma origin_seen_from_marker_7 :
  take3 (matvec (matmul camera_to_marker_7 base_c2c) (V4 0 0 0 1)) = V3 0 0 (-1).
Proof.
  unfold camera_to_marker_7, base_c2c, take3, matvec, matmul, dot4, col.
  simpl. f_equal; ring.
Qed.

(** C1 on the scene: a level rig in front of [marker_7]. *)
Lemma calibration_default_rig_on_marker_7 :
  next_pose (frames level_pose [marker_7] (-1)) = Some level_pose /\
  next_color (frames level_pose [marker_7] (-1)) = Some [marker_7] /\
  rvec_to_rpy (rotation level_pose) = inr (V3 0 0 0) /\
  attitude_flag (V3 0 0 0) (calibrate_thres (fresh false)) = false /\
  result (@get_trans_mat scene [marker_7] (fresh false)) =
    Returns (Some (camera_to_marker_7, [V3 0 0 1], [V3 0 0 0])) /\
  use_default_cam2cam (fresh false) = true /\
  t2m (object (@calibrate_tick scene false (frames level_pose [marker_7] (-1)) (fresh false))) =
    Some (matmul camera_to_marker_7
            (M4 (V4 1 0 0 0) (V4 0 (-1) 0 0) (V4 0 0 (-1) 0) (V4 0 0 0 1))).
Proof.
  assert (Hg : result (@get_trans_mat scene [marker_7] (fresh false)) =
               Returns (Some (camera_to_marker_7, [V3 0 0 1], [V3 0 0 0])))
    by (rewrite get_trans_mat_marker_7; reflexivity).
  pose proof (@calibration_default_rig scene false (fresh false)
                (frames level_pose [marker_7] (-1)) level_pose [marker_7]
                (V3 0 0 0) camera_to_marker_7 [V3 0 0 1] [V3 0 0 0]
                eq_refl eq_refl rpy_level (flag_level false) Hg eq_refl) as T.
  cbv zeta in T. destruct T as (_ & _ & _ & _ & T & _).
  repeat (split; [first [reflexivity | exact rpy_level | exact (flag_level false) | exact Hg]|]).
  exact T.
Defined.

(** C2 on the scene: a level rig passes the gate of threshold 1. *)
Lemma attitude_gate_exact_on_level_rig :
  next_pose (frames level_pose [marker_7] (-1)) = Some level_pose /\
  next_color (frames level_pose [marker_7] (-1)) = Some [marker_7] /\
  rvec_to_rpy (rotation level_pose) = inr (V3 0 0 0) /\
  (attitude_flag (V3 0 0 0) (calibrate_thres (fresh false)) = true <->
   calibrate_thres (fresh false) < Rmax 0 0).
Proof.
  pose proof (@attitude_gate_exact scene false (fresh false)
                (frames level_pose [marker_7] (-1)) level_pose [marker_7]
                (V3 0 0 0) eq_refl eq_refl rpy_level) as T.
  cbv zeta in T. destruct T as (T & _).
  repeat (split; [first [reflexivity | exact rpy_level]|]).
  exact T.
Defined.

(** C3 on the scene: without a window, a calibrated object whose tracker
    sits at the origin is located one unit behind [marker_7]. *)
Lemma poll_outcome_at_origin :
  @poll scene (frames level_pose [marker_7] (-1)) (calibrated_on_marker_7 false) =
  ([WaitForFrames pipe_d; WaitForFrames pipe_t],
   set_location (V3 0 0 (-1)) (calibrated_on_marker_7 false),
   Returns (Location (V3 0 0 (-1)))).
Proof.
  destruct (@poll_outcome scene (frames level_pose [marker_7] (-1))
              (calibrated_on_marker_7 false)) as [_ T].
  specialize (T eq_refl). simpl in T.
  rewrite origin_seen_from_marker_7 in T. exact T.
Defined.

(** C3, as the claim states it, fails: nothing fails in this call, the
    window is shown and the key is q; the call ends in [SystemExit] and
    returns no location. *)
Lemma poll_quits_on_q :
  calibrated (calibrated_on_marker_7 true) = true /\
  next_color (frames level_pose [marker_7] 113) = Some [marker_7] /\
  next_pose (frames level_pose [marker_7] 113) = Some level_pose /\
  t2m (calibrated_on_marker_7 true) = Some (matmul camera_to_marker_7 base_c2c) /\
  detect_mode (calibrated_on_marker_7 true) = false /\
  result (@poll scene (frames level_pose [marker_7] 113) (calibrated_on_marker_7 true)) =
    Raises (SystemExit 0).
Proof.
  repeat (split; [reflexivity|]).
  rewrite (@poll_window_result scene (frames level_pose [marker_7] 113)
             (calibrated_on_marker_7 true) [marker_7] level_pose
             (matmul camera_to_marker_7 base_c2c)
             eq_refl eq_refl eq_refl eq_refl eq_refl).
  reflexivity.
Qed.

(** C4 on the scene: the object after one successful [calibrate]. *)
Lemma calibration_one_way_after_marker_7 :
  calibrated
    (@after_all scene [CallCalibrate false [frames level_pose [marker_7] (-1)]]
       (init false identity3 [])) = true /\
  forall future,
    calibrated (@after_all scene future (calibrated_on_marker_7 false)) = true /\
    transforms (@after_all scene future (calibrated_on_marker_7 false)) =
    transforms (calibrated_on_marker_7 false).
Proof.
  assert (Ha : @after_all scene [CallCalibrate false [frames level_pose [marker_7] (-1)]]
                 (init false identity3 []) = calibrated_on_marker_7 false).
  { simpl. change (init false identity3 []) with (fresh false).
    rewrite calibrate_on_marker_7. reflexivity. }
  assert (Hc : calibrated
                 (@after_all scene [CallCalibrate false [frames level_pose [marker_7] (-1)]]
                    (init false identity3 [])) = true)
    by (rewrite Ha; reflexivity).
  split; [exact Hc|].
  pose proof (@calibration_one_way scene false identity3 []
                [CallCalibrate false [frames level_pose [marker_7] (-1)]]) as T.
  cbv zeta in T. specialize (T Hc). destruct T as (_ & T & _).
  rewrite Ha in T. exact T.
Defined.

(** C6 on the scene: an upside-down rig in the command line mode. *)
Lemma attitude_rejection_cli_upside_down :
  next_pose (frames upside_down_pose [marker_7] (-1)) = Some upside_down_pose /\
  next_color (frames upside_down_pose [marker_7] (-1)) = Some [marker_7] /\
  rvec_to_rpy (rotation upside_down_pose) = inr (V3 180 0 0) /\
  attitude_flag (V3 180 0 0) (calibrate_thres (fresh false)) = true /\
  @calibrate_tick scene false (frames upside_down_pose [marker_7] (-1)) (fresh false) =
  ([WaitForFrames pipe_t; WaitForFrames pipe_d; Sleep;
    Print CalibrationFails; Print (RollYall 180 0)],
   fresh false, Returns tt).
Proof.
  pose proof (@attitude_rejection_cli_skips_detection scene (fresh false)
                (frames upside_down_pose [marker_7] (-1)) upside_down_pose
                [marker_7] (V3 180 0 0) eq_refl eq_refl rpy_upside_down
                (flag_upside_down false)) as T.
  cbv zeta in T. destruct T as (T & _).
  repeat (split; [first [reflexivity | exact rpy_upside_down
                        | exact (flag_upside_down false)]|]).
  exact T.
Defined.

(** C6, as the claim states it, fails in the window mode: the rig is
    upside down, the attitude gate is closed, and the pass still calls the
    marker detector on the image. *)
Lemma attitude_rejection_gui_detects :
  attitude_flag (V3 180 0 0) (calibrate_thres (fresh true)) = true /\
  @calibrate_tick scene true (frames upside_down_pose [marker_7] (-1)) (fresh true) =
  ([WaitForFrames pipe_t; WaitForFrames pipe_d; AruCoDetectMarkers;
    DrawAxis; DrawDetectedMarkers;
    PutText (RollYallRounded 180 0); PutText MarkerDetected; ImShow; WaitKey],
   fresh true, Returns tt).
Proof.
  split; [exact (flag_upside_down true)|].
  rewrite (@tick_gui scene (fresh true) (frames upside_down_pose [marker_7] (-1))
             upside_down_pose [marker_7] (V3 180 0 0)
             eq_refl eq_refl rpy_upside_down).
  cbv zeta. rewrite (flag_upside_down true).
  rewrite get_trans_mat_marker_7. reflexivity.
Qed.

(** C7 on the scene. *)
Lemma sensor_read_order_on_scene :
  next_pose (frames level_pose [marker_7] (-1)) = Some level_pose /\
  next_color (frames level_pose [marker_7] (-1)) = Some [marker_7] /\
  calibrated (calibrated_on_marker_7 false) = true /\
  exists rest,
    events (@poll scene (frames level_pose [marker_7] (-1)) (calibrated_on_marker_7 false)) =
      WaitForFrames pipe_d :: WaitForFrames pipe_t :: rest /\
    Forall (fun e => ~ is_wait e) rest.
Proof.
  pose proof (@sensor_read_order scene false (frames level_pose [marker_7] (-1))
                (fresh false) (calibrated_on_marker_7 false) level_pose [marker_7]
                eq_refl eq_refl eq_refl) as T.
  destruct T as (_ & T).
  repeat (split; [reflexivity|]). exact T.
Defined.

(** C7, as the claim states it, fails for [poll]: the first read is that
    of the camera, the second that of the tracker. *)
Lemma poll_reads_camera_first :
  events (@poll scene (frames level_pose [marker_7] (-1)) (calibrated_on_marker_7 false)) =
  [WaitForFrames pipe_d; WaitForFrames pipe_t].
Proof.
  rewrite (@poll_headless scene (frames level_pose [marker_7] (-1))
             (calibrated_on_marker_7 false) [marker_7] level_pose
             (matmul camera_to_marker_7 base_c2c)
             eq_refl eq_refl eq_refl eq_refl eq_refl).
  reflexivity.
Qed.

(** C8 on the scene: two markers in sight of a level rig. *)
Lemma two_markers_raise :
  @detectMarkers scene [marker_7; marker_9] =
    ([marker_7; marker_9], Some [7%Z; 9%Z]) /\
  next_pose (frames level_pose [marker_7; marker_9] (-1)) = Some level_pose /\
  next_color (frames level_pose [marker_7; marker_9] (-1)) = Some [marker_7; marker_9] /\
  rvec_to_rpy (rotation level_pose) = inr (V3 0 0 0) /\
  attitude_flag (V3 0 0 0) (calibrate_thres (fresh false)) = false /\
  calibrated (fresh false) = false /\
  result (@calibrate scene false [frames level_pose [marker_7; marker_9] (-1)] (fresh false)) =
    Raises ValueError.
Proof.
  pose proof (@several_markers_raise scene false [marker_7; marker_9]
                [marker_7; marker_9] 7%Z 9%Z [] (frames level_pose [marker_7; marker_9] (-1))
                level_pose (V3 0 0 0) [] (fresh false)
                eq_refl eq_refl eq_refl rpy_level (flag_level false) eq_refl) as T.
  destruct T as (_ & _ & T).
  repeat (split; [first [reflexivity | exact rpy_level | exact (flag_level false)]|]).
  exact T.
Defined.

(** C9 on the scene: a rig rolled back by a quarter turn (roll -90)
    passes the gate of threshold 1 and the detector is called. *)
Lemma attitude_gate_signed_rolled_back :
  next_pose (frames rolled_back_pose [marker_7] (-1)) = Some rolled_back_pose /\
  next_color (frames rolled_back_pose [marker_7] (-1)) = Some [marker_7] /\
  rvec_to_rpy (rotation rolled_back_pose) = inr (V3 (-90) 0 0) /\
  -90 <= calibrate_thres (fresh false) /\ 0 <= calibrate_thres (fresh false) /\
  attitude_flag (V3 (-90) 0 0) (calibrate_thres (fresh false)) = false /\
  In AruCoDetectMarkers
    (events (@calibrate_tick scene false (frames rolled_back_pose [marker_7] (-1)) (fresh false))).
Proof.
  assert (Hr : -90 <= calibrate_thres (fresh false))
    by (simpl; unfold CAM_CONFIG_calibrate_threshold; lra).
  assert (Hy : 0 <= calibrate_thres (fresh false))
    by (simpl; unfold CAM_CONFIG_calibrate_threshold; lra).
  pose proof (@attitude_gate_signed scene false (fresh false)
                (frames rolled_back_pose [marker_7] (-1)) rolled_back_pose
                [marker_7] (V3 (-90) 0 0) eq_refl eq_refl rpy_rolled_back) as T.
  destruct T as (T & _). specialize (T Hr Hy). destruct T as (Tf & Td & _).
  repeat (split; [first [reflexivity | exact rpy_rolled_back | exact Hr | exact Hy | exact Tf]|]).
  exact Td.
Defined.

End SyntheticRuns.

Section SyntheticWire.
Import Vive Synthetic.

(** C10 on the wire: a registry with one tracker, asked for by name with
    blanks around it, and asked for a name that it does not hold. *)
Lemma handle_response_on_wire :
  sent (events (@handle ascii_wire "  tracker_1  " 5%nat registry)) =
    [("valid,x,y,z,yaw,pitch,roll,vel_x,vel_y,vel_z,device_name;"%string, 5%nat)] /\
  sent (events (@handle ascii_wire "tracker_2" 5%nat registry)) = [].
Proof.
  split.
  - pose proof (@handle_response ascii_wire "  tracker_1  " 5%nat registry) as T.
    cbv zeta in T. exact T.
  - pose proof (@handle_response ascii_wire "tracker_2" 5%nat registry) as T.
    cbv zeta in T. exact T.
Defined.

End SyntheticWire.

(** * Further properties of the code *)

(** ** The range and the symmetries of [rvec_to_rpy] *)

Section AngleRanges.
Import Np Camera.









(** [math.atan2] recovers an angle of (-pi, pi] from its sine and cosine. *)
Lemma atan2_sin_cos a : - PI < a <= PI -> PyMath.atan2 (sin a) (cos a) = a.
Proof.
  intros [Hl Hu]. pose proof PI_RGT_0 as Hpi. unfold PyMath.atan2.
  destruct (Rlt_dec 0 (cos a)) as [Hc|Hc].
  { (* the right half plane *)
    assert (Ha : - (PI / 2) < a < PI / 2).
    { split.
      - destruct (Rlt_dec (- (PI / 2)) a) as [|Hn]; [assumption|exfalso].
        assert (Hc' : cos (a + 2 * PI) <= 0) by (apply cos_le_0; lra).
        rewrite cos_plus, cos_2PI, sin_2PI in Hc'. lra.
      - destruct (Rlt_dec a (PI / 2)) as [|Hn]; [assumption|exfalso].
        assert (Hc' : cos a <= 0) by (apply cos_le_0; lra). lra. }
    fold (tan a). apply atan_tan. exact Ha. }
  destruct (Rlt_dec (cos a) 0) as [Hc'|Hc'].
  - destruct (Rlt_dec (sin a) 0) as [Hs|Hs].
    + (* the third quadrant *)
      assert (Ha : - PI < a < - (PI / 2)).
      { split; [assumption|].
        destruct (Rlt_dec a (- (PI / 2))) as [|Hn]; [assumption|exfalso].
        destruct (Rlt_dec a 0) as [Hneg|Hpos].
        - assert (0 <= cos a) by (apply cos_ge_0; lra). lra.
        - assert (0 <= sin a) by (apply sin_ge_0; lra). lra. }
      replace (sin a / cos a) with (tan (a + PI)).
      * rewrite atan_tan by lra. lra.
      * unfold tan. rewrite neg_sin, neg_cos. field. lra.
    + (* the second quadrant *)
      assert (Ha : PI / 2 < a <= PI).
      { split; [|assumption].
        destruct (Rlt_dec (PI / 2) a) as [|Hn]; [assumption|exfalso].
        destruct (Rlt_dec a (- (PI / 2))) as [Hneg|Hpos].
        - assert (sin a < 0) by (apply sin_lt_0_var; lra). lra.
        - assert (0 <= cos a) by (apply cos_ge_0; lra). lra. }
      replace (sin a / cos a) with (tan (a - PI)).
      * rewrite atan_tan by lra. lra.
      * unfold tan.
        pose proof (neg_sin (a - PI)) as Hns.
        pose proof (neg_cos (a - PI)) as Hnc.
        replace (a - PI + PI) with a in Hns, Hnc by ring.
        rewrite Hns, Hnc. field. lra.
  - (* the vertical axis *)
    assert (Hz : cos a = 0) by lra.
    destruct (Rlt_dec 0 (sin a)) as [Hs|Hs].
    + destruct (Rtotal_order a (PI / 2)) as [Hlt|[Heq|Hgt]]; [exfalso| |exfalso].
      * destruct (Rlt_dec (- (PI / 2)) a).
        -- assert (0 < cos a) by (apply cos_gt_0; lra). lra.
        -- assert (sin a < 0) by (apply sin_lt_0_var; lra). lra.
      * symmetry. exact Heq.
      * assert (cos a < 0) by (apply cos_lt_0; lra). lra.
    + destruct (Rlt_dec (sin a) 0) as [Hs'|Hs'].
      * destruct (Rtotal_order a (- (PI / 2))) as [Hlt|[Heq|Hgt]]; [exfalso| |exfalso].
        -- assert (Hc2 : cos (a + 2 * PI) < 0) by (apply cos_lt_0; lra).
           rewrite cos_plus, cos_2PI, sin_2PI in Hc2. lra.
        -- symmetry. exact Heq.
        -- destruct (Rlt_dec a (PI / 2)).
           ++ assert (0 < cos a) by (apply cos_gt_0; lra). lra.
           ++ assert (0 <= sin a) by (apply sin_ge_0; lra). lra.
      * exfalso. assert (Hs0 : sin a = 0) by lra.
        pose proof (sin2_cos2 a) as H1. unfold Rsqr in H1.
        rewrite Hs0, Hz in H1. lra.
Qed.

Lemma atan2_0_nonneg x : 0 <= x -> PyMath.atan2 0 x = 0.
Proof.
  intros [Hx | <-]; [apply atan2_0_pos; exact Hx|].
  unfold PyMath.atan2. destruct (Rlt_dec 0 0); [lra|reflexivity].
Qed.

Lemma sin_double a : 2 * (cos (a / 2) * sin (a / 2)) = sin a.
Proof.
  replace (sin a) with (sin (2 * (a / 2))) by (f_equal; field).
  rewrite sin_2a. ring.
Qed.

Lemma cos_double a : cos (a / 2) * cos (a / 2) - sin (a / 2) * sin (a / 2) = cos a.
Proof.
  replace (cos a) with (cos (2 * (a / 2))) by (f_equal; field).
  rewrite cos_2a. ring.
Qed.

Lemma cos_sin_unit a : cos a * cos a + sin a * sin a = 1.
Proof. pose proof (sin2_cos2 a) as Hu. unfold Rsqr in Hu. lra. Qed.

Lemma minus_0_degrees : - 0 * 180 / PI = 0.
Proof. unfold Rdiv. ring. Qed.

(** A rotation by the angle [a] about the x axis alone, as the unit
    quaternion (sin(a/2), 0, 0, cos(a/2)), converts to roll = a (in
    degrees), pitch = 0, yaw = 0, for every [a] in (-pi, pi]. *)
Theorem rvec_to_rpy_pure_roll a :
  - PI < a <= PI ->
  rvec_to_rpy (V4 (sin (a / 2)) 0 0 (cos (a / 2))) = inr (V3 (a * 180 / PI) 0 0).
Proof.
  intros Ha. unfold rvec_to_rpy.
  replace (2 * (sin (a / 2) * 0 - cos (a / 2) * 0)) with 0 by ring.
  rewrite asin_0_value.
  replace (2 * (cos (a / 2) * sin (a / 2) + 0 * 0)) with (sin a)
    by (rewrite <- sin_double; ring).
  replace (cos (a / 2) * cos (a / 2) - sin (a / 2) * sin (a / 2) - 0 * 0 + 0 * 0)
    with (cos a) by (rewrite <- cos_double; ring).
  replace (2 * (cos (a / 2) * 0 + sin (a / 2) * 0)) with 0 by ring.
  replace (cos (a / 2) * cos (a / 2) + sin (a / 2) * sin (a / 2) - 0 * 0 - 0 * 0)
    with 1 by (rewrite <- (cos_sin_unit (a / 2)); ring).
  rewrite atan2_sin_cos by exact Ha. rewrite atan2_0_1.
  rewrite minus_0_degrees, degrees_0. reflexivity.
Qed.

(** A rotation by [a] about the z axis alone, (0, 0, sin(a/2), cos(a/2)),
    converts to yaw = a (in degrees), roll = 0, pitch = 0, for every [a]
    in (-pi, pi]. *)
Theorem rvec_to_rpy_pure_yaw a :
  - PI < a <= PI ->
  rvec_to_rpy (V4 0 0 (sin (a / 2)) (cos (a / 2))) = inr (V3 0 0 (a * 180 / PI)).
Proof.
  intros Ha. unfold rvec_to_rpy.
  replace (2 * (0 * sin (a / 2) - cos (a / 2) * 0)) with 0 by ring.
  rewrite asin_0_value.
  replace (2 * (cos (a / 2) * 0 + 0 * sin (a / 2))) with 0 by ring.
  replace (cos (a / 2) * cos (a / 2) - 0 * 0 - 0 * 0 + sin (a / 2) * sin (a / 2))
    with 1 by (rewrite <- (cos_sin_unit (a / 2)); ring).
  replace (2 * (cos (a / 2) * sin (a / 2) + 0 * 0)) with (sin a)
    by (rewrite <- sin_double; ring).
  replace (cos (a / 2) * cos (a / 2) + 0 * 0 - 0 * 0 - sin (a / 2) * sin (a / 2))
    with (cos a) by (rewrite <- cos_double; ring).
  rewrite atan2_sin_cos by exact Ha. rewrite atan2_0_1.
  rewrite minus_0_degrees, degrees_0. reflexivity.
Qed.

(** A rotation by [a] about the y axis alone, (0, sin(a/2), 0, cos(a/2)),
    converts to pitch = a (in degrees), roll = 0, yaw = 0, for every [a]
    in [-pi/2, pi/2]. *)
Theorem rvec_to_rpy_pure_pitch a :
  - (PI / 2) <= a <= PI / 2 ->
  rvec_to_rpy (V4 0 (sin (a / 2)) 0 (cos (a / 2))) = inr (V3 0 (a * 180 / PI) 0).
Proof.
  intros Ha. unfold rvec_to_rpy.
  replace (2 * (0 * 0 - cos (a / 2) * sin (a / 2))) with (- sin a)
    by (rewrite <- sin_double; ring).
  assert (Hs : -1 <= - sin a <= 1) by (pose proof (SIN_bound a); lra).
  rewrite asin_in_range by exact Hs.
  rewrite asin_opp, asin_sin by exact Ha.
  replace (2 * (cos (a / 2) * 0 + sin (a / 2) * 0)) with 0 by ring.
  replace (cos (a / 2) * cos (a / 2) - 0 * 0 - sin (a / 2) * sin (a / 2) + 0 * 0)
    with (cos a) by (rewrite <- cos_double; ring).
  replace (2 * (cos (a / 2) * 0 + 0 * sin (a / 2))) with 0 by ring.
  replace (cos (a / 2) * cos (a / 2) + 0 * 0 - sin (a / 2) * sin (a / 2) - 0 * 0)
    with (cos a) by (rewrite <- cos_double; ring).
  rewrite atan2_0_nonneg by (apply cos_ge_0; lra).
  rewrite degrees_0. do 2 f_equal. unfold Rdiv. ring.
Qed.

End AngleRanges.

(** ** FrameComposer: [cam2marker] and [cam2cam] *)

Section FrameComposer.
Import Np Camera Rigid.
Context `{Cv2}.

Lemma matmul_identity4_l a : matmul identity4 a = a.
Proof. destruct a as [[] [] [] []]. mat4_ext; ring. Qed.

Lemma matmul_identity4_r a : matmul a identity4 = a.
Proof. destruct a as [[] [] [] []]. mat4_ext; ring. Qed.

Lemma matmul_assoc a b c : matmul a (matmul b c) = matmul (matmul a b) c.
Proof.
  destruct a as [[] [] [] []], b as [[] [] [] []], c as [[] [] [] []].
  mat4_ext; ring.
Qed.

(** A matrix has at most one inverse. *)
Lemma inverse_unique a b b' :
  matmul a b = identity4 -> matmul b' a = identity4 -> b = b'.
Proof.
  intros Hab Hba.
  rewrite <- (matmul_identity4_l b), <- Hba, <- matmul_assoc, Hab.
  apply matmul_identity4_r.
Qed.

Lemma matvec_matmul a b v : matvec (matmul a b) v = matvec a (matvec b v).
Proof.
  destruct a as [[] [] [] []], b as [[] [] [] []], v as [].
  unfold matvec, matmul, dot4, col. simpl. f_equal; ring.
Qed.

Lemma matvec_identity4 v : matvec identity4 v = v.
Proof. destruct v. unfold matvec, identity4, dot4. simpl. f_equal; ring. Qed.

Lemma det4_homogeneous r t : det4 (homogeneous r t) = det3 r.
Proof.
  destruct r as [[] [] []], t as [].
  unfold homogeneous, det4, det3, set_col3, set_block33, identity4. simpl. ring.
Qed.

(** The homogeneous matrix carries the origin to the translation. *)
Lemma homogeneous_origin r t : matvec (homogeneous r t) (V4 0 0 0 1) = point t.
Proof.
  destruct r as [[] [] []], t as [].
  unfold homogeneous, point, matvec, dot4, set_col3, set_block33, identity4.
  simpl. f_equal; ring.
Qed.

(** [cam2marker] is [linalg_inv] of the homogeneous matrix. *)
Lemma cam2marker_one r t :
  cam2marker [r] [t] = linalg_inv (homogeneous (Rodrigues r) t).
Proof. reflexivity. Qed.

(** For one marker, [cam2marker] raises exactly when the matrix that
    [cv2.Rodrigues] returns is singular, whatever the translation; the
    only exception is then [LinAlgError]. *)
Theorem cam2marker_raises r t :
  (cam2marker [r] [t] = inl LinAlgError <-> det3 (Rodrigues r) = 0) /\
  ((exists m, cam2marker [r] [t] = inr m) <-> det3 (Rodrigues r) <> 0).
Proof.
  rewrite cam2marker_one. unfold linalg_inv. rewrite det4_homogeneous.
  destruct (Req_dec_T (det3 (Rodrigues r)) 0) as [Hd|Hd]; split; split;
    try (intros; reflexivity); try (intros; assumption);
    try (intros; discriminate); try (intros; contradiction).
  - intros [m Hm]. discriminate.
  - intros _. eexists. reflexivity.
Qed.

(** The transform that [cam2marker] returns carries the position of the
    marker, as the camera sees it, to the origin, and the origin back to
    that position under the matrix it inverted; its last row is
    [0, 0, 0, 1]. *)
Theorem cam2marker_marker_at_origin r t m :
  cam2marker [r] [t] = inr m ->
  matvec m (point t) = V4 0 0 0 1 /\
  matvec (homogeneous (Rodrigues r) t) (matvec m (point t)) = point t /\
  w3 m = V4 0 0 0 1.
Proof.
  rewrite cam2marker_one. intros Hm.
  destruct (linalg_inv_sound _ _ Hm) as [Hr Hl].
  assert (Ho : matvec m (point t) = V4 0 0 0 1).
  { rewrite <- (homogeneous_origin (Rodrigues r) t), <- matvec_matmul, Hl.
    apply matvec_identity4. }
  split; [exact Ho|]. split.
  - rewrite Ho. apply homogeneous_origin.
  - unfold linalg_inv in Hm. rewrite det4_homogeneous in Hm.
    destruct (Req_dec_T (det3 (Rodrigues r)) 0) as [|Hd]; [discriminate|].
    injection Hm as <-. revert Hd.
    destruct (Rodrigues r) as [[] [] []], t as []. intros Hd.
    unfold homogeneous, scale4, adjugate4, set_col3, set_block33, identity4, det3 in *.
    simpl in *. f_equal; field; exact Hd.
Qed.

Lemma det3_orthogonal r : orthogonal r -> det3 r * det3 r = 1.
Proof.
  unfold orthogonal. destruct r as [[a b c] [d e f] [g h i]].
  unfold matmul3, transpose3, dot3, identity3, det3. simpl.
  intros Ho. injection Ho as H00 H01 H02 H10 H11 H12 H20 H21 H22.
  transitivity
    ((a * a + b * b + c * c) *
       ((d * d + e * e + f * f) * (g * g + h * h + i * i)
        - (d * g + e * h + f * i) * (g * d + h * e + i * f))
     - (a * d + b * e + c * f) *
       ((d * a + e * b + f * c) * (g * g + h * h + i * i)
        - (d * g + e * h + f * i) * (g * a + h * b + i * c))
     + (a * g + b * h + c * i) *
       ((d * a + e * b + f * c) * (g * d + h * e + i * f)
        - (d * d + e * e + f * f) * (g * a + h * b + i * c))); [ring|].
  rewrite H00, H01, H02, H10, H11, H12, H20, H21, H22. ring.
Qed.

(** The inverse of a rigid transform, in closed form. *)
Lemma homogeneous_inverse r t :
  orthogonal r ->
  matmul (homogeneous r t)
    (homogeneous (transpose3 r) (opp3 (matvec3 (transpose3 r) t))) = identity4.
Proof.
  unfold orthogonal. destruct r as [[a b c] [d e f] [g h i]], t as [tx ty tz].
  unfold matmul3, transpose3, dot3, identity3. simpl.
  intros Ho. injection Ho as H00 H01 H02 H10 H11 H12 H20 H21 H22.
  unfold homogeneous, opp3, matvec3, transpose3, dot3, matmul, dot4, col,
    set_col3, set_block33, identity4. simpl.
  f_equal; f_equal; try ring.
  - lra.
  - lra.
  - lra.
  - transitivity (tx - ((a * a + b * b + c * c) * tx + (a * d + b * e + c * f) * ty
                        + (a * g + b * h + c * i) * tz)); [ring|].
    rewrite H00, H01, H02. ring.
  - lra.
  - lra.
  - lra.
  - transitivity (ty - ((d * a + e * b + f * c) * tx + (d * d + e * e + f * f) * ty
                        + (d * g + e * h + f * i) * tz)); [ring|].
    rewrite H10, H11, H12. ring.
  - lra.
  - lra.
  - lra.
  - transitivity (tz - ((g * a + h * b + i * c) * tx + (g * d + h * e + i * f) * ty
                        + (g * g + h * h + i * i) * tz)); [ring|].
    rewrite H20, H21, H22. ring.
Qed.

(** When [cv2.Rodrigues] returns an orthogonal matrix r, as it does for a
    rotation, [cam2marker] never raises and returns the rigid transform
    with rotation r^T and translation - r^T t. *)
Theorem cam2marker_rigid r t :
  orthogonal (Rodrigues r) ->
  cam2marker [r] [t] =
  inr (homogeneous (transpose3 (Rodrigues r))
         (opp3 (matvec3 (transpose3 (Rodrigues r)) t))).
Proof.
  intros Ho. rewrite cam2marker_one.
  assert (Hd : det4 (homogeneous (Rodrigues r) t) <> 0).
  { rewrite det4_homogeneous. pose proof (det3_orthogonal _ Ho) as Hq.
    intros Hz. rewrite Hz in Hq. lra. }
  pose proof (linalg_inv_regular _ Hd) as Hi. rewrite Hi. f_equal.
  destruct (linalg_inv_sound _ _ Hi) as [_ Hl].
  symmetry. eapply inverse_unique; [|exact Hl].
  apply homogeneous_inverse. exact Ho.
Qed.

End FrameComposer.

(** ** More on [poll] *)

Section PollEffects.
Import Np Camera Rigid.
Context `{Cv2}.

(** Once both reads have succeeded and [t2m] is there, [self.location] is
    overwritten, however the call goes on. *)
Lemma poll_location_written i s img p a :
  calibrated s = true -> next_color i = Some img -> next_pose i = Some p ->
  t2m s = Some a ->
  location (object (poll i s)) = take3 (matvec a (fst (pose_frame_data p))).
Proof.
  intros Hs Hc Hp Ht.
  destruct (show_gui s) eqn:Hg;
    [|rewrite (poll_headless i s img p a) by assumption; reflexivity].
  rewrite (poll_window i s img p a Hs Hc Hp Ht Hg). cbv zeta.
  rewrite poll_gui_run.
  set (v := take3 _). set (s1 := set_location v s).
  destruct (detect_mode s1);
    [destruct (result (get_trans_mat img s1)) as [r|e|]|]; simpl;
    try destruct (is_Exception e);
    try destruct ((Z.land (key i) 255 =? 113) || (key i =? 27))%Z;
    try destruct (Z.land (key i) 255 =? 100)%Z;
    reflexivity.
Qed.

Lemma poll_location_source i s w :
  result (poll i s) = Returns (Location w) ->
  calibrated s = true /\
  location (object (poll i s)) = w /\
  exists p a,
    next_pose i = Some p /\ t2m s = Some a /\
    w = take3 (matvec a (point (translation p))).
Proof.
  intros Hr.
  destruct (calibrated s) eqn:Hs;
    [|rewrite poll_uncalibrated in Hr by exact Hs; discriminate].
  destruct (next_color i) as [img|] eqn:Hc;
    [|rewrite poll_no_color in Hr by assumption; discriminate].
  destruct (next_pose i) as [p|] eqn:Hp;
    [|rewrite (poll_no_pose i s img) in Hr by assumption; discriminate].
  destruct (t2m s) as [a|] eqn:Ht;
    [|rewrite (poll_no_transform i s img p) in Hr by assumption; discriminate].
  pose proof (poll_location_written i s img p a Hs Hc Hp Ht) as Hl.
  assert (Hw : w = take3 (matvec a (fst (pose_frame_data p)))).
  { destruct (show_gui s) eqn:Hg.
    - rewrite (poll_window_result i s img p a Hs Hc Hp Ht Hg) in Hr. cbv zeta in Hr.
      destruct (if detect_mode s then result (get_trans_mat img s) else Returns None)
        as [r|e|]; try discriminate.
      destruct ((Z.land (key i) 255 =? 113) || (key i =? 27))%Z; try discriminate.
      injection Hr as <-. reflexivity.
    - rewrite (poll_headless i s img p a Hs Hc Hp Ht Hg) in Hr.
      unfold result in Hr. simpl in Hr. injection Hr as <-. reflexivity. }
  split; [reflexivity|]. split; [congruence|].
  exists p, a. repeat split. exact Hw.
Qed.

(** Whenever [poll] returns a location, the object is calibrated, both
    reads succeeded, the location is (t2m @ [x, y, z, 1])[:3] for the
    translation (x, y, z) of the pose read, and [self.location] holds that
    same vector afterwards. *)
Theorem poll_returns_stored_location i s w :
  result (poll i s) = Returns (Location w) ->
  calibrated s = true /\
  location (object (poll i s)) = w /\
  exists p a,
    next_pose i = Some p /\ t2m s = Some a /\
    w = take3 (matvec a (point (translation p))).
Proof. apply poll_location_source. Qed.

(** When the second look for the marker raises (window shown, detect mode
    on), [poll] logs the exception and returns [np.nan], but
    [self.location] has already been overwritten with the new position. *)
Theorem poll_nan_after_location_update i s img p a e :
  calibrated s = true -> next_color i = Some img -> next_pose i = Some p ->
  t2m s = Some a -> show_gui s = true -> detect_mode s = true ->
  result (get_trans_mat img s) = Raises e ->
  result (poll i s) = Returns NaN /\
  location (object (poll i s)) = take3 (matvec a (point (translation p))) /\
  In (LoggerError (Error e)) (events (poll i s)).
Proof.
  intros Hs Hc Hp Ht Hg Hd He.
  split; [|split].
  - rewrite (poll_window_result i s img p a Hs Hc Hp Ht Hg). cbv zeta.
    rewrite Hd, He. reflexivity.
  - apply (poll_location_written i s img p a); assumption.
  - rewrite (poll_window i s img p a Hs Hc Hp Ht Hg). cbv zeta.
    rewrite poll_gui_run.
    set (s1 := set_location _ s).
    replace (detect_mode s1) with true by (symmetry; exact Hd).
    rewrite (get_trans_mat_result img s1 s), He.
    rewrite (get_trans_mat_raises img s e He).
    unfold events. simpl. right. right. apply in_or_app. right. simpl. auto.
Qed.


End PollEffects.

(** ** The calibration loop as a whole *)

Section CalibrationLoop.
Import Np Camera Rigid Frame.
Context `{Cv2}.

Lemma load_matrices_cases m rv tv s :
  (exists e,
     object (load_matrices m rv tv s) = set_d2m m s /\
     result (load_matrices m rv tv s) = Raises e) \/
  (exists c,
     cam2cam (use_default_cam2cam s) rv tv = inr c /\
     object (load_matrices m rv tv s) =
       set_calibrated true (set_t2m (matmul m c) (set_t2d c (set_d2m m s))) /\
     result (load_matrices m rv tv s) = Returns tt).
Proof.
  unfold load_matrices, object, result. run_monad.
  destruct (cam2cam _ rv tv) as [e|c]; simpl; eauto.
Qed.

(** A pass either leaves the object as it is and does not block, or ends
    as [load_matrices] does. *)
Lemma tick_cases show_img i s :
  (object (calibrate_tick show_img i s) = s /\
   result (calibrate_tick show_img i s) <> Blocks) \/
  exists m rv tv,
    object (calibrate_tick show_img i s) = object (load_matrices m rv tv s) /\
    result (calibrate_tick show_img i s) = result (load_matrices m rv tv s).
Proof.
  destruct (next_pose i) as [p|] eqn:Hp.
  2:{ left. unfold calibrate_tick, wait_for_frames, object, result. run_monad.
      rewrite Hp. split; [reflexivity|discriminate]. }
  destruct (next_color i) as [img|] eqn:Hc.
  2:{ left. unfold calibrate_tick, wait_for_frames, object, result. run_monad.
      rewrite Hp, Hc. split; [reflexivity|discriminate]. }
  destruct (rvec_to_rpy (rotation p)) as [e|rpy] eqn:Hr.
  { left. unfold calibrate_tick, wait_for_frames, object, result. run_monad.
    rewrite Hp, Hc. simpl. rewrite Hr. split; [reflexivity|discriminate]. }
  pose proof (get_trans_mat_object img s) as Ho.
  pose proof (get_trans_mat_blocks img s) as Hb.
  destruct (attitude_flag rpy (calibrate_thres s)) eqn:Hf.
  { left. destruct show_img.
    - rewrite (tick_gui s i p img rpy Hp Hc Hr), Hf. cbv zeta.
      destruct (get_trans_mat img s) as [[t s1] o].
      unfold object, result in *. simpl in *. subst s1.
      destruct o as [[[[m tv] rv]|]|e|]; simpl; split;
        try reflexivity; try discriminate.
      exfalso. apply Hb. reflexivity.
    - rewrite (tick_cli_rejected s i p img rpy Hp Hc Hr Hf).
      split; [reflexivity|discriminate]. }
  destruct (result (get_trans_mat img s)) as [[[[m tv] rv]|]|e|] eqn:Hg.
  - right. exists m, (snd (pose_frame_data p)), (fst (pose_frame_data p)).
    apply (tick_both_gates_open show_img s i p img rpy m tv rv); assumption.
  - left. destruct show_img.
    + rewrite (tick_gui s i p img rpy Hp Hc Hr). cbv zeta.
      destruct (get_trans_mat img s) as [[t s1] o].
      unfold object, result in *. simpl in *. subst.
      split; [reflexivity|discriminate].
    + rewrite (tick_cli_passed s i p img rpy Hp Hc Hr Hf).
      destruct (get_trans_mat img s) as [[t s1] o].
      unfold object, result in *. simpl in *. subst.
      split; [reflexivity|discriminate].
  - left. destruct show_img.
    + rewrite (tick_gui s i p img rpy Hp Hc Hr). cbv zeta.
      destruct (get_trans_mat img s) as [[t s1] o].
      unfold object, result in *. simpl in *. subst.
      split; [reflexivity|discriminate].
    + rewrite (tick_cli_passed s i p img rpy Hp Hc Hr Hf).
      destruct (get_trans_mat img s) as [[t s1] o].
      unfold object, result in *. simpl in *. subst.
      split; [reflexivity|discriminate].
  - contradiction.
Qed.

(** A pass on an uncalibrated object never blocks, and it ends with a
    calibrated object only by returning. *)
Lemma tick_ends show_img i s :
  calibrated s = false ->
  result (calibrate_tick show_img i s) <> Blocks /\
  (calibrated (object (calibrate_tick show_img i s)) = true ->
   result (calibrate_tick show_img i s) = Returns tt) /\
  (forall e, result (calibrate_tick show_img i s) = Raises e ->
             calibrated (object (calibrate_tick show_img i s)) = false).
Proof.
  intros Hs.
  destruct (tick_cases show_img i s) as [[Ho Hb] | (m & rv & tv & Ho & Hr)].
  - rewrite Ho. split; [exact Hb|]. split; [congruence|]. intros; exact Hs.
  - rewrite Ho, Hr.
    destruct (load_matrices_cases m rv tv s) as [(e & Ho' & Hr') | (c & _ & Ho' & Hr')];
      rewrite Ho', Hr'.
    + split; [discriminate|]. split; [simpl; congruence|]. intros; exact Hs.
    + split; [discriminate|]. split; [reflexivity|]. intros; discriminate.
Qed.

Lemma calibrate_loop_ends show_img fs :
  forall s,
    result (calibrate_loop show_img fs s) = Returns tt <->
    calibrated (object (calibrate_loop show_img fs s)) = true.
Proof.
  induction fs as [|i rest IH]; intros s.
  - simpl. destruct (calibrated s) eqn:Hs; unfold result, object; simpl.
    + tauto.
    + rewrite Hs. split; intros; discriminate.
  - destruct (calibrated s) eqn:Hs.
    + rewrite calibrate_loop_done by exact Hs. unfold result, object. simpl. tauto.
    + rewrite calibrate_loop_step by exact Hs. unfold bind.
      destruct (tick_ends show_img i s Hs) as (Hb & Hc & He).
      destruct (calibrate_tick show_img i s) as [[t1 s1] [[]|e|]];
        unfold result, object in *; simpl in *.
      * specialize (IH s1).
        destruct (calibrate_loop show_img rest s1) as [[t2 s2] o2]. exact IH.
      * rewrite (He e eq_refl). split; intros; discriminate.
      * contradiction.
Qed.

Lemma calibrate_returns_calibrated show_img fs s :
  result (calibrate show_img fs s) = Returns tt ->
  calibrated (object (calibrate show_img fs s)) = true.
Proof.
  unfold calibrate, bind, emit.
  pose proof (calibrate_loop_ends show_img fs s) as Hl.
  destruct (calibrate_loop show_img fs s) as [[t s1] o]. apply Hl.
Qed.

(** [calibrate] returns exactly when it leaves the object calibrated:
    when it ends in an exception, or has used up the frames, the object is
    still uncalibrated. *)
Theorem calibrate_returns_iff_calibrated show_img fs s :
  result (calibrate show_img fs s) = Returns tt <->
  calibrated (object (calibrate show_img fs s)) = true.
Proof.
  unfold calibrate, bind, emit.
  pose proof (calibrate_loop_ends show_img fs s) as Hl.
  destruct (calibrate_loop show_img fs s) as [[t s1] o]. exact Hl.
Qed.



End CalibrationLoop.

(** ** What stays fixed, and how the transforms fit together *)

Section FixedFrame.
Import Np Camera Rigid Frame.
Context `{Cv2}.

Lemma tick_config show_img i s :
  config (object (calibrate_tick show_img i s)) = config s /\
  location (object (calibrate_tick show_img i s)) = location s /\
  detect_mode (object (calibrate_tick show_img i s)) = detect_mode s.
Proof.
  destruct (tick_cases show_img i s) as [[-> _] | (m & rv & tv & -> & _)]; [auto|].
  destruct (load_matrices_cases m rv tv s) as [(e & -> & _) | (c & _ & -> & _)];
    auto.
Qed.

Lemma calibrate_loop_config show_img fs :
  forall s,
    config (object (calibrate_loop show_img fs s)) = config s /\
    location (object (calibrate_loop show_img fs s)) = location s /\
    detect_mode (object (calibrate_loop show_img fs s)) = detect_mode s.
Proof.
  induction fs as [|i rest IH]; intros s.
  - simpl. destruct (calibrated s); auto.
  - destruct (calibrated s) eqn:Hs.
    + rewrite calibrate_loop_done by exact Hs. auto.
    + rewrite calibrate_loop_step by exact Hs. unfold bind.
      pose proof (tick_config show_img i s) as (Hc & Hl & Hd).
      destruct (calibrate_tick show_img i s) as [[t1 s1] [[]|e|]];
        unfold object in *; simpl in *; auto.
      specialize (IH s1).
      destruct (calibrate_loop show_img rest s1) as [[t2 s2] o2]. simpl in *.
      destruct IH as (Hc' & Hl' & Hd'). rewrite Hc', Hl', Hd'. auto.
Qed.

Lemma calibrate_config show_img fs s :
  config (object (calibrate show_img fs s)) = config s /\
  location (object (calibrate show_img fs s)) = location s /\
  detect_mode (object (calibrate show_img fs s)) = detect_mode s.
Proof.
  unfold calibrate, bind, emit.
  pose proof (calibrate_loop_config show_img fs s) as Hl.
  destruct (calibrate_loop show_img fs s) as [[t s1] o]. exact Hl.
Qed.

(** [calibrate] writes [d2m], [t2d], [t2m] and [calibrated] only: the
    configuration of the rig, [location] and [detect_mode] are after the
    call what they were before it, however it ends. *)
Theorem calibrate_writes_transforms_only show_img fs s :
  config (object (calibrate show_img fs s)) = config s /\
  location (object (calibrate show_img fs s)) = location s /\
  detect_mode (object (calibrate show_img fs s)) = detect_mode s.
Proof. apply calibrate_config. Qed.

Lemma poll_config i s : config (object (poll i s)) = config s.
Proof.
  destruct (calibrated s) eqn:Hs;
    [|rewrite poll_uncalibrated by exact Hs; auto].
  destruct (next_color i) as [img|] eqn:Hc;
    [|rewrite poll_no_color by assumption; auto].
  destruct (next_pose i) as [p|] eqn:Hp;
    [|rewrite (poll_no_pose i s img) by assumption; auto].
  destruct (t2m s) as [a|] eqn:Ht;
    [|rewrite (poll_no_transform i s img p) by assumption; auto].
  destruct (show_gui s) eqn:Hg;
    [|rewrite (poll_headless i s img p a) by assumption; reflexivity].
  rewrite (poll_window i s img p a Hs Hc Hp Ht Hg). cbv zeta.
  rewrite poll_gui_run.
  set (s1 := set_location _ s).
  destruct (detect_mode s1);
    [destruct (result (get_trans_mat img s1)) as [r|e|]|]; simpl;
    try destruct (is_Exception e);
    try destruct ((Z.land (key i) 255 =? 113) || (key i =? 27))%Z;
    try destruct (Z.land (key i) 255 =? 100)%Z;
    reflexivity.
Qed.

Lemma after_config c s : config (after c s) = config s.
Proof.
  destruct c as [show_img fs|i| | | | |img]; simpl; try reflexivity.
  - apply calibrate_config.
  - apply poll_config.
  - rewrite get_trans_mat_object. reflexivity.
Qed.

(** No sequence of calls changes the configuration of the rig: the window
    flag, the intrinsics, the rig-transform flag and the threshold are
    those of the construction. *)
Theorem config_immutable cs s : config (after_all cs s) = config s.
Proof.
  revert s. induction cs as [|c cs IH]; intros s; [reflexivity|].
  simpl. rewrite IH. apply after_config.
Qed.

Lemma tick_default_rig show_img i s :
  calibrated s = false -> use_default_cam2cam s = true ->
  default_rig (object (calibrate_tick show_img i s)).
Proof.
  intros Hs Hu.
  destruct (tick_cases show_img i s) as [[-> _] | (m & rv & tv & -> & _)].
  - split; [exact Hu|]. intros Hc. congruence.
  - destruct (load_matrices_cases m rv tv s) as [(e & -> & _) | (c & Hc & -> & _)].
    + split; [exact Hu|]. simpl. intros Hc. congruence.
    + split; [exact Hu|]. intros _. simpl.
      rewrite Hu in Hc. simpl in Hc. injection Hc as <-. eauto.
Qed.

Lemma calibrate_loop_default_rig show_img fs :
  forall s, default_rig s -> default_rig (object (calibrate_loop show_img fs s)).
Proof.
  induction fs as [|i rest IH]; intros s Hs.
  - simpl. destruct (calibrated s); exact Hs.
  - destruct (calibrated s) eqn:Hc.
    + rewrite calibrate_loop_done by exact Hc. exact Hs.
    + rewrite calibrate_loop_step by exact Hc. unfold bind.
      pose proof (tick_default_rig show_img i s Hc (proj1 Hs)) as Ht.
      destruct (calibrate_tick show_img i s) as [[t1 s1] [[]|e|]];
        unfold object in Ht; simpl in Ht; try exact Ht.
      specialize (IH s1 Ht).
      destruct (calibrate_loop show_img rest s1) as [[t2 s2] o2]. exact IH.
Qed.

Lemma after_default_rig c s : default_rig s -> default_rig (after c s).
Proof.
  intros Hs. destruct c as [show_img fs|i| | | | |img]; simpl; try exact Hs.
  - unfold calibrate, bind, emit. simpl.
    pose proof (calibrate_loop_default_rig show_img fs s Hs) as Hl.
    destruct (calibrate_loop show_img fs s) as [[t s1] o]. exact Hl.
  - destruct (poll_keeps i s) as [Hc Ht]. pose proof (poll_config i s) as Hg.
    unfold default_rig, config, transforms in *.
    rewrite Hc. injection Ht as -> -> ->. injection Hg as _ _ _ _ -> _.
    exact Hs.
  - rewrite get_trans_mat_object. exact Hs.
Qed.

Lemma after_all_default_rig cs : forall s, default_rig s -> default_rig (after_all cs s).
Proof.
  induction cs as [|c cs IH]; intros s Hs; [exact Hs|].
  simpl. apply IH, after_default_rig, Hs.
Qed.

Lemma base_c2c_involution : matmul base_c2c base_c2c = identity4.
Proof. unfold base_c2c. mat4_ext; ring. Qed.

Lemma base_c2c_point v :
  matvec base_c2c (point v) = V4 (c0 v) (- c1 v) (- c2 v) 1.
Proof. unfold base_c2c, point, matvec, dot4. simpl. f_equal; ring. Qed.

(** In every calibrated object that the methods can produce from a fresh
    one, the three transforms fit together: t2d is diag(1, -1, -1, 1),
    t2m = d2m @ t2d, and d2m = t2m @ t2d. *)
Theorem transforms_consistent GUI mtx dist (history : list call) :
  let s := after_all history (init GUI mtx dist) in
  calibrated s = true ->
  exists m,
    d2m s = Some m /\ t2d s = Some base_c2c /\
    t2m s = Some (matmul m base_c2c) /\
    matmul (matmul m base_c2c) base_c2c = m.
Proof.
  intros s Hs.
  assert (Hd : default_rig s).
  { apply after_all_default_rig. split; [reflexivity|]. intros Hc. discriminate. }
  destruct (proj2 Hd Hs) as (m & Hm & Hc & Ht).
  exists m. repeat split; try assumption.
  rewrite <- matmul_assoc, base_c2c_involution. apply matmul_identity4_r.
Qed.

(** For such an object, whatever [poll] returns as a location is d2m
    applied to the tracker translation with y and z negated:
    (d2m @ [x, -y, -z, 1])[:3]. *)
Theorem poll_world_location GUI mtx dist (history : list call) i w :
  let s := after_all history (init GUI mtx dist) in
  result (poll i s) = Returns (Location w) ->
  exists m p,
    d2m s = Some m /\ next_pose i = Some p /\
    w = take3 (matvec m (V4 (c0 (translation p)) (- c1 (translation p))
                            (- c2 (translation p)) 1)).
Proof.
  intros s Hr.
  destruct (poll_location_source i s w Hr) as (Hs & _ & p & a & Hp & Ht & Hw).
  assert (Hd : default_rig s).
  { apply after_all_default_rig. split; [reflexivity|]. intros Hc. discriminate. }
  destruct (proj2 Hd Hs) as (m & Hm & _ & Ht').
  exists m, p. repeat split; try assumption.
  rewrite Ht' in Ht. injection Ht as <-.
  rewrite Hw, matvec_matmul, base_c2c_point. reflexivity.
Qed.

End FixedFrame.

(** ** The experimental rig transform, and what the marker look-up needs *)

Section ExperimentalRig.
Import Np Camera Rigid.
Context `{Cv2}.

(** The matrix that [cam2cam] inverts when [use_default_cam2cam] is off:
    the Rodrigues matrix of the vector part of the quaternion in the upper
    left block, the homogeneous translation in the last row. *)
Lemma cam2cam_other q tt :
  cam2cam false q tt =
  match linalg_inv (set_row3 (set_block33 zeros4 (Rodrigues (take3 q))) tt) with
  | inl e => inl e
  | inr a => inr (matmul a base_c2c)
  end.
Proof. reflexivity. Qed.

Lemma det4_row_form r t : det4 (set_row3 (set_block33 zeros4 r) (point t)) = det3 r.
Proof.
  destruct r as [[] [] []], t as [].
  unfold det4, det3, set_row3, set_block33, zeros4, point. simpl. ring.
Qed.

Lemma row_form_origin r t :
  matvec (set_row3 (set_block33 zeros4 r) (point t)) (V4 0 0 0 1) = V4 0 0 0 1.
Proof.
  destruct r as [[] [] []], t as [].
  unfold matvec, dot4, set_row3, set_block33, zeros4, point. simpl. f_equal; ring.
Qed.

Lemma base_c2c_origin : matvec base_c2c (V4 0 0 0 1) = V4 0 0 0 1.
Proof. unfold base_c2c, matvec, dot4. simpl. f_equal; ring. Qed.

(** With [use_default_cam2cam] off, [cam2cam] on the data of a pose raises
    exactly when the Rodrigues matrix of (x, y, z) of the quaternion is
    singular.  When it returns m, the matrix it inverted times m is
    diag(1, -1, -1, 1), and m leaves the origin where it is: the tracker
    translation, written into the last row, does not move points. *)
Theorem cam2cam_experimental p :
  let t_tvec := fst (pose_frame_data p) in
  let t_rvec := snd (pose_frame_data p) in
  let built := set_row3 (set_block33 zeros4 (Rodrigues (take3 t_rvec))) t_tvec in
  (cam2cam false t_rvec t_tvec = inl LinAlgError <->
   det3 (Rodrigues (take3 t_rvec)) = 0) /\
  (forall m,
     cam2cam false t_rvec t_tvec = inr m ->
     matmul built m = base_c2c /\ matvec m (V4 0 0 0 1) = V4 0 0 0 1).
Proof.
  cbv zeta. rewrite cam2cam_other.
  change (fst (pose_frame_data p)) with (point (translation p)).
  set (r := Rodrigues (take3 (snd (pose_frame_data p)))).
  set (built := set_row3 (set_block33 zeros4 r) (point (translation p))).
  split.
  - assert (Hdet : det4 built = det3 r) by apply det4_row_form.
    unfold linalg_inv. rewrite Hdet.
    destruct (Req_dec_T (det3 r) 0) as [Hd|Hd]; split; intros; auto;
      try discriminate; contradiction.
  - intros m Hm.
    destruct (linalg_inv built) as [e|a] eqn:Ha; [discriminate|].
    injection Hm as <-.
    destruct (linalg_inv_sound _ _ Ha) as [Hr Hl]. split.
    + rewrite matmul_assoc, Hr. apply matmul_identity4_l.
    + rewrite matvec_matmul, base_c2c_origin.
      rewrite <- (row_form_origin r (translation p)) at 1. fold built.
      rewrite <- matvec_matmul, Hl. apply matvec_identity4.
Qed.

(** [get_trans_mat] returns a transform exactly when the detector reports
    one marker, the id of that marker is not 0, the pose estimate is one
    rotation vector and one translation vector, and the Rodrigues matrix
    is regular. *)
Theorem get_trans_mat_finds_iff img s :
  (exists m tvec rvec,
     result (get_trans_mat img s) = Returns (Some (m, tvec, rvec))) <->
  (exists cs i r t,
     detectMarkers img = (cs, Some [i]) /\ i <> 0%Z /\
     estimatePoseSingleMarkers cs = ([r], [t]) /\
     det3 (Rodrigues r) <> 0).
Proof.
  split.
  - intros (m & tvec & rvec & Hr).
    destruct (get_trans_mat_returns img s m tvec rvec Hr) as (r & t & -> & -> & Hi).
    revert Hr. unfold get_trans_mat, result. run_monad.
    destruct (detectMarkers img) as [cs ids]. simpl.
    destruct ids as [[|i [|i2 ids]]|]; simpl; try discriminate.
    destruct (Z.eqb_spec i 0) as [|Hi0]; simpl; [discriminate|].
    destruct (estimatePoseSingleMarkers cs) as [rv tv] eqn:He.
    destruct (cam2marker rv tv) as [e|m'] eqn:Hc; simpl; [discriminate|].
    intros Hr.
    assert (Hm : Some (m', tv, rv) = Some (m, [t], [r]))
      by (destruct (show_gui s); simpl in Hr; congruence).
    injection Hm as -> -> ->.
    exists cs, i, r, t. repeat split; try assumption.
    intros Hz. unfold linalg_inv in Hi. fold (homogeneous (Rodrigues r) t) in Hi.
    rewrite det4_homogeneous in Hi.
    destruct (Req_dec_T (det3 (Rodrigues r)) 0); [discriminate|contradiction].
  - intros (cs & i & r & t & Hd & Hi & He & Hz).
    assert (Hdet : det4 (homogeneous (Rodrigues r) t) <> 0)
      by (rewrite det4_homogeneous; exact Hz).
    pose proof (linalg_inv_regular _ Hdet) as Hinv.
    rewrite (get_trans_mat_one_marker img cs i r t _ s Hd Hi He Hinv).
    eexists _, _, _. reflexivity.
Qed.

End ExperimentalRig.

(** ** The tracker server: names and blanks *)

Section Names.
Import Vive.
Local Open Scope string_scope.




Lemma append_cons c s t : String c s ++ t = String c (s ++ t).
Proof. reflexivity. Qed.

Lemma list_ascii_of_string_app a b :
  list_ascii_of_string (a ++ b) = (list_ascii_of_string a ++ list_ascii_of_string b)%list.
Proof.
  induction a as [|x a IH]; [reflexivity|].
  rewrite append_cons. simpl. f_equal. exact IH.
Qed.

Lemma string_of_list_ascii_app x y :
  string_of_list_ascii (x ++ y)%list = string_of_list_ascii x ++ string_of_list_ascii y.
Proof.
  induction x as [|c x IH]; [reflexivity|].
  simpl. rewrite append_cons. f_equal. exact IH.
Qed.

Lemma reverse_app a b : reverse (a ++ b) = reverse b ++ reverse a.
Proof.
  unfold reverse.
  rewrite list_ascii_of_string_app, rev_app_distr, string_of_list_ascii_app.
  reflexivity.
Qed.

Lemma reverse_involutive s : reverse (reverse s) = s.
Proof.
  unfold reverse.
  rewrite list_ascii_of_string_of_list_ascii, rev_involutive.
  apply string_of_list_ascii_of_string.
Qed.

Lemma reverse_cons c s : reverse (String c s) = reverse s ++ String c "".
Proof. apply (reverse_app (String c "") s). Qed.

Lemma blank_app a b : blank (a ++ b) = blank a && blank b.
Proof.
  induction a as [|c a IH]; [reflexivity|].
  rewrite append_cons. simpl. rewrite IH. apply andb_assoc.
Qed.

Lemma blank_reverse s : blank (reverse s) = blank s.
Proof.
  induction s as [|c s IH]; [reflexivity|].
  rewrite reverse_cons, blank_app, IH. simpl.
  rewrite andb_true_r. apply andb_comm.
Qed.

Lemma lstrip_blank s : blank s = true -> lstrip s = "".
Proof.
  induction s as [|c s IH]; simpl; [reflexivity|].
  intros Hb. apply andb_true_iff in Hb as [Hc Hs]. rewrite Hc. apply IH, Hs.
Qed.

Lemma lstrip_app_blank pre s : blank pre = true -> lstrip (pre ++ s) = lstrip s.
Proof.
  induction pre as [|c pre IH]; [reflexivity|].
  rewrite append_cons. simpl.
  intros Hb. apply andb_true_iff in Hb as [Hc Hp]. rewrite Hc. apply IH, Hp.
Qed.

Lemma lstrip_starts_clean s : starts_clean (lstrip s).
Proof.
  induction s as [|c s IH]; simpl; [exact I|].
  destruct (is_whitespace c) eqn:Hc; [exact IH|exact Hc].
Qed.

(** [lstrip] removes a blank prefix and nothing else. *)
Lemma lstrip_split s : exists pre, s = pre ++ lstrip s /\ blank pre = true.
Proof.
  induction s as [|c s (pre & Hs & Hp)]; simpl.
  - exists "". auto.
  - destruct (is_whitespace c) eqn:Hc.
    + exists (String c pre). rewrite append_cons. simpl. rewrite Hc, Hp.
      split; [f_equal; exact Hs|reflexivity].
    + exists "". auto.
Qed.

(** Unless it removes everything, [lstrip] does not look past the first
    byte that is not blank. *)
Lemma lstrip_app s post : lstrip s <> "" -> lstrip (s ++ post) = lstrip s ++ post.
Proof.
  induction s as [|c s IH]; [contradiction|].
  rewrite append_cons. simpl.
  destruct (is_whitespace c); [exact IH|reflexivity].
Qed.

(** [bytes.rstrip], the second half of [strip]. *)
Lemma strip_unfold s : strip s = reverse (lstrip (reverse (lstrip s))).
Proof. reflexivity. Qed.

Lemma rstrip_app_blank s post :
  blank post = true ->
  reverse (lstrip (reverse (s ++ post))) = reverse (lstrip (reverse s)).
Proof.
  intros Hp. rewrite reverse_app, lstrip_app_blank; [reflexivity|].
  rewrite blank_reverse. exact Hp.
Qed.

(** What [strip] returns starts and ends with a byte that is not blank. *)
Lemma strip_clean s : starts_clean (strip s) /\ starts_clean (reverse (strip s)).
Proof.
  rewrite strip_unfold. split.
  - pose proof (lstrip_starts_clean s) as Hl.
    destruct (lstrip_split (reverse (lstrip s))) as (pre & Hs & Hp).
    set (x := lstrip s) in *. set (y := lstrip (reverse x)) in *.
    assert (Hx : x = reverse y ++ reverse pre).
    { rewrite <- (reverse_involutive x), Hs, reverse_app. reflexivity. }
    destruct (reverse y) as [|c r] eqn:Hy; [exact I|].
    rewrite Hx in Hl. exact Hl.
  - rewrite reverse_involutive. apply lstrip_starts_clean.
Qed.


Lemma strip_split s :
  exists pre post,
    s = pre ++ strip s ++ post /\ blank pre = true /\ blank post = true.
Proof.
  destruct (lstrip_split s) as (pre & Hs & Hp).
  destruct (lstrip_split (reverse (lstrip s))) as (q & Hr & Hq).
  exists pre, (reverse q). repeat split.
  - rewrite strip_unfold, <- reverse_app, <- Hr, reverse_involutive. exact Hs.
  - exact Hp.
  - rewrite blank_reverse. exact Hq.
Qed.

Lemma strip_around pre s post :
  blank pre = true -> blank post = true -> strip (pre ++ s ++ post) = strip s.
Proof.
  intros Hp Hq. rewrite !strip_unfold. rewrite lstrip_app_blank by exact Hp.
  destruct (lstrip s) as [|c x] eqn:Hl.
  - destruct (lstrip_split s) as (pre' & Hs & Hp'). rewrite Hl in Hs.
    assert (Hb : blank (s ++ post) = true).
    { rewrite blank_app, Hq, Hs, blank_app, Hp'. reflexivity. }
    rewrite (lstrip_blank _ Hb). reflexivity.
  - rewrite lstrip_app by (rewrite Hl; discriminate). rewrite Hl.
    apply rstrip_app_blank. exact Hq.
Qed.

End Names.

Section Requests.
Import Vive.
Context `{Wire}.
Local Open Scope string_scope.

(** The bytes that [handle] decodes are the datagram without a blank
    prefix and a blank suffix (blank: space, tab, newline, vertical tab,
    form feed, carriage return), and they neither start nor end with a
    blank byte. *)
Lemma handle_strips_blanks data :
  exists pre post,
    data = pre ++ strip data ++ post /\
    blank pre = true /\ blank post = true /\
    starts_clean (strip data) /\ starts_clean (reverse (strip data)).
Proof.
  destruct (strip_split data) as (pre & post & Hs & Hp & Hq).
  destruct (strip_clean data) as [Hc Hr].
  exists pre, post. auto.
Qed.

(** Blank bytes around the name make no difference to the handler: the
    same events, the same datagram sent, the same outcome. *)
Theorem handle_ignores_blanks pre data post client (devices : gmap string tracker) :
  blank pre = true -> blank post = true ->
  handle (pre ++ data ++ post) client devices = handle data client devices.
Proof.
  intros Hp Hq. unfold handle. rewrite strip_around by assumption. reflexivity.
Qed.

End Requests.

(** ** The script: calibrate once, then poll *)

Section ScriptRuns.
Import Np Camera Script.
Context `{Cv2}.

Ltac all_quiet :=
  repeat first [apply List.Forall_cons | apply List.Forall_nil | apply Forall_app_2];
  simpl; try exact I; try assumption.

Lemma get_trans_mat_quiet img s : Forall quiet (events (get_trans_mat img s)).
Proof. destruct (get_trans_mat_shape img s) as [-> | ->]; all_quiet. Qed.

Lemma load_matrices_quiet m rv tv s : Forall quiet (events (load_matrices m rv tv s)).
Proof. destruct (load_matrices_shape m rv tv s) as [-> | ->]; all_quiet. Qed.

Lemma tick_quiet show_img i s : Forall quiet (events (calibrate_tick show_img i s)).
Proof.
  destruct (next_pose i) as [p|] eqn:Hp.
  2:{ unfold calibrate_tick, wait_for_frames, events. run_monad.
      rewrite Hp. all_quiet. }
  destruct (next_color i) as [img|] eqn:Hc.
  2:{ unfold calibrate_tick, wait_for_frames, events. run_monad.
      rewrite Hp, Hc. all_quiet. }
  destruct (rvec_to_rpy (rotation p)) as [e|rpy] eqn:Hr.
  { unfold calibrate_tick, wait_for_frames, events. run_monad.
    rewrite Hp, Hc. simpl. rewrite Hr. all_quiet. }
  pose proof (get_trans_mat_quiet img s) as Hg.
  destruct show_img.
  - rewrite (tick_gui s i p img rpy Hp Hc Hr). cbv zeta.
    destruct (get_trans_mat img s) as [[t s1] o]. unfold events in *. simpl in Hg.
    destruct o as [[[[m tv] rv]|]|e|]; simpl;
      try solve [destruct (attitude_flag rpy (calibrate_thres s)); all_quiet].
    destruct (attitude_flag rpy (calibrate_thres s)); simpl; [all_quiet|].
    pose proof (load_matrices_quiet m (snd (pose_frame_data p))
                  (fst (pose_frame_data p)) s1) as Hl.
    destruct (load_matrices _ _ _ s1) as [[t2 s2] o2]. unfold events in Hl.
    simpl in *. all_quiet.
  - destruct (attitude_flag rpy (calibrate_thres s)) eqn:Hf.
    + rewrite (tick_cli_rejected s i p img rpy Hp Hc Hr Hf). simpl. all_quiet.
    + rewrite (tick_cli_passed s i p img rpy Hp Hc Hr Hf).
      destruct (get_trans_mat img s) as [[t s1] o]. unfold events in *. simpl in Hg.
      destruct o as [[[[m tv] rv]|]|e|]; simpl; try solve [all_quiet].
      pose proof (load_matrices_quiet m (snd (pose_frame_data p))
                    (fst (pose_frame_data p)) s1) as Hl.
      destruct (load_matrices _ _ _ s1) as [[t2 s2] o2]. unfold events in Hl.
      simpl in *. all_quiet.
Qed.

Lemma calibrate_loop_quiet show_img fs :
  forall s, Forall quiet (events (calibrate_loop show_img fs s)).
Proof.
  induction fs as [|i rest IH]; intros s.
  - simpl. destruct (calibrated s); constructor.
  - destruct (calibrated s) eqn:Hs.
    + rewrite calibrate_loop_done by exact Hs. constructor.
    + rewrite calibrate_loop_step by exact Hs. unfold bind.
      pose proof (tick_quiet show_img i s) as Ht.
      destruct (calibrate_tick show_img i s) as [[t1 s1] [[]|e|]];
        unfold events in *; simpl in *; try exact Ht.
      specialize (IH s1).
      destruct (calibrate_loop show_img rest s1) as [[t2 s2] o2]. simpl in *.
      apply Forall_app_2; assumption.
Qed.

Lemma calibrate_quiet show_img fs s : Forall quiet (events (calibrate show_img fs s)).
Proof.
  unfold calibrate, bind, emit.
  pose proof (calibrate_loop_quiet show_img fs s) as Hl.
  destruct (calibrate_loop show_img fs s) as [[t s1] o]. unfold events in *.
  simpl in *. constructor; [exact I|exact Hl].
Qed.

(** On a calibrated object [poll] stops no pipeline and does not complain
    about a missing calibration; it raises nothing but [SystemExit]. *)
Lemma poll_quiet i s :
  calibrated s = true ->
  Forall quiet (events (poll i s)) /\
  result (poll i s) <> Blocks /\
  (forall e, result (poll i s) = Raises e -> e = SystemExit 0).
Proof.
  intros Hs.
  destruct (next_color i) as [img|] eqn:Hc.
  2:{ rewrite poll_no_color by assumption. unfold events, result. simpl.
      split; [all_quiet|]. split; [discriminate|]. intros; discriminate. }
  destruct (next_pose i) as [p|] eqn:Hp.
  2:{ rewrite (poll_no_pose i s img) by assumption. unfold events, result. simpl.
      split; [all_quiet|]. split; [discriminate|]. intros; discriminate. }
  destruct (t2m s) as [a|] eqn:Ht.
  2:{ rewrite (poll_no_transform i s img p) by assumption. unfold events, result.
      simpl. split; [all_quiet|]. split; [discriminate|]. intros; discriminate. }
  destruct (show_gui s) eqn:Hg.
  2:{ rewrite (poll_headless i s img p a) by assumption. unfold events, result.
      simpl. split; [all_quiet|]. split; [discriminate|]. intros; discriminate. }
  rewrite (poll_window i s img p a Hs Hc Hp Ht Hg). cbv zeta.
  rewrite poll_gui_run.
  set (s1 := set_location _ s).
  pose proof (get_trans_mat_quiet img s1) as Hq.
  pose proof (get_trans_mat_raises img s1) as Hr.
  pose proof (get_trans_mat_blocks img s1) as Hb.
  destruct (detect_mode s1).
  - destruct (result (get_trans_mat img s1)) as [[[[c2m tv] rv]|]|e|];
      [| | |contradiction].
    + destruct ((Z.land (key i) 255 =? 113) || (key i =? 27))%Z; simpl;
        [|destruct (Z.land (key i) 255 =? 100)%Z]; unfold events, result; simpl;
        (split; [all_quiet|]); (split; [discriminate|]); intros e He;
        congruence.
    + destruct ((Z.land (key i) 255 =? 113) || (key i =? 27))%Z; simpl;
        [|destruct (Z.land (key i) 255 =? 100)%Z]; unfold events, result; simpl;
        (split; [all_quiet|]); (split; [discriminate|]); intros e He;
        congruence.
    + rewrite (Hr e eq_refl). unfold events, result. simpl.
      split; [all_quiet|]. split; [discriminate|]. intros; discriminate.
  - destruct ((Z.land (key i) 255 =? 113) || (key i =? 27))%Z; simpl;
      [|destruct (Z.land (key i) 255 =? 100)%Z]; unfold events, result; simpl;
      (split; [all_quiet|]); (split; [discriminate|]); intros e He;
      congruence.
Qed.

Lemma call_run {A} (m : Camera.Run A) s :
  call m s = (map Method (events (m s)), object (m s), result (m s)).
Proof. unfold call. destruct (m s) as [[t s1] o]. reflexivity. Qed.

Lemma map_Method_undisturbed t : Forall quiet t -> Forall undisturbed (map Method t).
Proof. intros Ht. apply Forall_map. exact Ht. Qed.

(** How the loop ends on a calibrated object: by returning, after
    [stop()]; by [SystemExit]; or waiting for a frame. *)
Lemma poll_loop_ends fs :
  forall c s,
    calibrated s = true ->
    match result (poll_loop fs c s) with
    | Returns _ =>
        exists before,
          events (poll_loop fs c s) = before ++ stopping /\
          Forall undisturbed before
    | Raises e =>
        e = SystemExit 0 /\ Forall undisturbed (events (poll_loop fs c s))
    | Blocks => Forall undisturbed (events (poll_loop fs c s))
    end.
Proof.
  induction fs as [|i rest IH]; intros c s Hs.
  - simpl. constructor.
  - cbn [poll_loop]. unfold bind. rewrite call_run.
    destruct (poll_quiet i s Hs) as (Hq & Hb & Hr).
    destruct (poll_keeps i s) as [Hc _]. rewrite Hs in Hc.
    apply map_Method_undisturbed in Hq.
    destruct (poll i s) as [[t1 s1] o1].
    unfold events, object, result in *. cbn [fst snd] in *.
    destruct o1 as [[|v]|e|]; [| | |contradiction].
    + simpl. exists (map Method t1). split; [reflexivity|exact Hq].
    + cbn [isnan_all]. unfold when, emit, ret. cbv beta iota zeta.
      specialize (IH (c + 1)%Z s1 Hc).
      destruct (c mod 20 =? 0)%Z; cbv beta iota zeta;
        destruct (poll_loop rest (c + 1) s1) as [[t2 s2] o2];
        destruct o2 as [[]|e2|]; simpl in IH |- *.
      * destruct IH as (before & -> & Hbf).
        exists (map Method t1 ++ PrintLoc (Location v) :: before).
        split; [rewrite <- app_assoc; reflexivity|].
        apply Forall_app_2; [exact Hq|]. constructor; [exact I|exact Hbf].
      * destruct IH as [-> Hbf]. split; [reflexivity|].
        apply Forall_app_2; [exact Hq|]. constructor; [exact I|exact Hbf].
      * apply Forall_app_2; [exact Hq|]. constructor; [exact I|exact IH].
      * destruct IH as (before & -> & Hbf).
        exists (map Method t1 ++ before).
        split; [rewrite <- app_assoc; reflexivity|].
        apply Forall_app_2; assumption.
      * destruct IH as [-> Hbf]. split; [reflexivity|].
        apply Forall_app_2; assumption.
      * apply Forall_app_2; assumption.
    + simpl. split; [apply Hr; reflexivity|exact Hq].
Qed.

Lemma undisturbed_no_stop t :
  Forall undisturbed t -> ~ In (Method (PipeStop pipe_d)) t.
Proof.
  intros Ht Hi. rewrite List.Forall_forall in Ht. exact (Ht _ Hi).
Qed.

(** The script, split at the end of the calibration. *)
Lemma main_run mtx dist calibration polling :
  main mtx dist calibration polling =
  let c := calibrate true calibration (init true mtx dist) in
  match result c with
  | Returns _ =>
      let '(t, s, o) := poll_loop polling 0 (object c) in
      (map Method (events c) ++ t, s, o)
  | Raises e => (map Method (events c), object c, Raises e)
  | Blocks => (map Method (events c), object c, Blocks)
  end.
Proof.
  unfold main, bind. rewrite call_run. cbv zeta.
  destruct (result (calibrate true calibration (init true mtx dist)));
    reflexivity.
Qed.

(** How the script ends: by returning, after [stop()], with nothing
    stopped before; or else with no pipeline stopped at all. *)
Lemma main_ends mtx dist calibration polling :
  match result (main mtx dist calibration polling) with
  | Returns _ =>
      exists before,
        events (main mtx dist calibration polling) = before ++ stopping /\
        Forall undisturbed before
  | _ => Forall undisturbed (events (main mtx dist calibration polling))
  end.
Proof.
  rewrite main_run. cbv zeta.
  pose proof (calibrate_quiet true calibration (init true mtx dist)) as Hq.
  apply map_Method_undisturbed in Hq.
  pose proof (calibrate_returns_calibrated true calibration (init true mtx dist)) as Hc.
  destruct (result (calibrate true calibration (init true mtx dist))) as [[]|e|];
    [|exact Hq|exact Hq].
  pose proof (poll_loop_ends polling 0%Z _ (Hc eq_refl)) as Hl.
  destruct (poll_loop polling 0 _) as [[t s] o].
  unfold events, result in *. cbn [fst snd] in *.
  destruct o as [[]|e|].
  - destruct Hl as (before & -> & Hb).
    exists (map Method (calibrate true calibration (init true mtx dist)).1.1 ++ before).
    split; [rewrite <- app_assoc; reflexivity|]. apply Forall_app_2; assumption.
  - destruct Hl as [_ Hl]. apply Forall_app_2; assumption.
  - apply Forall_app_2; assumption.
Qed.

(** The script stops the pipelines exactly when it ends by returning,
    that is through the branch of a [poll] that gave [np.nan]; [stop()]
    is then the last thing it does, and it does it once.  When
    [calibrate] raises, or the window is closed with q or Esc, the script
    ends without a call of [stop()]. *)
Theorem main_stops_iff_returns mtx dist calibration polling :
  (In (Method (PipeStop pipe_d)) (events (main mtx dist calibration polling)) <->
   result (main mtx dist calibration polling) = Returns tt) /\
  (result (main mtx dist calibration polling) = Returns tt ->
   exists before,
     events (main mtx dist calibration polling) = before ++ stopping /\
     ~ In (Method (PipeStop pipe_d)) before).
Proof.
  pose proof (main_ends mtx dist calibration polling) as He.
  destruct (result (main mtx dist calibration polling)) as [[]|e|].
  - destruct He as (before & Hev & Hb). split.
    + split; [reflexivity|]. intros _. rewrite Hev. apply in_or_app. right.
      simpl. auto.
    + intros _. exists before. split; [exact Hev|].
      apply undisturbed_no_stop. exact Hb.
  - split; [|intros; discriminate]. split; [|intros; discriminate].
    intros Hi. exfalso. exact (undisturbed_no_stop _ He Hi).
  - split; [|intros; discriminate]. split; [|intros; discriminate].
    intros Hi. exfalso. exact (undisturbed_no_stop _ He Hi).
Qed.

(** The script never polls too early: the error "Camera not calibrated
    yet" is not logged in any run of it. *)
Theorem main_never_polls_uncalibrated mtx dist calibration polling :
  Forall (fun e => e <> Method (LoggerError NotCalibratedYet))
    (events (main mtx dist calibration polling)).
Proof.
  pose proof (main_ends mtx dist calibration polling) as He.
  assert (Hu : forall t, Forall undisturbed t ->
                 Forall (fun e => e <> Method (LoggerError NotCalibratedYet)) t).
  { intros t Ht. eapply List.Forall_impl; [|exact Ht].
    intros e He' ->. exact He'. }
  destruct (result (main mtx dist calibration polling)) as [[]|e|];
    try (apply Hu; exact He).
  destruct He as (before & -> & Hb).
  apply Forall_app_2; [apply Hu; exact Hb|].
  unfold stopping. repeat constructor; discriminate.
Qed.

Lemma printed_app t u : printed (t ++ u) = printed t ++ printed u.
Proof. unfold printed. apply flat_map_app. Qed.

Lemma printed_map_Method t : printed (map Method t) = [].
Proof. induction t as [|e t IH]; [reflexivity|exact IH]. Qed.

(** The number of locations that the loop prints, from the value of the
    counter at its start. *)
Lemma poll_loop_printed fs :
  forall c s,
    (0 <= c)%Z ->
    (Z.of_nat (length (printed (events (poll_loop fs c s)))) <=
     (c + Z.of_nat (length fs) + 19) / 20 - (c + 19) / 20)%Z.
Proof.
  induction fs as [|i rest IH]; intros c s Hc.
  - simpl. rewrite Z.add_0_r. lia.
  - cbn [poll_loop]. unfold bind. rewrite call_run.
    destruct (poll i s) as [[t1 s1] o1].
    unfold events, object, result in *. cbn [fst snd] in *.
    assert (Hmono : (0 <= (c + Z.of_nat (length (i :: rest)) + 19) / 20 - (c + 19) / 20)%Z).
    { cbn [length]. apply Zle_minus_le_0. apply Z.div_le_mono; lia. }
    destruct o1 as [[|v]|e|].
    + simpl. rewrite printed_app, !printed_map_Method. simpl. exact Hmono.
    + cbn [isnan_all]. unfold when, emit, ret. cbv beta iota zeta.
      assert (Hc1 : (0 <= c + 1)%Z) by lia.
      specialize (IH (c + 1)%Z s1 Hc1).
      destruct (Z.eqb_spec (c mod 20) 0) as [Hm|Hm]; cbv beta iota zeta;
        destruct (poll_loop rest (c + 1) s1) as [[t2 s2] o2];
        assert (Ht2 : (Z.of_nat (length (printed t2)) <=
                       (c + 1 + Z.of_nat (length rest) + 19) / 20 - (c + 1 + 19) / 20)%Z)
          by exact IH; clear IH;
        cbn [length] in Hmono |- *; rewrite Nat2Z.inj_succ in Hmono |- *.
      * assert (Hp : (Z.of_nat (length (printed (map Method t1 ++
                         PrintLoc (Location v) :: t2))) =
                      1 + Z.of_nat (length (printed t2)))%Z).
        { rewrite printed_app, printed_map_Method.
          change (printed (PrintLoc (Location v) :: t2)) with (Location v :: printed t2).
          cbn [app length]. rewrite Nat2Z.inj_succ. lia. }
        assert (Hd : ((c + 19) / 20 + 1 <= (c + 1 + 19) / 20)%Z).
        { apply Z.div_le_lower_bound; [lia|].
          pose proof (Z.div_mod c 20 ltac:(lia)) as E1.
          pose proof (Z.div_mod (c + 19) 20 ltac:(lia)) as E2.
          pose proof (Z.mod_pos_bound (c + 19) 20 ltac:(lia)). lia. }
        replace (c + Z.succ (Z.of_nat (length rest)) + 19)%Z
          with (c + 1 + Z.of_nat (length rest) + 19)%Z by lia.
        destruct o2 as [[]|e2|]; cbn [fst snd app]; rewrite Hp; lia.
      * assert (Hp : (Z.of_nat (length (printed (map Method t1 ++ t2))) =
                      Z.of_nat (length (printed t2)))%Z).
        { rewrite printed_app, printed_map_Method. reflexivity. }
        assert (Hd : ((c + 19) / 20 <= (c + 1 + 19) / 20)%Z)
          by (apply Z.div_le_mono; lia).
        replace (c + Z.succ (Z.of_nat (length rest)) + 19)%Z
          with (c + 1 + Z.of_nat (length rest) + 19)%Z by lia.
        destruct o2 as [[]|e2|]; cbn [fst snd app]; rewrite Hp; lia.
    + simpl. rewrite printed_map_Method. exact Hmono.
    + simpl. rewrite printed_map_Method. exact Hmono.
Qed.

(** The script prints at most one location in twenty: in a run whose
    loop makes at most [n] passes, at most ceil(n / 20) locations are
    printed. *)
Theorem main_prints_one_in_twenty mtx dist calibration polling :
  (Z.of_nat (length (printed (events (main mtx dist calibration polling)))) <=
   (Z.of_nat (length polling) + 19) / 20)%Z.
Proof.
  rewrite main_run. cbv zeta.
  destruct (result (calibrate true calibration (init true mtx dist))) as [[]|e|].
  - pose proof (poll_loop_printed polling 0%Z
                  (object (calibrate true calibration (init true mtx dist)))
                  ltac:(lia)) as Hl.
    destruct (poll_loop polling 0 _) as [[t s] o].
    unfold events in *. cbn [fst snd] in *.
    rewrite printed_app, printed_map_Method. cbn [app].
    change ((0 + 19) / 20)%Z with 0%Z in Hl.
    replace (0 + Z.of_nat (length polling) + 19)%Z
      with (Z.of_nat (length polling) + 19)%Z in Hl by lia.
    lia.
  - unfold events. cbn [fst snd]. rewrite printed_map_Method. simpl.
    apply Z.div_pos; lia.
  - unfold events. cbn [fst snd]. rewrite printed_map_Method. simpl.
    apply Z.div_pos; lia.
Qed.

End ScriptRuns.
(** ** The further properties on the synthetic scene *)

Section SyntheticPoses.
Import Np Camera Synthetic Rigid.

Lemma quarter_turn_in_range : - PI < PI / 2 <= PI.
Proof. pose proof PI_RGT_0. lra. Qed.

Lemma half_turn_in_range : - PI < PI <= PI.
Proof. pose proof PI_RGT_0. lra. Qed.

Lemma quarter_pitch_in_range : - (PI / 2) <= PI / 2 <= PI / 2.
Proof. pose proof PI_RGT_0. lra. Qed.

(** The rotation by half a turn about the z axis. *)
Lemma rodrigues_half_turn :
  rodrigues (V3 0 0 PI) = M3 (V3 (-1) 0 0) (V3 0 (-1) 0) (V3 0 0 1).
Proof.
  unfold rodrigues. simpl.
  replace (0 * 0 + 0 * 0 + PI * PI) with (Rsqr PI) by (unfold Rsqr; ring).
  rewrite sqrt_Rsqr by (pose proof PI_RGT_0; lra).
  destruct (Req_dec_T PI 0) as [E|_]; [exfalso; exact (PI_neq0 E)|].
  rewrite cos_PI, sin_PI.
  f_equal; f_equal; field; exact PI_neq0.
Qed.

Lemma orthogonal_half_turn : orthogonal (@Rodrigues scene (V3 0 0 PI)).
Proof.
  simpl. rewrite rodrigues_half_turn.
  unfold orthogonal, matmul3, transpose3, dot3, identity3. simpl.
  f_equal; f_equal; ring.
Qed.


(** A quarter turn about x. *)
Lemma rvec_to_rpy_quarter_roll :
  - PI < PI / 2 <= PI /\
  rvec_to_rpy (V4 (sin (PI / 2 / 2)) 0 0 (cos (PI / 2 / 2))) =
  inr (V3 (PI / 2 * 180 / PI) 0 0).
Proof.
  split; [exact quarter_turn_in_range|].
  exact (rvec_to_rpy_pure_roll (PI / 2) quarter_turn_in_range).
Defined.

(** Half a turn about z. *)
Lemma rvec_to_rpy_half_yaw :
  - PI < PI <= PI /\
  rvec_to_rpy (V4 0 0 (sin (PI / 2)) (cos (PI / 2))) = inr (V3 0 0 (PI * 180 / PI)).
Proof.
  split; [exact half_turn_in_range|].
  exact (rvec_to_rpy_pure_yaw PI half_turn_in_range).
Defined.

(** A quarter turn about y, the end of the range of the pitch. *)
Lemma rvec_to_rpy_quarter_pitch :
  - (PI / 2) <= PI / 2 <= PI / 2 /\
  rvec_to_rpy (V4 0 (sin (PI / 2 / 2)) 0 (cos (PI / 2 / 2))) =
  inr (V3 0 (PI / 2 * 180 / PI) 0).
Proof.
  split; [exact quarter_pitch_in_range|].
  exact (rvec_to_rpy_pure_pitch (PI / 2) quarter_pitch_in_range).
Defined.

(** [marker_7], one unit in front of the camera, is the origin of the
    world. *)
Lemma cam2marker_marker_7_at_origin :
  @cam2marker scene [V3 0 0 0] [V3 0 0 1] = inr camera_to_marker_7 /\
  matvec camera_to_marker_7 (point (V3 0 0 1)) = V4 0 0 0 1 /\
  matvec (homogeneous (@Rodrigues scene (V3 0 0 0)) (V3 0 0 1))
    (matvec camera_to_marker_7 (point (V3 0 0 1))) = point (V3 0 0 1) /\
  w3 camera_to_marker_7 = V4 0 0 0 1.
Proof.
  split; [exact cam2marker_marker_7|].
  exact (@cam2marker_marker_at_origin scene (V3 0 0 0) (V3 0 0 1) camera_to_marker_7
           cam2marker_marker_7).
Defined.

(** A marker turned by half a turn about the optical axis. *)
Lemma cam2marker_rigid_half_turn :
  orthogonal (@Rodrigues scene (V3 0 0 PI)) /\
  @cam2marker scene [V3 0 0 PI] [V3 1 0 1] =
  inr (homogeneous (transpose3 (@Rodrigues scene (V3 0 0 PI)))
         (opp3 (matvec3 (transpose3 (@Rodrigues scene (V3 0 0 PI))) (V3 1 0 1)))).
Proof.
  split; [exact orthogonal_half_turn|].
  exact (@cam2marker_rigid scene (V3 0 0 PI) (V3 1 0 1) orthogonal_half_turn).
Defined.

End SyntheticPoses.

Section SyntheticPolls.
Import Np Camera Synthetic Rigid Frame.

Lemma poll_at_origin :
  result (@poll scene (frames level_pose [marker_7] (-1)) (calibrated_on_marker_7 false)) =
  Returns (Location (V3 0 0 (-1))).
Proof.
  rewrite (@poll_headless scene (frames level_pose [marker_7] (-1))
             (calibrated_on_marker_7 false) [marker_7] level_pose
             (matmul camera_to_marker_7 base_c2c)
             eq_refl eq_refl eq_refl eq_refl eq_refl).
  cbv zeta. unfold result. cbn [snd]. f_equal. f_equal.
  exact origin_seen_from_marker_7.
Qed.

Lemma get_trans_mat_two_markers s :
  result (@get_trans_mat scene [marker_7; marker_9] s) = Raises ValueError.
Proof.
  rewrite (@get_trans_mat_ambiguous scene [marker_7; marker_9] [marker_7; marker_9]
             7%Z 9%Z [] s eq_refl).
  reflexivity.
Qed.


Lemma after_calibrate_on_marker_7 :
  @after_all scene [CallCalibrate false [frames level_pose [marker_7] (-1)]]
    (init false identity3 []) = calibrated_on_marker_7 false.
Proof.
  simpl. change (init false identity3 []) with (fresh false).
  rewrite calibrate_on_marker_7. reflexivity.
Qed.

Lemma after_calibrate_calibrated :
  calibrated
    (@after_all scene [CallCalibrate false [frames level_pose [marker_7] (-1)]]
       (init false identity3 [])) = true.
Proof. rewrite after_calibrate_on_marker_7. reflexivity. Qed.

Lemma poll_after_calibrate :
  result (@poll scene (frames level_pose [marker_7] (-1))
            (@after_all scene [CallCalibrate false [frames level_pose [marker_7] (-1)]]
               (init false identity3 []))) =
  Returns (Location (V3 0 0 (-1))).
Proof. rewrite after_calibrate_on_marker_7. exact poll_at_origin. Qed.


(** A poll of the object calibrated on [marker_7], the tracker at its
    origin. *)
Lemma poll_returns_stored_location_at_origin :
  result (@poll scene (frames level_pose [marker_7] (-1)) (calibrated_on_marker_7 false)) =
    Returns (Location (V3 0 0 (-1))) /\
  calibrated (calibrated_on_marker_7 false) = true /\
  location (object (@poll scene (frames level_pose [marker_7] (-1))
                      (calibrated_on_marker_7 false))) = V3 0 0 (-1) /\
  exists p a,
    next_pose (frames level_pose [marker_7] (-1)) = Some p /\
    t2m (calibrated_on_marker_7 false) = Some a /\
    V3 0 0 (-1) = take3 (matvec a (point (translation p))).
Proof.
  split; [exact poll_at_origin|].
  exact (@poll_returns_stored_location scene (frames level_pose [marker_7] (-1))
           (calibrated_on_marker_7 false) (V3 0 0 (-1)) poll_at_origin).
Defined.

(** Two markers in sight of the object with a window, calibrated on
    [marker_7], while the second look-up is on: the location is stored,
    and the call gives [np.nan]. *)
Lemma poll_nan_with_two_markers :
  calibrated (set_detect_mode true (calibrated_on_marker_7 true)) = true /\
  show_gui (set_detect_mode true (calibrated_on_marker_7 true)) = true /\
  detect_mode (set_detect_mode true (calibrated_on_marker_7 true)) = true /\
  result (@get_trans_mat scene [marker_7; marker_9]
            (set_detect_mode true (calibrated_on_marker_7 true))) = Raises ValueError /\
  result (@poll scene (frames level_pose [marker_7; marker_9] (-1))
            (set_detect_mode true (calibrated_on_marker_7 true))) = Returns NaN /\
  location (object (@poll scene (frames level_pose [marker_7; marker_9] (-1))
                      (set_detect_mode true (calibrated_on_marker_7 true)))) =
    take3 (matvec (matmul camera_to_marker_7 base_c2c) (point (translation level_pose))) /\
  In (LoggerError (Error ValueError))
    (events (@poll scene (frames level_pose [marker_7; marker_9] (-1))
               (set_detect_mode true (calibrated_on_marker_7 true)))).
Proof.
  do 4 (split; [first [reflexivity | exact (get_trans_mat_two_markers _)]|]).
  exact (@poll_nan_after_location_update scene
           (frames level_pose [marker_7; marker_9] (-1))
           (set_detect_mode true (calibrated_on_marker_7 true))
           [marker_7; marker_9] level_pose (matmul camera_to_marker_7 base_c2c) ValueError
           eq_refl eq_refl eq_refl eq_refl eq_refl eq_refl
           (get_trans_mat_two_markers _)).
Defined.



(** The object after the calibration on [marker_7]. *)
Lemma transforms_consistent_after_marker_7 :
  calibrated
    (@after_all scene [CallCalibrate false [frames level_pose [marker_7] (-1)]]
       (init false identity3 [])) = true /\
  exists m,
    d2m (@after_all scene [CallCalibrate false [frames level_pose [marker_7] (-1)]]
           (init false identity3 [])) = Some m /\
    t2d (@after_all scene [CallCalibrate false [frames level_pose [marker_7] (-1)]]
           (init false identity3 [])) = Some base_c2c /\
    t2m (@after_all scene [CallCalibrate false [frames level_pose [marker_7] (-1)]]
           (init false identity3 [])) = Some (matmul m base_c2c) /\
    matmul (matmul m base_c2c) base_c2c = m.
Proof.
  split; [exact after_calibrate_calibrated|].
  exact (@transforms_consistent scene false identity3 []
           [CallCalibrate false [frames level_pose [marker_7] (-1)]]
           after_calibrate_calibrated).
Defined.

(** A poll after the calibration on [marker_7]. *)
Lemma poll_world_location_after_marker_7 :
  result (@poll scene (frames level_pose [marker_7] (-1))
            (@after_all scene [CallCalibrate false [frames level_pose [marker_7] (-1)]]
               (init false identity3 []))) =
    Returns (Location (V3 0 0 (-1))) /\
  exists m p,
    d2m (@after_all scene [CallCalibrate false [frames level_pose [marker_7] (-1)]]
           (init false identity3 [])) = Some m /\
    next_pose (frames level_pose [marker_7] (-1)) = Some p /\
    V3 0 0 (-1) =
    take3 (matvec m (V4 (c0 (translation p)) (- c1 (translation p))
                        (- c2 (translation p)) 1)).
Proof.
  split; [exact poll_after_calibrate|].
  exact (@poll_world_location scene false identity3 []
           [CallCalibrate false [frames level_pose [marker_7] (-1)]]
           (frames level_pose [marker_7] (-1)) (V3 0 0 (-1)) poll_after_calibrate).
Defined.

End SyntheticPolls.

Section SyntheticRequests.
Import Vive Synthetic.

(** A name with blanks and a line end around it. *)
Lemma handle_ignores_blanks_on_wire :
  blank "  " = true /\ blank " " = true /\
  @handle ascii_wire ("  " ++ "tracker_1" ++ " ") 5%nat registry =
  @handle ascii_wire "tracker_1" 5%nat registry.
Proof.
  do 2 (split; [reflexivity|]).
  exact (@handle_ignores_blanks ascii_wire "  " "tracker_1" " " 5%nat registry
           eq_refl eq_refl).
Defined.

End SyntheticRequests.
